(** * The experience-learning pipeline of mentaliststars_web

    A shallow embedding of the backend services that keep the learning
    state of a mentalist persona:

    - [EnhancedChat] (session life cycle and message log),
    - [ExperienceCapture] (outcome record, persona counters, per-trick
      metrics),
    - [KnowledgeBuilder.analyzeSuccessfulTricks] (ranking of tricks over a
      window of experiences),

    together with the tables of [backend/src/db/schema.sql] they read and
    write; and, around them, the ids of [UserIdentityService] and of the
    client, the fallback analysis, the helpers of [UserMemoryService], the
    routes [POST /api/session/end] and [POST /api/mentalist/init], and the
    loops that relay and read the event stream of a reply.  JavaScript
    numbers that hold counts and timestamps are [Z] (they are exact in a
    double below 2^53).  A sentiment is the rational its decimal text
    denotes, and is compared with the decimal thresholds of the source (the
    doubles nearest to them compare the same way for texts of up to 15
    significant digits).  The rates, averages and percentages that the code
    computes are IEEE-754 doubles: a finite double is the rational [Q] it
    stands for, and every division, product and sum is rounded to the
    nearest double ([Binary64]).  Strings are [string].  Every
    [await db.prepare(..).run()] is one statement applied to the store; the
    code opens no transaction, so a statement that throws leaves the effects
    of the statements before it in place. *)

From Stdlib Require Import ZArith QArith Qround Qpower Qabs Lqa List String Ascii Bool Lia.
From Stdlib Require Import Sorted Permutation DecimalString.
From Stdlib Require DecimalZ DecimalPos SpecFloat.
Import ListNotations.

Local Open Scope Z_scope.
Local Open Scope list_scope.

(** ** JavaScript helpers *)

(** [`${n}`] for an integral number. *)
Definition dec (n : Z) : string := NilZero.string_of_int (Z.to_int n).

(** Truthiness of a string: every string but the empty one. *)
Definition truthy (s : string) : bool := negb (s =? "")%string.

(** [o || d] for an optional string property. *)
Definition or_default (o : option string) (d : string) : string :=
  match o with
  | Some s => if truthy s then s else d
  | None => d
  end.

(** [xs.join(sep)]. *)
Definition join (sep : string) (xs : list string) : string := String.concat sep xs.

(** [xs.filter(p).length]. *)
Definition count {A} (p : A -> bool) (l : list A) : Z := Z.of_nat (List.length (filter p l)).

(** ** Numbers

    A JavaScript number is an IEEE-754 binary64 value.  A finite one is
    modelled by the rational it stands for; the result of an arithmetic
    operation is the exact result rounded to the nearest double, the one with
    an even significand when two are as near (the rounding of ECMAScript
    6.1.6.1).  A double has a significand of 53 bits, so the last place of a
    double of magnitude [2^e <= |q| < 2^(e+1)] is [2^(e-52)], and no last
    place is below [2^(-1074)] (subnormal numbers).  Infinities and NaN are
    not values of the model: the divisors of the code modelled here are
    counts, positive in every row and every group the code itself has
    written, and the operands stay far below [2^1024]. *)

Module Binary64.

(** [floor (log2 q)] for a positive rational. *)
Definition Qlog2 (q : Q) : Z :=
  let l := Z.log2 (Qnum q) - Z.log2 (Z.pos (Qden q)) in
  if Qle_bool (2 ^ l) q then l else l - 1.

(** The integer nearest to [x], the even one of two that are as near. *)
Definition nearest_even (x : Q) : Z :=
  let f := Qfloor x in
  match Qcompare (x - inject_Z f) (1 # 2) with
  | Lt => f
  | Gt => f + 1
  | Eq => if Z.even f then f else f + 1
  end.

(** The exponent of the last place of the doubles around [q]: 52 binary
    places below the leading one, and never below that of the subnormal
    numbers. *)
Definition last_place (q : Q) : Z := Z.max (Qlog2 (Qabs q) - 52) (- 1074).

(** The double nearest to [q]. *)
Definition round (q : Q) : Q :=
  if Qeq_bool q 0 then 0
  else (inject_Z (nearest_even (q / 2 ^ last_place q)) * 2 ^ last_place q)%Q.

(** [a / b], [a * b] and [a + b] on doubles. *)
Definition div (a b : Q) : Q := round (a / b).
Definition mul (a b : Q) : Q := round (a * b).
Definition add (a b : Q) : Q := round (a + b).

(** Half the distance from 1 to the next double, [2^(-53)]: the greatest
    relative error of one rounding. *)
Definition unit_roundoff : Q := 1 # 9007199254740992.

End Binary64.

(** The same operations as the Standard Library specifies them on
    significand and exponent ([SpecFloat], precision 53, greatest exponent
    1024), to compare [Binary64] with. *)
Module IEEE.

Definition of_Z (k : Z) : SpecFloat.spec_float := SpecFloat.binary_normalize 53 1024 k 0 false.
Definition div : SpecFloat.spec_float -> SpecFloat.spec_float -> SpecFloat.spec_float :=
  SpecFloat.SFdiv 53 1024.
Definition mul : SpecFloat.spec_float -> SpecFloat.spec_float -> SpecFloat.spec_float :=
  SpecFloat.SFmul 53 1024.
Definition add : SpecFloat.spec_float -> SpecFloat.spec_float -> SpecFloat.spec_float :=
  SpecFloat.SFadd 53 1024.

(** The rational a finite value stands for. *)
Definition value (x : SpecFloat.spec_float) : Q :=
  match x with
  | SpecFloat.S754_finite s m e => ((if s then - 1 else 1) * inject_Z (Z.pos m) * 2 ^ e)%Q
  | _ => 0%Q
  end.

End IEEE.

(** ** Types of [src/types/mentalist.ts] *)

(** ['amazed' | 'skeptical' | 'neutral' | 'confused' | 'engaged']. *)
Inductive Reaction := amazed | skeptical | neutral | confused | engaged.

(** The string each member of the union type stands for. *)
Definition reaction_text (r : Reaction) : string :=
  match r with
  | amazed => "amazed"
  | skeptical => "skeptical"
  | neutral => "neutral"
  | confused => "confused"
  | engaged => "engaged"
  end.

Module ChatMessage.
Inductive Role := user | assistant | system.

Record t := {
  role : Role;
  content : string
}.
End ChatMessage.

Module ConversationAnalysis.
Record t := {
  trickPerformed : option string;
  userSentiment : Q;
  keyMoments : list string;
  mentalistSuccess : bool;
  lessonLearned : option string;
  whatWorked : list string;
  whatDidntWork : list string;
  suggestedImprovements : list string
}.
End ConversationAnalysis.

Record MentalistExperience := {
  id : string;
  mentalistId : string;
  userId : string;
  sessionId : string;
  timestamp : Z;                 (* new Date(timestamp): milliseconds *)
  conversationSummary : string;
  trickPerformed : string;
  userReaction : Reaction;
  userSentiment : Q;
  whatWorked : string;
  whatDidntWork : string;
  lessonLearned : string;
  messageCount : Z;
  durationSeconds : Z;
  context : string
}.

(** ** The tables of [schema.sql]

    One module per table, a record per row, columns under the names of the
    schema.  A table is the list of its rows in insertion (rowid) order. *)

Module mentalists.
Record row := {
  id : string;
  name : string;
  title : string;
  tagline : string;
  avatar_url : string;
  system_prompt : string;
  knowledge_base : string;
  experience_level : Z;
  total_performances : Z;
  successful_tricks : option (list string);  (* TEXT holding a JSON array; None is NULL *)
  learning_enabled : bool;                   (* INTEGER, 1 = true, 0 = false *)
  specialty_developing : option string;
  created_at : Z;
  last_performance : option Z
}.
End mentalists.

Module experiences.
Record row := {
  id : string;
  mentalist_id : string;
  user_id : string;
  session_id : string;
  timestamp : Z;                             (* seconds *)
  conversation_summary : string;
  trick_performed : string;
  user_reaction : Reaction;
  user_sentiment : Q;
  what_worked : string;
  what_didnt_work : string;
  lesson_learned : string;
  message_count : Z;
  duration_seconds : Z;
  context : string
}.
End experiences.

Module performance_metrics.
Record row := {
  id : string;
  mentalist_id : string;
  trick_name : string;
  total_attempts : Z;
  success_count : Z;
  success_rate : Q;              (* REAL: a double *)
  average_user_rating : Q;       (* REAL: a double *)
  best_contexts : string;
  common_failures : string;
  refinements : string;
  last_updated : Z
}.
End performance_metrics.

Module chat_sessions.
Record row := {
  id : string;
  user_id : string;
  mentalist_id : string;
  start_time : Z;
  end_time : option Z;
  is_active : bool;                          (* INTEGER, 1 = true, 0 = false *)
  message_count : Z
}.
End chat_sessions.

Module session_messages.
Record row := {
  id : string;
  session_id : string;
  role : string;
  content : string;
  timestamp : Z
}.
End session_messages.

(** The store: the five tables the services use, and [foreign_keys], whether
    the engine enforces the FOREIGN KEY clauses of the schema (SQLite's
    [PRAGMA foreign_keys]; D1 runs every statement with it on).  PRIMARY KEY
    and UNIQUE clauses are always enforced. *)
Record D1Database := {
  foreign_keys : bool;
  t_mentalists : list mentalists.row;
  t_experiences : list experiences.row;
  t_performance_metrics : list performance_metrics.row;
  t_chat_sessions : list chat_sessions.row;
  t_session_messages : list session_messages.row
}.

Definition with_mentalists (f : list mentalists.row -> list mentalists.row) (d : D1Database) :=
  {| foreign_keys := foreign_keys d;
     t_mentalists := f (t_mentalists d);
     t_experiences := t_experiences d;
     t_performance_metrics := t_performance_metrics d;
     t_chat_sessions := t_chat_sessions d;
     t_session_messages := t_session_messages d |}.

Definition with_experiences (f : list experiences.row -> list experiences.row) (d : D1Database) :=
  {| foreign_keys := foreign_keys d;
     t_mentalists := t_mentalists d;
     t_experiences := f (t_experiences d);
     t_performance_metrics := t_performance_metrics d;
     t_chat_sessions := t_chat_sessions d;
     t_session_messages := t_session_messages d |}.

Definition with_performance_metrics
  (f : list performance_metrics.row -> list performance_metrics.row) (d : D1Database) :=
  {| foreign_keys := foreign_keys d;
     t_mentalists := t_mentalists d;
     t_experiences := t_experiences d;
     t_performance_metrics := f (t_performance_metrics d);
     t_chat_sessions := t_chat_sessions d;
     t_session_messages := t_session_messages d |}.

Definition with_chat_sessions (f : list chat_sessions.row -> list chat_sessions.row) (d : D1Database) :=
  {| foreign_keys := foreign_keys d;
     t_mentalists := t_mentalists d;
     t_experiences := t_experiences d;
     t_performance_metrics := t_performance_metrics d;
     t_chat_sessions := f (t_chat_sessions d);
     t_session_messages := t_session_messages d |}.

Definition with_session_messages
  (f : list session_messages.row -> list session_messages.row) (d : D1Database) :=
  {| foreign_keys := foreign_keys d;
     t_mentalists := t_mentalists d;
     t_experiences := t_experiences d;
     t_performance_metrics := t_performance_metrics d;
     t_chat_sessions := t_chat_sessions d;
     t_session_messages := f (t_session_messages d) |}.

(** ** The world a request runs in

    Besides the store, the services read the wall clock ([Date.now()]) and
    the random generator ([Math.random()]).  Both are oracles: the k-th read
    of the clock returns [clock k], the k-th draw returns [entropy k]. *)
Record World := {
  db : D1Database;
  clock : nat -> Z;          (* milliseconds *)
  reads : nat;
  entropy : nat -> string;   (* Math.random().toString(36).substr(2, 9) *)
  draws : nat
}.

Definition on_db (f : D1Database -> D1Database) (w : World) : World :=
  {| db := f (db w); clock := clock w; reads := reads w;
     entropy := entropy w; draws := draws w |}.

(** What is thrown: by the store when a statement violates a constraint,
    and a TypeError, by the language when a member of [undefined] is read
    and by the store when it is bound a value of a type it does not take. *)
Inductive D1Error :=
| PrimaryKeyConstraint (table : string)
| UniqueConstraint (table : string)
| ForeignKeyConstraint (table : string)
| TypeError.

Inductive Completion (A : Type) :=
| Returned (a : A)
| Thrown (e : D1Error).
Arguments Returned {A} a.
Arguments Thrown {A} e.

(** An [async] function: it runs in a world, returns or throws, and leaves a
    world behind.  What was written before a throw stays written. *)
Definition Promise (A : Type) : Type := World -> Completion A * World.

Definition ret {A} (a : A) : Promise A := fun w => (Returned a, w).

Definition bind {A B} (m : Promise A) (k : A -> Promise B) : Promise B :=
  fun w =>
    match m w with
    | (Returned a, w') => k a w'
    | (Thrown e, w') => (Thrown e, w')
    end.

Declare Scope promise_scope.
Delimit Scope promise_scope with promise.
Notation "x <- m ;; k" := (bind m (fun x => k))
  (at level 100, m at next level, right associativity) : promise_scope.
Notation "m ;; k" := (bind m (fun _ => k))
  (at level 100, right associativity) : promise_scope.
Local Open Scope promise_scope.

Definition Date_now : Promise Z :=
  fun w => (Returned (clock w (reads w)),
            {| db := db w; clock := clock w; reads := S (reads w);
               entropy := entropy w; draws := draws w |}).

(** [Math.random().toString(36).substr(2, 9)]. *)
Definition Math_random_base36 : Promise string :=
  fun w => (Returned (entropy w (draws w)),
            {| db := db w; clock := clock w; reads := reads w;
               entropy := entropy w; draws := S (draws w) |}).

(** A read of the store. *)
Definition query {A} (f : D1Database -> A) : Promise A := fun w => (Returned (f (db w)), w).

(** A statement that cannot violate a constraint. *)
Definition run (f : D1Database -> D1Database) : Promise unit :=
  fun w => (Returned tt, on_db f w).

(** A statement that may: it changes nothing when it throws. *)
Definition run_checked (f : D1Database -> D1Error + D1Database) : Promise unit :=
  fun w =>
    match f (db w) with
    | inl e => (Thrown e, w)
    | inr d => (Returned tt, on_db (fun _ => d) w)
    end.

(** Successive awaited calls, [await f(x1); await f(x2); ...]. *)
Fixpoint for_each {A} (f : A -> Promise unit) (xs : list A) : Promise unit :=
  match xs with
  | [] => ret tt
  | x :: xs' => f x ;; for_each f xs'
  end.

(** ** The SQL statements of the services

    Each definition is one prepared statement of the source, named after the
    table it touches.  INSERT appends a row unless a PRIMARY KEY, UNIQUE or
    (when enforced) FOREIGN KEY clause of the schema refuses it; UPDATE
    rewrites every row its WHERE clause selects; [.first()] is the first row
    selected. *)

(** [UPDATE t SET ... WHERE ...] on the rows of one table. *)
Definition UPDATE_WHERE {A} (where_ : A -> bool) (set_ : A -> A) (t : list A) : list A :=
  map (fun r => if where_ r then set_ r else r) t.

Definition has_mentalist (mid : string) (d : D1Database) : bool :=
  existsb (fun m => (mentalists.id m =? mid)%string) (t_mentalists d).

Definition has_session (sid : string) (d : D1Database) : bool :=
  existsb (fun s => (chat_sessions.id s =? sid)%string) (t_chat_sessions d).

(** [INSERT INTO experiences (...) VALUES (...)]. *)
Definition INSERT_experiences (r : experiences.row) (d : D1Database) : D1Error + D1Database :=
  if existsb (fun x => (experiences.id x =? experiences.id r)%string) (t_experiences d)
  then inl (PrimaryKeyConstraint "experiences")
  else if foreign_keys d && negb (has_mentalist (experiences.mentalist_id r) d)
  then inl (ForeignKeyConstraint "experiences")
  else inr (with_experiences (fun t => t ++ [r]) d).

(** [SET total_performances = total_performances + 1,
    experience_level = experience_level + ?, last_performance = ?]. *)
Definition SET_stats (expGain now : Z) (m : mentalists.row) : mentalists.row :=
  {| mentalists.id := mentalists.id m;
     mentalists.name := mentalists.name m;
     mentalists.title := mentalists.title m;
     mentalists.tagline := mentalists.tagline m;
     mentalists.avatar_url := mentalists.avatar_url m;
     mentalists.system_prompt := mentalists.system_prompt m;
     mentalists.knowledge_base := mentalists.knowledge_base m;
     mentalists.experience_level := mentalists.experience_level m + expGain;
     mentalists.total_performances := mentalists.total_performances m + 1;
     mentalists.successful_tricks := mentalists.successful_tricks m;
     mentalists.learning_enabled := mentalists.learning_enabled m;
     mentalists.specialty_developing := mentalists.specialty_developing m;
     mentalists.created_at := mentalists.created_at m;
     mentalists.last_performance := Some now |}.

(** [UPDATE mentalists SET total_performances = total_performances + 1,
    experience_level = experience_level + ?, last_performance = ? WHERE id = ?]. *)
Definition UPDATE_mentalists_stats (expGain now : Z) (mid : string) : D1Database -> D1Database :=
  with_mentalists
    (UPDATE_WHERE (fun m => (mentalists.id m =? mid)%string) (SET_stats expGain now)).

(** [SELECT successful_tricks FROM mentalists WHERE id = ?], [.first()]. *)
Definition SELECT_successful_tricks (mid : string) (d : D1Database) : option (option (list string)) :=
  option_map mentalists.successful_tricks
    (find (fun m => (mentalists.id m =? mid)%string) (t_mentalists d)).

(** [SET successful_tricks = ?]. *)
Definition SET_successful_tricks (tricks : list string) (m : mentalists.row) : mentalists.row :=
  {| mentalists.id := mentalists.id m;
     mentalists.name := mentalists.name m;
     mentalists.title := mentalists.title m;
     mentalists.tagline := mentalists.tagline m;
     mentalists.avatar_url := mentalists.avatar_url m;
     mentalists.system_prompt := mentalists.system_prompt m;
     mentalists.knowledge_base := mentalists.knowledge_base m;
     mentalists.experience_level := mentalists.experience_level m;
     mentalists.total_performances := mentalists.total_performances m;
     mentalists.successful_tricks := Some tricks;
     mentalists.learning_enabled := mentalists.learning_enabled m;
     mentalists.specialty_developing := mentalists.specialty_developing m;
     mentalists.created_at := mentalists.created_at m;
     mentalists.last_performance := mentalists.last_performance m |}.

(** [UPDATE mentalists SET successful_tricks = ? WHERE id = ?]. *)
Definition UPDATE_mentalists_tricks (tricks : list string) (mid : string) : D1Database -> D1Database :=
  with_mentalists
    (UPDATE_WHERE (fun m => (mentalists.id m =? mid)%string) (SET_successful_tricks tricks)).

Definition metric_of (mid trick : string) (r : performance_metrics.row) : bool :=
  (performance_metrics.mentalist_id r =? mid)%string &&
  (performance_metrics.trick_name r =? trick)%string.

(** [SELECT * FROM performance_metrics WHERE mentalist_id = ? AND trick_name = ?],
    [.first()]. *)
Definition SELECT_performance_metrics (mid trick : string) (d : D1Database)
  : option performance_metrics.row :=
  find (metric_of mid trick) (t_performance_metrics d).

(** [SET total_attempts = ?, success_count = ?, success_rate = ?,
    average_user_rating = ?, last_updated = ?]. *)
Definition SET_metrics (newTotal newSuccessCount : Z) (newSuccessRate newAvgRating : Q) (now : Z)
  (r : performance_metrics.row) : performance_metrics.row :=
  {| performance_metrics.id := performance_metrics.id r;
     performance_metrics.mentalist_id := performance_metrics.mentalist_id r;
     performance_metrics.trick_name := performance_metrics.trick_name r;
     performance_metrics.total_attempts := newTotal;
     performance_metrics.success_count := newSuccessCount;
     performance_metrics.success_rate := newSuccessRate;
     performance_metrics.average_user_rating := newAvgRating;
     performance_metrics.best_contexts := performance_metrics.best_contexts r;
     performance_metrics.common_failures := performance_metrics.common_failures r;
     performance_metrics.refinements := performance_metrics.refinements r;
     performance_metrics.last_updated := now |}.

(** [UPDATE performance_metrics SET total_attempts = ?, success_count = ?,
    success_rate = ?, average_user_rating = ?, last_updated = ? WHERE id = ?]. *)
Definition UPDATE_performance_metrics
  (newTotal newSuccessCount : Z) (newSuccessRate newAvgRating : Q) (now : Z) (rid : string)
  : D1Database -> D1Database :=
  with_performance_metrics
    (UPDATE_WHERE (fun r => (performance_metrics.id r =? rid)%string)
       (SET_metrics newTotal newSuccessCount newSuccessRate newAvgRating now)).

(** [INSERT INTO performance_metrics (...) VALUES (...)]; the table has
    [id] as PRIMARY KEY and [UNIQUE(mentalist_id, trick_name)]. *)
Definition INSERT_performance_metrics (r : performance_metrics.row) (d : D1Database)
  : D1Error + D1Database :=
  if existsb (fun x => (performance_metrics.id x =? performance_metrics.id r)%string)
       (t_performance_metrics d)
  then inl (PrimaryKeyConstraint "performance_metrics")
  else if existsb (metric_of (performance_metrics.mentalist_id r) (performance_metrics.trick_name r))
            (t_performance_metrics d)
  then inl (UniqueConstraint "performance_metrics")
  else if foreign_keys d && negb (has_mentalist (performance_metrics.mentalist_id r) d)
  then inl (ForeignKeyConstraint "performance_metrics")
  else inr (with_performance_metrics (fun t => t ++ [r]) d).

(** ** ExperienceCapture *)

(** [mapSentimentToReaction]. *)
Definition mapSentimentToReaction (sentiment : Q) : Reaction :=
  if Qle_bool (7 # 10) sentiment then amazed
  else if Qle_bool (3 # 10) sentiment then engaged
  else if Qle_bool (- (3 # 10)) sentiment then neutral
  else if Qle_bool (- (7 # 10)) sentiment then skeptical
  else confused.

(** The [ratings] table of [mapReactionToRating]. *)
Definition ratings : list (string * Q) :=
  [ ("amazed", 5 # 1); ("engaged", 4 # 1); ("neutral", 3 # 1);
    ("skeptical", 2 # 1); ("confused", 1 # 1) ]%string.

(** [o[k]] on the own properties of an object. *)
Fixpoint lookup {V} (k : string) (l : list (string * V)) : option V :=
  match l with
  | [] => None
  | (k', v) :: l' => if (k' =? k)%string then Some v else lookup k l'
  end.

(** [mapReactionToRating]: [ratings[reaction] || 3.0]. *)
Definition mapReactionToRating (reaction : string) : Q :=
  match lookup reaction ratings with
  | Some r => if Qeq_bool r 0 then 3 # 1 else r
  | None => 3 # 1
  end.

(** [calculateExpGain]. *)
Definition calculateExpGain (experience : MentalistExperience) : Z :=
  let exp := 10 in
  let exp :=
    match userReaction experience with
    | amazed => exp + 20
    | engaged => exp + 10
    | neutral => exp + 5
    | _ => exp
    end in
  let exp := if truthy (lessonLearned experience) then exp + 5 else exp in
  let exp := if 10 <? messageCount experience
             then exp + Z.min (messageCount experience - 10) 10 else exp in
  exp.

(** [summarizeConversation]. *)
Definition summarizeConversation (messages : list ChatMessage.t) : string :=
  let userMessages :=
    filter (fun m => match ChatMessage.role m with ChatMessage.user => true | _ => false end)
      messages in
  let assistantMessages :=
    filter (fun m => match ChatMessage.role m with ChatMessage.assistant => true | _ => false end)
      messages in
  (dec (Z.of_nat (List.length userMessages)) ++ " user messages, " ++
   dec (Z.of_nat (List.length assistantMessages)) ++ " responses. " ++
   "Duration: " ++ dec (Z.of_nat (List.length messages)) ++ " total exchanges.")%string.

(** [generateId]. *)
Definition generateId : Promise string :=
  now <- Date_now ;;
  rnd <- Math_random_base36 ;;
  ret ("exp_" ++ dec now ++ "_" ++ rnd)%string.

(** [userReaction === 'amazed' || userReaction === 'engaged']. *)
Definition isSuccess (r : Reaction) : bool :=
  match r with amazed | engaged => true | _ => false end.

(** [updateMentalistStats]. *)
Definition updateMentalistStats (mentalistId : string) (experience : MentalistExperience)
  : Promise unit :=
  let expGain := calculateExpGain experience in
  now <- Date_now ;;
  run (UPDATE_mentalists_stats expGain (now / 1000) mentalistId) ;;
  if isSuccess (userReaction experience) then
    mentalist <- query (SELECT_successful_tricks mentalistId) ;;
    match mentalist with
    | Some stored =>
        let tricks := match stored with Some l => l | None => [] end in
        let tricks := tricks ++ [trickPerformed experience] in
        run (UPDATE_mentalists_tricks tricks mentalistId)
    | None => ret tt
    end
  else ret tt.

(** [updateTrickMetrics].  The counts are integers; the rate is a quotient
    of doubles, and the average a product, a sum and a quotient of doubles,
    each rounded. *)
Definition updateTrickMetrics (mentalistId : string) (experience : MentalistExperience)
  : Promise unit :=
  let metricId := (mentalistId ++ "_" ++ trickPerformed experience)%string in
  existing <- query (SELECT_performance_metrics mentalistId (trickPerformed experience)) ;;
  let isSuccess := isSuccess (userReaction experience) in
  let rating := mapReactionToRating (reaction_text (userReaction experience)) in
  match existing with
  | Some existing =>
      let newTotal := performance_metrics.total_attempts existing + 1 in
      let newSuccessCount :=
        performance_metrics.success_count existing + (if isSuccess then 1 else 0) in
      let newSuccessRate := Binary64.div (inject_Z newSuccessCount) (inject_Z newTotal) in
      let newAvgRating :=
        Binary64.div
          (Binary64.add
             (Binary64.mul (performance_metrics.average_user_rating existing)
                (inject_Z (performance_metrics.total_attempts existing)))
             rating)
          (inject_Z newTotal) in
      now <- Date_now ;;
      run (UPDATE_performance_metrics newTotal newSuccessCount newSuccessRate newAvgRating
             (now / 1000) (performance_metrics.id existing))
  | None =>
      now <- Date_now ;;
      run_checked (INSERT_performance_metrics
        {| performance_metrics.id := metricId;
           performance_metrics.mentalist_id := mentalistId;
           performance_metrics.trick_name := trickPerformed experience;
           performance_metrics.total_attempts := 1;
           performance_metrics.success_count := if isSuccess then 1 else 0;
           performance_metrics.success_rate := if isSuccess then 1 else 0;
           performance_metrics.average_user_rating := rating;
           performance_metrics.best_contexts := "[]";
           performance_metrics.common_failures := "[]";
           performance_metrics.refinements := "[]";
           performance_metrics.last_updated := now / 1000 |})
  end.

(** The row [captureExperience] binds to its INSERT. *)
Definition experience_row (experience : MentalistExperience) (timestamp : Z) : experiences.row :=
  {| experiences.id := id experience;
     experiences.mentalist_id := mentalistId experience;
     experiences.user_id := userId experience;
     experiences.session_id := sessionId experience;
     experiences.timestamp := timestamp / 1000;
     experiences.conversation_summary := conversationSummary experience;
     experiences.trick_performed := trickPerformed experience;
     experiences.user_reaction := userReaction experience;
     experiences.user_sentiment := userSentiment experience;
     experiences.what_worked := whatWorked experience;
     experiences.what_didnt_work := whatDidntWork experience;
     experiences.lesson_learned := lessonLearned experience;
     experiences.message_count := messageCount experience;
     experiences.duration_seconds := durationSeconds experience;
     experiences.context := context experience |}.

(** The [experience] object literal of [captureExperience]. *)
Definition build_experience (experienceId : string) (timestamp : Z)
  (mentalistId userId sessionId : string) (analysis : ConversationAnalysis.t)
  (messages : list ChatMessage.t) (durationSeconds : Z) : MentalistExperience :=
  {| id := experienceId;
     mentalistId := mentalistId;
     userId := userId;
     sessionId := sessionId;
     timestamp := timestamp;
     conversationSummary := summarizeConversation messages;
     trickPerformed := or_default (ConversationAnalysis.trickPerformed analysis) "general_interaction";
     userReaction := mapSentimentToReaction (ConversationAnalysis.userSentiment analysis);
     userSentiment := ConversationAnalysis.userSentiment analysis;
     whatWorked := join "; " (ConversationAnalysis.whatWorked analysis);
     whatDidntWork := join "; " (ConversationAnalysis.whatDidntWork analysis);
     lessonLearned := or_default (ConversationAnalysis.lessonLearned analysis) "";
     messageCount := Z.of_nat (List.length messages);
     durationSeconds := durationSeconds;
     context := join "; " (ConversationAnalysis.keyMoments analysis) |}.

(** [captureExperience]. *)
Definition captureExperience
  (mentalistId userId sessionId : string) (analysis : ConversationAnalysis.t)
  (messages : list ChatMessage.t) (durationSeconds : Z) : Promise MentalistExperience :=
  experienceId <- generateId ;;
  timestamp <- Date_now ;;
  let experience :=
    build_experience experienceId timestamp mentalistId userId sessionId analysis
      messages durationSeconds in
  run_checked (INSERT_experiences (experience_row experience timestamp)) ;;
  updateMentalistStats mentalistId experience ;;
  updateTrickMetrics mentalistId experience ;;
  ret experience.

(** ** EnhancedChat *)

(** The row of greatest [start_time], the earliest such in table order. *)
Fixpoint latest_session (best : chat_sessions.row) (rows : list chat_sessions.row)
  : chat_sessions.row :=
  match rows with
  | [] => best
  | r :: rows' =>
      latest_session
        (if chat_sessions.start_time best <? chat_sessions.start_time r then r else best) rows'
  end.

Definition active_for (userId mentalistId : string) (s : chat_sessions.row) : bool :=
  (chat_sessions.user_id s =? userId)%string &&
  (chat_sessions.mentalist_id s =? mentalistId)%string &&
  chat_sessions.is_active s.

(** [SELECT id FROM chat_sessions WHERE user_id = ? AND mentalist_id = ? AND
    is_active = 1 ORDER BY start_time DESC LIMIT 1], [.first()]. *)
Definition SELECT_active_session (userId mentalistId : string) (d : D1Database) : option string :=
  match filter (active_for userId mentalistId) (t_chat_sessions d) with
  | [] => None
  | r :: rows => Some (chat_sessions.id (latest_session r rows))
  end.

(** [INSERT INTO chat_sessions (id, user_id, mentalist_id, start_time,
    is_active, message_count) VALUES (?, ?, ?, ?, 1, 0)]. *)
Definition INSERT_chat_sessions (sid userId mentalistId : string) (start : Z) (d : D1Database)
  : D1Error + D1Database :=
  if has_session sid d then inl (PrimaryKeyConstraint "chat_sessions")
  else if foreign_keys d && negb (has_mentalist mentalistId d)
  then inl (ForeignKeyConstraint "chat_sessions")
  else inr (with_chat_sessions (fun t => t ++
         [ {| chat_sessions.id := sid;
              chat_sessions.user_id := userId;
              chat_sessions.mentalist_id := mentalistId;
              chat_sessions.start_time := start;
              chat_sessions.end_time := None;
              chat_sessions.is_active := true;
              chat_sessions.message_count := 0 |} ]) d).

(** [INSERT INTO session_messages (id, session_id, role, content, timestamp)
    VALUES (?, ?, ?, ?, ?)]. *)
Definition INSERT_session_messages (r : session_messages.row) (d : D1Database)
  : D1Error + D1Database :=
  if existsb (fun x => (session_messages.id x =? session_messages.id r)%string)
       (t_session_messages d)
  then inl (PrimaryKeyConstraint "session_messages")
  else if foreign_keys d && negb (has_session (session_messages.session_id r) d)
  then inl (ForeignKeyConstraint "session_messages")
  else inr (with_session_messages (fun t => t ++ [r]) d).

(** [SET message_count = message_count + 1]. *)
Definition SET_message_count (s : chat_sessions.row) : chat_sessions.row :=
  {| chat_sessions.id := chat_sessions.id s;
     chat_sessions.user_id := chat_sessions.user_id s;
     chat_sessions.mentalist_id := chat_sessions.mentalist_id s;
     chat_sessions.start_time := chat_sessions.start_time s;
     chat_sessions.end_time := chat_sessions.end_time s;
     chat_sessions.is_active := chat_sessions.is_active s;
     chat_sessions.message_count := chat_sessions.message_count s + 1 |}.

(** [UPDATE chat_sessions SET message_count = message_count + 1 WHERE id = ?]. *)
Definition UPDATE_message_count (sid : string) : D1Database -> D1Database :=
  with_chat_sessions
    (UPDATE_WHERE (fun s => (chat_sessions.id s =? sid)%string) SET_message_count).

(** [SET is_active = 0, end_time = ?]. *)
Definition SET_ended (now : Z) (s : chat_sessions.row) : chat_sessions.row :=
  {| chat_sessions.id := chat_sessions.id s;
     chat_sessions.user_id := chat_sessions.user_id s;
     chat_sessions.mentalist_id := chat_sessions.mentalist_id s;
     chat_sessions.start_time := chat_sessions.start_time s;
     chat_sessions.end_time := Some now;
     chat_sessions.is_active := false;
     chat_sessions.message_count := chat_sessions.message_count s |}.

(** [UPDATE chat_sessions SET is_active = 0, end_time = ? WHERE id = ?]. *)
Definition UPDATE_end_session (now : Z) (sid : string) : D1Database -> D1Database :=
  with_chat_sessions
    (UPDATE_WHERE (fun s => (chat_sessions.id s =? sid)%string) (SET_ended now)).

(** [getOrCreateSession]. *)
Definition getOrCreateSession (userId mentalistId : string) : Promise string :=
  activeSession <- query (SELECT_active_session userId mentalistId) ;;
  match activeSession with
  | Some sid => ret sid
  | None =>
      t <- Date_now ;;
      rnd <- Math_random_base36 ;;
      let sessionId := ("session_" ++ dec t ++ "_" ++ rnd)%string in
      now <- Date_now ;;
      run_checked (INSERT_chat_sessions sessionId userId mentalistId (now / 1000)) ;;
      ret sessionId
  end.

(** [saveMessage]. *)
Definition saveMessage (sessionId role content : string) : Promise unit :=
  t <- Date_now ;;
  rnd <- Math_random_base36 ;;
  let messageId := ("msg_" ++ dec t ++ "_" ++ rnd)%string in
  now <- Date_now ;;
  run_checked (INSERT_session_messages
    {| session_messages.id := messageId;
       session_messages.session_id := sessionId;
       session_messages.role := role;
       session_messages.content := content;
       session_messages.timestamp := now / 1000 |}) ;;
  run (UPDATE_message_count sessionId).

(** [endSession]. *)
Definition endSession (sessionId : string) : Promise unit :=
  now <- Date_now ;;
  run (UPDATE_end_session (now / 1000) sessionId).

(** The stored row of a session. *)
Definition session_row (sid : string) (d : D1Database) : option chat_sessions.row :=
  find (fun s => (chat_sessions.id s =? sid)%string) (t_chat_sessions d).

(** The stored row of a persona. *)
Definition mentalist_row (mid : string) (d : D1Database) : option mentalists.row :=
  find (fun m => (mentalists.id m =? mid)%string) (t_mentalists d).


(** ** KnowledgeBuilder

    [analyzeSuccessfulTricks] groups a window of experience rows in a plain
    object keyed by trick name, turns the entries of the object into
    patterns and sorts them. *)

Module KnowledgeBuilder.

(** *** Plain objects used as dictionaries

    The own properties of an object are a list of key / value pairs in
    creation order.  An object literal [{}] also inherits the members of
    [Object.prototype]: reading one of these keys finds the inherited
    member, never [undefined]. *)

Definition Object_prototype_members : list string :=
  [ "constructor"; "__defineGetter__"; "__defineSetter__"; "hasOwnProperty";
    "__lookupGetter__"; "__lookupSetter__"; "isPrototypeOf";
    "propertyIsEnumerable"; "toString"; "valueOf"; "__proto__";
    "toLocaleString" ]%string.

Definition inherited (k : string) : bool :=
  existsb (String.eqb k) Object_prototype_members.

(** [o[k] = f(o[k])] on an own property. *)
Fixpoint assign {V} (k : string) (f : V -> V) (o : list (string * V)) : list (string * V) :=
  match o with
  | [] => []
  | (k', v) :: o' =>
      if (k' =? k)%string then (k', f v) :: o' else (k', v) :: assign k f o'
  end.

(** The value of a run of decimal digits. *)
Definition digit (c : ascii) : option Z :=
  let n := Z.of_nat (nat_of_ascii c) in
  if (48 <=? n) && (n <=? 57) then Some (n - 48) else None.

Fixpoint digits_value (acc : Z) (s : string) : option Z :=
  match s with
  | EmptyString => Some acc
  | String c s' =>
      match digit c with
      | Some d => digits_value (10 * acc + d) s'
      | None => None
      end
  end.

(** A key is an array index when it is the canonical decimal form of an
    integer below 2^32 - 1. *)
Definition array_index (k : string) : option Z :=
  match k with
  | EmptyString => None
  | String c rest =>
      match digits_value 0 k with
      | Some n =>
          if (c =? "0")%char && negb (rest =? "")%string then None
          else if n <? 2 ^ 32 - 1 then Some n else None
      | None => None
      end
  end.

Definition index_or_zero (k : string) : Z :=
  match array_index k with Some n => n | None => 0 end.

Fixpoint insert_by_index {V} (x : string * V) (l : list (string * V)) : list (string * V) :=
  match l with
  | [] => [x]
  | y :: l' =>
      if index_or_zero (fst y) <? index_or_zero (fst x)
      then y :: insert_by_index x l' else x :: l
  end.

Definition ascending {V} (l : list (string * V)) : list (string * V) :=
  fold_right insert_by_index [] l.

Definition is_array_index (k : string) : bool :=
  match array_index k with Some _ => true | None => false end.

(** [Object.entries(o)]: the array indices in ascending order, then the
    other keys in creation order. *)
Definition Object_entries {V} (o : list (string * V)) : list (string * V) :=
  ascending (filter (fun kv => is_array_index (fst kv)) o)
  ++ filter (fun kv => negb (is_array_index (fst kv))) o.

(** *** Arrays *)

(** [xs.sort(compare)]: the sort is stable; [compare a b > 0] puts [b]
    before [a]. *)
Fixpoint insert_sorted {A} (compare : A -> A -> Q) (x : A) (l : list A) : list A :=
  match l with
  | [] => [x]
  | y :: l' =>
      if Qle_bool (compare x y) 0 then x :: l else y :: insert_sorted compare x l'
  end.

Definition Array_sort {A} (compare : A -> A -> Q) (xs : list A) : list A :=
  fold_right (insert_sorted compare) [] xs.

(** [xs.forEach(f)] where [f] updates a state and may throw. *)
Fixpoint forEach {A S} (f : A -> S -> option S) (xs : list A) (s : S) : option S :=
  match xs with
  | [] => Some s
  | x :: xs' =>
      match f x s with
      | Some s' => forEach f xs' s'
      | None => None
      end
  end.

(** *** Numbers *)

(** [x.toFixed(1)], as the number the resulting string denotes: the
    multiple of one tenth nearest to the value of the double [x], the larger
    one (in magnitude) on a tie. *)
Definition toFixed1 (x : Q) : Q :=
  if Qle_bool 0 x
  then inject_Z (Qfloor (x * 10 + (1 # 2))) / 10
  else - (inject_Z (Qfloor (- x * 10 + (1 # 2))) / 10).

(** *** analyzeSuccessfulTricks *)

Record TrickStats := {
  attempts : Z;
  successes : Z;
  contexts : list string;
  insights : list string
}.

(** [bestContexts], a display text computed from [stats.contexts] by
    [extractCommonContexts], does not enter the ranking and is left out. *)
Record TrickPattern := {
  name : string;
  successRate : Q;        (* parseFloat(successRate) *)
  keyInsight : string;
  timesPerformed : Z
}.

(** What the body of the loop does to the stats of the trick. *)
Definition record (exp : experiences.row) (stats : TrickStats) : TrickStats :=
  {| attempts := attempts stats + 1;
     successes :=
       match experiences.user_reaction exp with
       | amazed | engaged => successes stats + 1
       | _ => successes stats
       end;
     contexts :=
       if truthy (experiences.context exp)
       then contexts stats ++ [experiences.context exp] else contexts stats;
     insights :=
       if truthy (experiences.lesson_learned exp)
       then insights stats ++ [experiences.lesson_learned exp] else insights stats |}.

(** The body of the loop.  For a trick named like a member of
    [Object.prototype], [trickStats[trick]] is that member: no entry is
    created, the counters land on the member, and pushing to its missing
    [contexts] or [insights] throws a TypeError ([None]). *)
Definition tally (exp : experiences.row) (trickStats : list (string * TrickStats))
  : option (list (string * TrickStats)) :=
  let trick := experiences.trick_performed exp in
  if inherited trick then
    if truthy (experiences.context exp) || truthy (experiences.lesson_learned exp)
    then None else Some trickStats
  else
    let trickStats :=
      match lookup trick trickStats with
      | Some _ => trickStats
      | None =>
          trickStats ++
            [(trick, {| attempts := 0; successes := 0; contexts := []; insights := [] |})]
      end in
    Some (assign trick (record exp) trickStats).

(** [synthesizeInsights]. *)
Definition synthesizeInsights (insights : list string) : string :=
  match insights with
  | [] => "Consistent performance"
  | [i] => i
  | _ => last insights ""%string
  end.

(** [(successes / attempts) * 100]: a division and a product of doubles. *)
Definition percentage (successes attempts : Z) : Q :=
  Binary64.mul (Binary64.div (inject_Z successes) (inject_Z attempts)) 100.

Definition pattern_of (entry : string * TrickStats) : TrickPattern :=
  let (trick, stats) := entry in
  {| name := trick;
     successRate := toFixed1 (percentage (successes stats) (attempts stats));
     keyInsight := synthesizeInsights (insights stats);
     timesPerformed := attempts stats |}.

(** The comparator of the sort:
    [parseFloat(b.successRate) - parseFloat(a.successRate)].  Both operands
    are the doubles nearest to a multiple of one tenth; their difference has
    the sign of the difference of the two multiples, which is all the sort
    looks at. *)
Definition by_rate (a b : TrickPattern) : Q := successRate b - successRate a.

(** [analyzeSuccessfulTricks]. *)
Definition analyzeSuccessfulTricks (experiences : list experiences.row)
  : option (list TrickPattern) :=
  match forEach tally experiences [] with
  | None => None
  | Some trickStats =>
      Some (firstn 5 (Array_sort by_rate (map pattern_of (Object_entries trickStats))))
  end.

End KnowledgeBuilder.

(** ** Vocabulary of the statements below *)

(** The id [generateId] is about to produce. *)
Definition next_experience_id (w : World) : string :=
  ("exp_" ++ dec (clock w (reads w)) ++ "_" ++ entropy w (draws w))%string.

(** No stored experience has that id: the INSERT of [captureExperience]
    meets no PRIMARY KEY conflict. *)
Definition experience_id_fresh (w : World) : Prop :=
  existsb (fun x => (experiences.id x =? next_experience_id w)%string)
    (t_experiences (db w)) = false.

(** The bonus of a reaction in the experience gain. *)
Definition reactionBonus (r : Reaction) : Z :=
  match r with
  | amazed => 20
  | engaged => 10
  | neutral => 5
  | skeptical | confused => 0
  end.

(** The experience gain as the specification writes it. *)
Definition expGain_formula (r : Reaction) (lesson : string) (turnCount : Z) : Z :=
  10 + reactionBonus r + (if truthy lesson then 5 else 0)
  + Z.min (Z.max (turnCount - 10) 0) 10.

(** The store lets rows refer to persona [mid]: it has the persona, or it
    does not enforce foreign keys. *)
Definition persona_admitted (mid : string) (d : D1Database) : Prop :=
  foreign_keys d = true -> has_mentalist mid d = true.

(** No metric row carries the id [updateTrickMetrics] would give a new row
    for this persona and trick. *)
Definition metric_id_free (mid trick : string) (d : D1Database) : Prop :=
  existsb (fun x => (performance_metrics.id x =? (mid ++ "_" ++ trick))%string)
    (t_performance_metrics d) = false.

(** The rating an experience contributes to its trick's metric. *)
Definition rating_of (e : MentalistExperience) : Q :=
  mapReactionToRating (reaction_text (userReaction e)).

(** Everything in two worlds but the [performance_metrics] table, the clock
    reads apart. *)
Definition same_but_metrics (w w' : World) : Prop :=
  foreign_keys (db w') = foreign_keys (db w) /\
  t_mentalists (db w') = t_mentalists (db w) /\
  t_experiences (db w') = t_experiences (db w) /\
  t_chat_sessions (db w') = t_chat_sessions (db w) /\
  t_session_messages (db w') = t_session_messages (db w) /\
  clock w' = clock w /\ entropy w' = entropy w /\
  reads w' = S (reads w) /\ draws w' = draws w.

(** The world after [r] more reads of the clock and [k] more draws. *)
Definition advance (r k : nat) (w : World) : World :=
  {| db := db w; clock := clock w; reads := (r + reads w)%nat;
     entropy := entropy w; draws := (k + draws w)%nat |}.

(** The experience [captureExperience] builds in world [w]: its id comes from
    the first read of the clock and the first draw, its timestamp from the
    second read. *)
Definition captured (w : World) (mid uid sid : string) (a : ConversationAnalysis.t)
  (msgs : list ChatMessage.t) (dur : Z) : MentalistExperience :=
  build_experience (next_experience_id w) (clock w (S (reads w))) mid uid sid a msgs dur.

(** The sum of the ratings a sequence of experiences supplies, and the number
    of its successes. *)
Definition ratings_sum (es : list MentalistExperience) : Q :=
  fold_right (fun e acc => (rating_of e + acc)%Q) 0%Q es.

Definition successes (es : list MentalistExperience) : Z :=
  count (fun e => isSuccess (userReaction e)) es.

(** The floating tolerance of an average kept over [n] ratings, relative to
    the mean: each of the [n - 1] online updates rounds three times (the
    product, the sum, the quotient), each time by [2^(-53)] of the value at
    most; [(n - 1) * 2^(-51)] covers them up to [2^49] ratings. *)
Definition rounding_tolerance (n : Z) : Q := inject_Z (n - 1) * (1 # 2251799813685248).







(** The successful tricks stored for a persona, [JSON.parse(successful_tricks
    || '[]')]. *)
Definition known_tricks (m : mentalists.row) : list string :=
  match mentalists.successful_tricks m with Some l => l | None => [] end.

(** [SET learning_enabled = ?] on a persona row. *)
Definition SET_learning_enabled (b : bool) (m : mentalists.row) : mentalists.row :=
  {| mentalists.id := mentalists.id m;
     mentalists.name := mentalists.name m;
     mentalists.title := mentalists.title m;
     mentalists.tagline := mentalists.tagline m;
     mentalists.avatar_url := mentalists.avatar_url m;
     mentalists.system_prompt := mentalists.system_prompt m;
     mentalists.knowledge_base := mentalists.knowledge_base m;
     mentalists.experience_level := mentalists.experience_level m;
     mentalists.total_performances := mentalists.total_performances m;
     mentalists.successful_tricks := mentalists.successful_tricks m;
     mentalists.learning_enabled := b;
     mentalists.specialty_developing := mentalists.specialty_developing m;
     mentalists.created_at := mentalists.created_at m;
     mentalists.last_performance := mentalists.last_performance m |}.

(** The store with the [learning_enabled] column blanked. *)
Definition without_learning_flags (d : D1Database) : D1Database :=
  with_mentalists (map (SET_learning_enabled true)) d.

(** Two worlds that differ at most in [learning_enabled] values. *)
Definition same_but_learning_flags (w1 w2 : World) : Prop :=
  without_learning_flags (db w1) = without_learning_flags (db w2) /\
  clock w1 = clock w2 /\ reads w1 = reads w2 /\
  entropy w1 = entropy w2 /\ draws w1 = draws w2.

(** What the learning state of the personas holds besides the flag. *)
Definition learning_state (w : World)
  : list (string * Z * Z * option (list string) * option Z) :=
  map (fun m => (mentalists.id m, mentalists.experience_level m,
                 mentalists.total_performances m, mentalists.successful_tricks m,
                 mentalists.last_performance m))
    (t_mentalists (db w)).

(** The [learning_enabled] column, row by row. *)
Definition learning_flags (w : World) : list bool :=
  map mentalists.learning_enabled (t_mentalists (db w)).

(** A computation is blind to the flag when, run in two worlds that differ
    at most in flags, it ends the same way in two such worlds. *)
Definition blind {A} (m : Promise A) : Prop :=
  forall w1 w2, same_but_learning_flags w1 w2 ->
    fst (m w1) = fst (m w2) /\ same_but_learning_flags (snd (m w1)) (snd (m w2)).

(** A computation keeps the flags when it leaves the [learning_enabled]
    column as it found it. *)
Definition keeps_flags {A} (m : Promise A) : Prop :=
  forall w, learning_flags (snd (m w)) = learning_flags w.

(** The ids [getOrCreateSession] and [saveMessage] are about to produce. *)
Definition next_session_id (w : World) : string :=
  ("session_" ++ dec (clock w (reads w)) ++ "_" ++ entropy w (draws w))%string.

Definition next_message_id (w : World) : string :=
  ("msg_" ++ dec (clock w (reads w)) ++ "_" ++ entropy w (draws w))%string.

(** A new session can be stored for persona [mid]: the generated id is not
    taken and the store lets a session refer to the persona. *)
Definition can_open_session (mid : string) (w : World) : Prop :=
  has_session (next_session_id w) (db w) = false /\ persona_admitted mid (db w).

(** No stored message has the id [saveMessage] is about to produce. *)
Definition message_id_fresh (w : World) : Prop :=
  existsb (fun x => (session_messages.id x =? next_message_id w)%string)
    (t_session_messages (db w)) = false.

(** ** Vocabulary of the ranking of tricks *)

Module Ranking.
Import KnowledgeBuilder.

(** The rows of a window that performed trick [k]. *)
Definition rows_of (window : list experiences.row) (k : string) : list experiences.row :=
  filter (fun x => (experiences.trick_performed x =? k)%string) window.

(** The group of trick [k] in a window: its attempts are the rows with that
    trick, its successes those among them with an amazed or engaged
    reaction, its rate the percentage of successes, computed in doubles and
    rounded to one decimal, its insight the last lesson learned among
    them. *)
Definition group (window : list experiences.row) (k : string) : TrickPattern :=
  let rows := rows_of window k in
  {| name := k;
     successRate :=
       toFixed1 (percentage (count (fun x => isSuccess (experiences.user_reaction x)) rows)
                   (Z.of_nat (List.length rows)));
     keyInsight := synthesizeInsights (filter truthy (map experiences.lesson_learned rows));
     timesPerformed := Z.of_nat (List.length rows) |}.

(** The exact percentage of successes among the rows of trick [k]. *)
Definition exact_percentage (window : list experiences.row) (k : string) : Q :=
  let rows := rows_of window k in
  (inject_Z (count (fun x => isSuccess (experiences.user_reaction x)) rows)
   / inject_Z (Z.of_nat (List.length rows)) * 100)%Q.

(** The distinct names of a list, in the order of their first appearance. *)
Fixpoint distinct (names : list string) : list string :=
  match names with
  | [] => []
  | n :: names' => n :: filter (fun m => negb (m =? n)%string) (distinct names')
  end.

(** The order in which the grouping object enumerates the tricks of a
    window: array indices ascending, then the other names by first
    appearance. *)
Definition enumeration (window : list experiences.row) : list string :=
  map fst (Object_entries
             (map (fun k => (k, tt)) (distinct (map experiences.trick_performed window)))).

(** The stats the loop accumulates over rows of one trick. *)
Definition no_stats : TrickStats :=
  {| attempts := 0; successes := 0; contexts := []; insights := [] |}.

Definition stats_from (s : TrickStats) (rows : list experiences.row) : TrickStats :=
  fold_left (fun s x => record x s) rows s.

(** One turn of the loop that does not throw. *)
Definition step (o : list (string * TrickStats)) (x : experiences.row)
  : list (string * TrickStats) :=
  let k := experiences.trick_performed x in
  assign k (record x)
    (match lookup k o with Some _ => o | None => o ++ [(k, no_stats)] end).

Definition absent_from (keys : list string) (n : string) : bool :=
  negb (existsb (String.eqb n) keys).

(** [a] may stand before [b] in a list descending by rate. *)
Definition not_below (a b : TrickPattern) : Prop := (successRate b <= successRate a)%Q.

Definition has_rate (r : Q) (p : TrickPattern) : bool := Qeq_bool (successRate p) r.

(** The ranking the specification describes: descending by success rate,
    ties broken by attempt count descending. *)
Definition ranked_by_rate_then_attempts (l : list TrickPattern) : Prop :=
  StronglySorted
    (fun a b =>
       (successRate b < successRate a)%Q
       \/ ((successRate a == successRate b)%Q /\ timesPerformed b <= timesPerformed a))
    l.

End Ranking.

(** ** Sample stores

    Concrete worlds on which the statements below are exercised. *)

Module Sample.

(** A persona as [/api/mentalist/init] inserts it. *)
Definition persona (pid : string) : mentalists.row :=
  {| mentalists.id := pid;
     mentalists.name := "Oz Pearlman";
     mentalists.title := "Mentalist";
     mentalists.tagline := "Reads minds";
     mentalists.avatar_url := "/oz.png";
     mentalists.system_prompt := "You are Oz Pearlman";
     mentalists.knowledge_base := "";
     mentalists.experience_level := 0;
     mentalists.total_performances := 0;
     mentalists.successful_tricks := Some [];
     mentalists.learning_enabled := true;
     mentalists.specialty_developing := None;
     mentalists.created_at := 1700000000;
     mentalists.last_performance := None |}.

Definition store (personas : list string) : D1Database :=
  {| foreign_keys := true;
     t_mentalists := map persona personas;
     t_experiences := [];
     t_performance_metrics := [];
     t_chat_sessions := [];
     t_session_messages := [] |}.

(** The clock advances by a second at every read; draws are numbered. *)
Definition world (personas : list string) : World :=
  {| db := store personas;
     clock := fun k => 1700000000000 + 1000 * Z.of_nat k;
     reads := 0;
     entropy := fun k => ("r" ++ dec (Z.of_nat k))%string;
     draws := 0 |}.

Definition analysis (trick : string) (sentiment : Q) (lesson : string) : ConversationAnalysis.t :=
  {| ConversationAnalysis.trickPerformed := Some trick;
     ConversationAnalysis.userSentiment := sentiment;
     ConversationAnalysis.keyMoments := ["the reveal"%string];
     ConversationAnalysis.mentalistSuccess := true;
     ConversationAnalysis.lessonLearned := Some lesson;
     ConversationAnalysis.whatWorked := ["eye contact"%string];
     ConversationAnalysis.whatDidntWork := [];
     ConversationAnalysis.suggestedImprovements := [] |}.

(** A transcript of six turns. *)
Definition six_turns : list ChatMessage.t :=
  [ {| ChatMessage.role := ChatMessage.user; ChatMessage.content := "hi" |};
    {| ChatMessage.role := ChatMessage.assistant; ChatMessage.content := "think of a card" |};
    {| ChatMessage.role := ChatMessage.user; ChatMessage.content := "ok" |};
    {| ChatMessage.role := ChatMessage.assistant; ChatMessage.content := "the queen of hearts" |};
    {| ChatMessage.role := ChatMessage.user; ChatMessage.content := "wow" |};
    {| ChatMessage.role := ChatMessage.assistant; ChatMessage.content := "thank you" |} ].

(** An experience with a given trick and reaction. *)
Definition attempt (trick : string) (r : Reaction) : MentalistExperience :=
  {| id := "exp_1_a";
     mentalistId := "P";
     userId := "user_1";
     sessionId := "session_1";
     timestamp := 1700000000000;
     conversationSummary := "";
     trickPerformed := trick;
     userReaction := r;
     userSentiment := 0;
     whatWorked := "";
     whatDidntWork := "";
     lessonLearned := "";
     messageCount := 6;
     durationSeconds := 60;
     context := "" |}.


End Sample.

Module Sample2.

(** Persona ["P"] after one amazed session with the trick ["card_force"],
    then after a second one. *)
Definition after_one : World :=
  snd (captureExperience "P" "user_1" "session_1"
         (Sample.analysis "card_force" (4 # 5) "smile more") Sample.six_turns 60
         (Sample.world ["P"%string])).

Definition after_two : World :=
  snd (captureExperience "P" "user_1" "session_2"
         (Sample.analysis "card_force" (4 # 5) "smile more") Sample.six_turns 60
         after_one).

End Sample2.

Module Sample3.

(** A session of user ["user_1"] with persona ["P"], its id, and the world
    after one [endSession] and after a second one. *)
Definition opened : Completion string * World :=
  getOrCreateSession "user_1" "P" (Sample.world ["P"%string]).

Definition sid : string := "session_1700000000000_r0".

Definition ended_once : World := snd (endSession sid (snd opened)).

Definition ended_twice : World := snd (endSession sid ended_once).

End Sample3.

Module Sample4.

(** A stored experience with a given trick and reaction. *)
Definition stored (eid trick : string) (r : Reaction) : experiences.row :=
  {| experiences.id := eid;
     experiences.mentalist_id := "P";
     experiences.user_id := "user_1";
     experiences.session_id := ("session_" ++ eid)%string;
     experiences.timestamp := 1700000000;
     experiences.conversation_summary := "3 user messages, 3 responses. Duration: 6 total exchanges.";
     experiences.trick_performed := trick;
     experiences.user_reaction := r;
     experiences.user_sentiment := 4 # 5;
     experiences.what_worked := "eye contact";
     experiences.what_didnt_work := "";
     experiences.lesson_learned := "smile more";
     experiences.message_count := 6;
     experiences.duration_seconds := 60;
     experiences.context := "the reveal" |}.

(** One amazed attempt of ["coin_vanish"], then two amazed attempts of
    ["card_force"]: both tricks succeed every time. *)
Definition window : list experiences.row :=
  [ stored "e3" "coin_vanish" amazed;
    stored "e2" "card_force" amazed;
    stored "e1" "card_force" amazed ].

End Sample4.

(** ** UserIdentityService

    [simpleHash] walks the UTF-16 code units of its argument
    ([str.charCodeAt(i)]), so the argument is the list of these numbers. *)

Module UserIdentityService.

(** ToInt32: the 32-bit two's complement integer congruent to [x]. *)
Definition ToInt32 (x : Z) : Z := (x + 2 ^ 31) mod 2 ^ 32 - 2 ^ 31.

(** The digit of [d] in base 36: [0-9] then [a-z]. *)
Definition digit36 (d : Z) : ascii :=
  ascii_of_nat (Z.to_nat (if d <? 10 then 48 + d else 87 + d)).

Fixpoint toString36_digits (fuel : nat) (n : Z) (acc : string) : string :=
  match fuel with
  | O => acc
  | S fuel' =>
      let acc' := String (digit36 (n mod 36)) acc in
      if n <? 36 then acc' else toString36_digits fuel' (n / 36) acc'
  end.

(** [n.toString(36)] for an integer [n >= 0]; a numeral of [n] has no more
    digits in base 36 than in base 2. *)
Definition toString36 (n : Z) : string :=
  toString36_digits (S (Z.to_nat (Z.log2 n))) n "".

(** One turn of the loop of [simpleHash]:
    [hash = ((hash << 5) - hash) + char; hash = hash & hash]. *)
Definition mix (hash char : Z) : Z :=
  let hash := (ToInt32 (Z.shiftl (ToInt32 hash) 5) - hash) + char in
  ToInt32 hash.

(** The number [simpleHash] computes before it prints it. *)
Definition hash_of (str : list Z) : Z := fold_left mix str 0.

(** [simpleHash]. *)
Definition simpleHash (str : list Z) : string :=
  ("user_" ++ toString36 (Z.abs (hash_of str)))%string.

Definition is_lower_alnum (c : ascii) : bool :=
  let n := Z.of_nat (nat_of_ascii c) in
  ((48 <=? n) && (n <=? 57)) || ((97 <=? n) && (n <=? 122)).

Fixpoint all_chars (p : ascii -> bool) (s : string) : bool :=
  match s with
  | EmptyString => true
  | String c s' => p c && all_chars p s'
  end.

(** [s] without the prefix [p], when it starts with it. *)
Fixpoint after_prefix (p s : string) : option string :=
  match p, s with
  | EmptyString, _ => Some s
  | String a p', String b s' => if (a =? b)%char then after_prefix p' s' else None
  | String _ _, EmptyString => None
  end.

(** [isValidUserId]: [/^user_[a-z0-9]+$/.test(userId)]. *)
Definition isValidUserId (userId : string) : bool :=
  match after_prefix "user_" userId with
  | Some rest => negb (rest =? "")%string && all_chars is_lower_alnum rest
  | None => false
  end.

(** [getAnonymousId]. *)
Definition getAnonymousId : Promise string :=
  now <- Date_now ;;
  rnd <- Math_random_base36 ;;
  ret ("user_anon_" ++ dec now ++ "_" ++ rnd)%string.

(** The value of a base-36 numeral. *)
Definition value36 (c : ascii) : Z :=
  let n := Z.of_nat (nat_of_ascii c) in
  if n <? 58 then n - 48 else n - 87.

Fixpoint parse36 (acc : Z) (s : string) : Z :=
  match s with
  | EmptyString => acc
  | String c s' => parse36 (36 * acc + value36 c) s'
  end.


End UserIdentityService.

(** ** ExperienceCapture: the fallback analysis *)

(** The lower-case form of an ASCII letter; other characters stay. *)
Definition ascii_lower (c : ascii) : ascii :=
  let n := nat_of_ascii c in
  if ((65 <=? n) && (n <=? 90))%nat then ascii_of_nat (n + 32) else c.

(** [s] starts with the lower-case word [word], letter case ignored. *)
Fixpoint starts_with_ci (word s : string) : bool :=
  match word, s with
  | EmptyString, _ => true
  | String a word', String b s' => (a =? ascii_lower b)%char && starts_with_ci word' s'
  | String _ _, EmptyString => false
  end.

(** [/word/i.test(s)] for a lower-case word of ASCII letters. *)
Fixpoint includes_ci (word s : string) : bool :=
  starts_with_ci word s
  || match s with
     | EmptyString => false
     | String _ s' => includes_ci word s'
     end.

(** The alternatives of [/amazing|wow|incredible|unbelievable|awesome|cool/i]. *)
Definition positive_words : list string :=
  [ "amazing"; "wow"; "incredible"; "unbelievable"; "awesome"; "cool" ]%string.

Definition is_positive (content : string) : bool :=
  existsb (fun word => includes_ci word content) positive_words.

(** [simpleAnalysis]. *)
Definition simpleAnalysis (messages : list ChatMessage.t) : ConversationAnalysis.t :=
  let userMessages :=
    filter (fun m => match ChatMessage.role m with ChatMessage.user => true | _ => false end)
      messages in
  let hasPositiveWords := existsb (fun m => is_positive (ChatMessage.content m)) userMessages in
  {| ConversationAnalysis.trickPerformed := Some "general_interaction"%string;
     ConversationAnalysis.userSentiment := if hasPositiveWords then 7 # 10 else 5 # 10;
     ConversationAnalysis.keyMoments := ["Interaction completed"%string];
     ConversationAnalysis.mentalistSuccess := hasPositiveWords;
     ConversationAnalysis.lessonLearned := Some "Standard interaction"%string;
     ConversationAnalysis.whatWorked := ["Maintained character"%string];
     ConversationAnalysis.whatDidntWork := [];
     ConversationAnalysis.suggestedImprovements := [] |}.

(** A metric row within the ranges its columns are meant to have. *)
Definition metric_in_range (r : performance_metrics.row) : Prop :=
  1 <= performance_metrics.total_attempts r /\
  0 <= performance_metrics.success_count r <= performance_metrics.total_attempts r /\
  (0 <= performance_metrics.success_rate r <= 1)%Q /\
  (1 <= performance_metrics.average_user_rating r <= 5)%Q.

(** The stored outcomes of a session. *)
Definition outcomes_of (sid : string) (d : D1Database) : list experiences.row :=
  filter (fun x => (experiences.session_id x =? sid)%string) (t_experiences d).

(** ** EnhancedChat: the message log *)

(** [ORDER BY key ASC].  SQLite leaves the order of rows of one key open;
    they are taken in table order here, and what is proved of the result
    asks for distinct keys where that order would show. *)
Fixpoint insert_by_key {A} (key : A -> Z) (x : A) (l : list A) : list A :=
  match l with
  | [] => [x]
  | y :: l' => if key x <=? key y then x :: l else y :: insert_by_key key x l'
  end.

Definition ORDER_BY_ASC {A} (key : A -> Z) (rows : list A) : list A :=
  fold_right (insert_by_key key) [] rows.

(** The stored messages of a session, in table order. *)
Definition messages_of (sid : string) (d : D1Database) : list session_messages.row :=
  filter (fun m => (session_messages.session_id m =? sid)%string) (t_session_messages d).

(** [SELECT role, content, timestamp FROM session_messages WHERE session_id
    = ? ORDER BY timestamp ASC], [.all()]. *)
Definition SELECT_session_messages (sid : string) (d : D1Database)
  : list session_messages.row :=
  ORDER_BY_ASC session_messages.timestamp (messages_of sid d).

(** A [ChatMessage] as [getSessionMessages] builds it: the role is the
    stored text, cast without a check, and the timestamp is set, in
    milliseconds. *)
Module TimedMessage.
Record t := {
  role : string;
  content : string;
  timestamp : Z
}.
End TimedMessage.

Definition timed (m : session_messages.row) : TimedMessage.t :=
  {| TimedMessage.role := session_messages.role m;
     TimedMessage.content := session_messages.content m;
     TimedMessage.timestamp := session_messages.timestamp m * 1000 |}.

(** [getSessionMessages]. *)
Definition getSessionMessages (sessionId : string) : Promise (list TimedMessage.t) :=
  results <- query (SELECT_session_messages sessionId) ;;
  ret (map timed results).

(** The row [saveMessage] is about to store. *)
Definition message_row (sid role content : string) (w : World) : session_messages.row :=
  {| session_messages.id := next_message_id w;
     session_messages.session_id := sid;
     session_messages.role := role;
     session_messages.content := content;
     session_messages.timestamp := clock w (S (reads w)) / 1000 |}.

(** The row [getOrCreateSession] is about to store. *)
Definition new_session_row (userId mentalistId : string) (w : World) : chat_sessions.row :=
  {| chat_sessions.id := next_session_id w;
     chat_sessions.user_id := userId;
     chat_sessions.mentalist_id := mentalistId;
     chat_sessions.start_time := clock w (S (reads w)) / 1000;
     chat_sessions.end_time := None;
     chat_sessions.is_active := true;
     chat_sessions.message_count := 0 |}.

(** No user has two active sessions with one persona. *)
Definition one_active_session (d : D1Database) : Prop :=
  forall userId mentalistId,
    (List.length (filter (active_for userId mentalistId) (t_chat_sessions d)) <= 1)%nat.



(** ** The route [POST /api/session/end] of [index.ts] *)

(** The messages [getSessionMessages] returns are handed on as they are.
    [simpleAnalysis] and [captureExperience] read of a message its content
    and whether its role is ['user'] or ['assistant']; a stored role that is
    none of the three of the type is carried as [system], which answers both
    tests as the stored text does. *)
Definition as_ChatMessage (m : TimedMessage.t) : ChatMessage.t :=
  {| ChatMessage.role :=
       if (TimedMessage.role m =? "user")%string then ChatMessage.user
       else if (TimedMessage.role m =? "assistant")%string then ChatMessage.assistant
       else ChatMessage.system;
     ChatMessage.content := TimedMessage.content m |}.

(** [SELECT start_time FROM chat_sessions WHERE id = ?], [.first()]. *)
Definition SELECT_start_time (sid : string) (d : D1Database) : option Z :=
  option_map chat_sessions.start_time (session_row sid d).

(** A property of the request body that may be missing. *)
Definition field (o : option string) : string :=
  match o with
  | Some s => s
  | None => ""
  end.

Module SessionEndBody.
Record t := {
  sessionId : option string;
  mentalistId : option string;
  userId : option string
}.
End SessionEndBody.

(** The JSON of an answer: an error, or the digest of the stored experience. *)
Inductive Payload :=
| error (message : string)
| success (id : string) (reaction : Reaction) (trickPerformed lessonLearned : string).

Record Response := {
  status : Z;
  payload : Payload
}.

(** The object parsed from the answer of the analysis service
    ([interface AIAnalysisResponse]).  Nothing checks it against the
    interface.  A member that is present has the declared type, and the
    strings of an array are what [join] makes of its elements.  A member is
    [None] when the object lacks it; for [trick_performed] and
    [lesson_learned] also when it is [null] (either way the default is
    taken), and for the three arrays that [captureExperience] joins also
    when its value is [null] or anything else that is not an array (either
    way [join] cannot be called).  Other values that do not have the
    declared type are not modelled. *)
Module AIAnalysisResponse.
Record t := {
  trick_performed : option string;
  user_sentiment : option Q;
  key_moments : option (list string);
  mentalist_success : option bool;
  lesson_learned : option string;
  what_worked : option (list string);
  what_didnt_work : option (list string);
  suggested_improvements : option (list string)
}.
End AIAnalysisResponse.

(** A value of type [ConversationAnalysis] as it is at run time: the type
    is not enforced, and any member may be [undefined]. *)
Module Unvalidated.
Record t := {
  trickPerformed : option string;
  userSentiment : option Q;
  keyMoments : option (list string);
  mentalistSuccess : option bool;
  lessonLearned : option string;
  whatWorked : option (list string);
  whatDidntWork : option (list string);
  suggestedImprovements : option (list string)
}.

(** An analysis that has every member. *)
Definition of_analysis (a : ConversationAnalysis.t) : t :=
  {| trickPerformed := ConversationAnalysis.trickPerformed a;
     userSentiment := Some (ConversationAnalysis.userSentiment a);
     keyMoments := Some (ConversationAnalysis.keyMoments a);
     mentalistSuccess := Some (ConversationAnalysis.mentalistSuccess a);
     lessonLearned := ConversationAnalysis.lessonLearned a;
     whatWorked := Some (ConversationAnalysis.whatWorked a);
     whatDidntWork := Some (ConversationAnalysis.whatDidntWork a);
     suggestedImprovements := Some (ConversationAnalysis.suggestedImprovements a) |}.

(** The members [captureExperience] cannot do without: it calls [join] on
    [whatWorked], [whatDidntWork] and [keyMoments], and binds
    [userSentiment] to its INSERT.  [mentalistSuccess] and
    [suggestedImprovements] are read by no one; [trickPerformed] and
    [lessonLearned] have a default. *)
Definition usable (a : t) : option ConversationAnalysis.t :=
  match whatWorked a, whatDidntWork a, keyMoments a, userSentiment a with
  | Some worked, Some didnt, Some moments, Some sentiment =>
      Some {| ConversationAnalysis.trickPerformed := trickPerformed a;
              ConversationAnalysis.userSentiment := sentiment;
              ConversationAnalysis.keyMoments := moments;
              ConversationAnalysis.mentalistSuccess :=
                match mentalistSuccess a with Some b => b | None => false end;
              ConversationAnalysis.lessonLearned := lessonLearned a;
              ConversationAnalysis.whatWorked := worked;
              ConversationAnalysis.whatDidntWork := didnt;
              ConversationAnalysis.suggestedImprovements :=
                match suggestedImprovements a with Some l => l | None => [] end |}
  | _, _, _, _ => None
  end.
End Unvalidated.

(** [throw]. *)
Definition throw {A} (e : D1Error) : Promise A := fun w => (Thrown e, w).

(** [captureExperience], called with what [analyzeConversation] returned.
    After [generateId()] and [Date.now()] the object literal evaluates
    [analysis.whatWorked.join('; ')], [analysis.whatDidntWork.join('; ')]
    and [analysis.keyMoments.join('; ')], a TypeError when one of the three
    is not an array; and [bind] refuses an [undefined] [userSentiment] with
    a TypeError ([mapSentimentToReaction(undefined)] is ['confused'], which
    no one gets to see).  Either comes before anything is written. *)
Definition captureExperience_unvalidated
  (mentalistId userId sessionId : string) (analysis : Unvalidated.t)
  (messages : list ChatMessage.t) (durationSeconds : Z) : Promise MentalistExperience :=
  match Unvalidated.usable analysis with
  | Some analysis =>
      captureExperience mentalistId userId sessionId analysis messages durationSeconds
  | None =>
      experienceId <- generateId ;;
      timestamp <- Date_now ;;
      throw TypeError
  end.

Section SessionEnd.

(** What the analysis service answers for a persona and a conversation: the
    object parsed from its answer, or [None] when the request, the parsing
    or the reading of the members of the parsed value throws. *)
Variable remote_analysis : string -> list TimedMessage.t -> option AIAnalysisResponse.t.

(** [analyzeConversation]: the members of the answer of the service as they
    are, or the fallback. *)
Definition analyzeConversation (mentalistId : string) (messages : list TimedMessage.t)
  : Promise Unvalidated.t :=
  match remote_analysis mentalistId messages with
  | Some analysis =>
      ret {| Unvalidated.trickPerformed := AIAnalysisResponse.trick_performed analysis;
             Unvalidated.userSentiment := AIAnalysisResponse.user_sentiment analysis;
             Unvalidated.keyMoments := AIAnalysisResponse.key_moments analysis;
             Unvalidated.mentalistSuccess := AIAnalysisResponse.mentalist_success analysis;
             Unvalidated.lessonLearned := AIAnalysisResponse.lesson_learned analysis;
             Unvalidated.whatWorked := AIAnalysisResponse.what_worked analysis;
             Unvalidated.whatDidntWork := AIAnalysisResponse.what_didnt_work analysis;
             Unvalidated.suggestedImprovements :=
               AIAnalysisResponse.suggested_improvements analysis |}
  | None => ret (Unvalidated.of_analysis (simpleAnalysis (map as_ChatMessage messages)))
  end.


(** The body of the [try] block, from the parsed request body on. *)
Definition session_end_try (body : SessionEndBody.t) : Promise Response :=
  let sessionId := field (SessionEndBody.sessionId body) in
  let mentalistId := field (SessionEndBody.mentalistId body) in
  let userId := field (SessionEndBody.userId body) in
  if negb (truthy sessionId) || negb (truthy mentalistId) || negb (truthy userId)
  then ret {| status := 400; payload := error "Missing required fields" |}
  else
    messages <- getSessionMessages sessionId ;;
    if (List.length messages =? 0)%nat
    then ret {| status := 400; payload := error "No messages in session" |}
    else
      session <- query (SELECT_start_time sessionId) ;;
      durationSeconds <-
        match session with
        | Some start_time => now <- Date_now ;; ret (now / 1000 - start_time)
        | None => ret 0
        end ;;
      analysis <- analyzeConversation mentalistId messages ;;
      experience <- captureExperience_unvalidated mentalistId userId sessionId analysis
                      (map as_ChatMessage messages) durationSeconds ;;
      endSession sessionId ;;
      ret {| status := 200;
             payload := success (id experience) (userReaction experience)
                          (trickPerformed experience) (lessonLearned experience) |}.

(** The handler, with the database bound.  [apiKey] is the configured key,
    if any; [body] is the parsed request body, [None] when [c.req.json()]
    throws.  Whatever is thrown inside the [try] block is answered with
    status 500. *)
Definition POST_api_session_end (apiKey : option string) (body : option SessionEndBody.t)
  (w : World) : Response * World :=
  if negb (truthy (field apiKey))
  then ({| status := 500; payload := error "Server configuration error" |}, w)
  else
    match body with
    | None => ({| status := 500; payload := error "Failed to end session" |}, w)
    | Some body =>
        match session_end_try body w with
        | (Returned response, w') => (response, w')
        | (Thrown _, w') => ({| status := 500; payload := error "Failed to end session" |}, w')
        end
    end.

End SessionEnd.



(** ** UserMemoryService *)

Module UserMemoryService.

(** [sentimentToText]. *)
Definition sentimentToText (sentiment : Q) : string :=
  if Qle_bool (7 # 10) sentiment then "Very positive - they love your performances!"
  else if Qle_bool (3 # 10) sentiment then "Positive - engaged and interested"
  else if Qle_bool (- (3 # 10)) sentiment then "Neutral - curious but reserved"
  else if Qle_bool (- (7 # 10)) sentiment then "Skeptical - needs convincing"
  else "Very skeptical - work to win them over".

Definition of_pair (userId mentalistId : string) (x : experiences.row) : bool :=
  (experiences.user_id x =? userId)%string &&
  (experiences.mentalist_id x =? mentalistId)%string.

(** [SELECT COUNT( * ) as count FROM experiences WHERE user_id = ? AND
    mentalist_id = ?], [.first()]. *)
Definition SELECT_COUNT_experiences (userId mentalistId : string) (d : D1Database) : Z :=
  count (of_pair userId mentalistId) (t_experiences d).

(** [isReturningUser]. *)
Definition isReturningUser (userId mentalistId : string) : Promise bool :=
  result <- query (SELECT_COUNT_experiences userId mentalistId) ;;
  ret (0 <? result).

End UserMemoryService.

(** ** Event streams: the relay of [/api/chat/enhanced], the relay of
    [/api/chat] and the reader of the client

    The three loops read the body of a response chunk by chunk, cut the text
    into lines and handle the lines that carry data.  A chunk is the text the
    decoder yields for one [reader.read()]; writes to the client succeed. *)

Definition LF : ascii := "010"%char.

(** The string ["\n\n"]. *)
Definition blank_line : string := String LF (String LF EmptyString).

(** [s.split(sep)] for a separator of one character. *)
Fixpoint split_on (sep : ascii) (s : string) : list string :=
  match s with
  | EmptyString => [EmptyString]
  | String c s' =>
      if (c =? sep)%char then EmptyString :: split_on sep s'
      else match split_on sep s' with
           | [] => [String c EmptyString]
           | h :: t => String c h :: t
           end
  end.

(** [trimmed.substring(6)], [trimmed.slice(6)]. *)
Definition from_6 (s : string) : string := substring 6 (String.length s - 6) s.

(** How a stream ends: [reader.read()] reports [done], or rejects. *)
Inductive Ending :=
| done
| rejected (message : string).

Record Body := {
  chunks : list string;
  ending : Ending
}.

(** The calls the reader of the client makes. *)
Inductive Callback :=
| onChunk (text : string)
| onDone
| onError (error : string).

Section EventStream.

(** [String.prototype.trim]. *)
Variable trim : string -> string.

(** [JSON.parse(data).choices?.[0]?.delta?.content] as the loops use it: the
    text of the delta, the empty string when the parsing throws or the delta
    has no content. *)
Variable delta_content : string -> string.

(** [error.message] of what the store throws. *)
Variable message_of : D1Error -> string.

(** [!trimmed || !trimmed.startsWith("data: ")]: the line is passed over. *)
Definition passed_over (trimmed : string) : bool :=
  negb (truthy trimmed) || negb (prefix "data: " trimmed).

(** The write [data: {"error": "<message>"}] of the [catch] blocks. *)
Definition error_event (message : string) : string :=
  let quote := String "034"%char EmptyString in
  ("data: {" ++ quote ++ "error" ++ quote ++ ": " ++ quote ++ message ++ quote ++ "}"
   ++ blank_line)%string.

(** *** [/api/chat/enhanced] *)

Record Relayed := {
  fullResponse : string;
  written : list string
}.

(** The body of [for (const line of lines)]. *)
Definition relay_line (r : Relayed) (line : string) : Relayed :=
  let trimmed := trim line in
  if passed_over trimmed then r
  else
    {| fullResponse :=
         if (trimmed =? "data: [DONE]")%string then fullResponse r
         else (fullResponse r ++ delta_content (from_6 trimmed))%string;
       written := written r ++ [(line ++ blank_line)%string] |}.

(** One turn of [while (true)] after a chunk was read: the state is the
    buffer and what was collected and written so far. *)
Definition relay_read (state : string * Relayed) (chunk : string) : string * Relayed :=
  let lines := split_on LF (fst state ++ chunk) in
  (last lines EmptyString, fold_left relay_line (removelast lines) (snd state)).

(** The callback handed to [stream]; [body] is [None] when the response has
    no body to read. *)
Definition relay_enhanced (sessionId : string) (body : option Body) (w : World)
  : list string * World :=
  match body with
  | None => ([("data: [ERROR] No response stream" ++ blank_line)%string], w)
  | Some body =>
      let r := snd (fold_left relay_read (chunks body)
                      (EmptyString, {| fullResponse := EmptyString; written := [] |})) in
      match ending body with
      | rejected message => (written r ++ [error_event message], w)
      | done =>
          if truthy (fullResponse r)
          then
            match saveMessage sessionId "assistant" (fullResponse r) w with
            | (Returned _, w') => (written r ++ [("data: [DONE]" ++ blank_line)%string], w')
            | (Thrown e, w') => (written r ++ [error_event (message_of e)], w')
            end
          else (written r ++ [("data: [DONE]" ++ blank_line)%string], w)
      end
  end.

(** *** [/api/chat] *)

Definition forward_line (out : list string) (line : string) : list string :=
  if passed_over (trim line) then out else out ++ [(line ++ blank_line)%string].

Definition forward_read (state : string * list string) (chunk : string)
  : string * list string :=
  let lines := split_on LF (fst state ++ chunk) in
  (last lines EmptyString, fold_left forward_line (removelast lines) (snd state)).

Definition relay_plain (body : option Body) : list string :=
  match body with
  | None => [("data: [ERROR] No response stream" ++ blank_line)%string]
  | Some body =>
      let out := snd (fold_left forward_read (chunks body) (EmptyString, [])) in
      match ending body with
      | rejected message => out ++ [error_event message]
      | done => out ++ [("data: [DONE]" ++ blank_line)%string]
      end
  end.

(** *** The reader of [streamChat] and [streamChatBackend] *)

(** The lines of one chunk: the calls made, and whether the function
    returned at a [[DONE]]. *)
Fixpoint read_lines (lines : list string) : list Callback * bool :=
  match lines with
  | [] => ([], false)
  | line :: rest =>
      let trimmed := trim line in
      if passed_over trimmed then read_lines rest
      else
        let data := from_6 trimmed in
        if (data =? "[DONE]")%string then ([onDone], true)
        else
          let content := delta_content data in
          let (calls, returned) := read_lines rest in
          ((if truthy content then [onChunk content] else []) ++ calls, returned)
  end.

(** The reading loop, from a buffer on; [failure] is the text of the
    [catch] block of the function. *)
Fixpoint read_stream (failure : string) (buffer : string) (chunks : list string)
  (ending : Ending) : list Callback :=
  match chunks with
  | [] =>
      match ending with
      | done => [onDone]
      | rejected _ => [onError failure]
      end
  | chunk :: rest =>
      let lines := split_on LF (buffer ++ chunk) in
      let (calls, returned) := read_lines (removelast lines) in
      if returned then calls
      else calls ++ read_stream failure (last lines EmptyString) rest ending
  end.

End EventStream.

(** The text of a sequence of chunks. *)
Definition text_of (chunks : list string) : string :=
  fold_right String.append EmptyString chunks.

(** The string holds the character. *)
Fixpoint has_char (c : ascii) (s : string) : bool :=
  match s with
  | EmptyString => false
  | String c' s' => (c' =? c)%char || has_char c s'
  end.

(** ** KnowledgeBuilder: the name of a technique *)

(** [extractTechniqueName]: [lesson.split(' ').slice(0, 3).join(' ')]. *)
Definition extractTechniqueName (lesson : string) : string :=
  join " " (firstn 3 (split_on " "%char lesson)).

(** The number of occurrences of a character. *)
Fixpoint occurrences (c : ascii) (s : string) : nat :=
  match s with
  | EmptyString => 0
  | String c' s' => (if (c' =? c)%char then 1 else 0) + occurrences c s'
  end.

(** ** The route [POST /api/mentalist/init] of [index.ts] *)

(** The properties of the request body the handler reads.  The body is
    JSON: a property is missing ([undefined] once destructured), [null] or a
    string; values of the other JSON types are not modelled. *)
Module MentalistInitBody.
Inductive Property := missing | null | text (s : string).

Record t := {
  id : Property;
  name : Property;
  title : Property;
  tagline : Property;
  avatarUrl : Property;
  systemPrompt : Property;
  knowledgeBase : Property
}.

(** What a NOT NULL column takes from a property: a string.  [bind] throws
    on [undefined], and the INSERT is refused for [null]. *)
Definition required (p : Property) : option string :=
  match p with
  | text s => Some s
  | missing | null => None
  end.

(** [p || '']. *)
Definition or_empty (p : Property) : string :=
  match p with
  | text s => if truthy s then s else ""
  | missing | null => ""
  end.
End MentalistInitBody.

Inductive InitAnswer :=
| already_exists (id : string)
| initialized (id : string)
| init_error (message : string).

Record InitResponse := {
  init_status : Z;
  answer : InitAnswer
}.

(** [INSERT INTO mentalists (id, name, title, tagline, avatar_url,
    system_prompt, knowledge_base, experience_level, total_performances,
    successful_tricks, learning_enabled, created_at) VALUES (?, ?, ?, ?, ?,
    ?, ?, 0, 0, '[]', 1, ?)]. *)
Definition INSERT_mentalists (id name title tagline avatar_url system_prompt knowledge_base
  : string) (created_at : Z) (d : D1Database) : D1Error + D1Database :=
  if has_mentalist id d then inl (PrimaryKeyConstraint "mentalists")
  else inr (with_mentalists (fun t => t ++
         [ {| mentalists.id := id;
              mentalists.name := name;
              mentalists.title := title;
              mentalists.tagline := tagline;
              mentalists.avatar_url := avatar_url;
              mentalists.system_prompt := system_prompt;
              mentalists.knowledge_base := knowledge_base;
              mentalists.experience_level := 0;
              mentalists.total_performances := 0;
              mentalists.successful_tricks := Some [];
              mentalists.learning_enabled := true;
              mentalists.specialty_developing := None;
              mentalists.created_at := created_at;
              mentalists.last_performance := None |} ]) d).

(** The handler, with the database bound.  [body] is [None] when
    [c.req.json()] throws.  A value that is missing cannot be bound to a
    statement: the binding throws, after its arguments, the clock among
    them, have been evaluated.  Whatever is thrown is answered with status
    500.

    A [null] id is bound as NULL: [WHERE id = NULL] selects no row, so the
    handler goes on to the INSERT; with one of the five required properties
    missing or [null] that fails as for any id.  With all five given, SQLite
    stores a row whose key is NULL (a [TEXT PRIMARY KEY] admits NULL, and
    any number of them), and the answer is [{success: true, id: null}].  The
    tables of this development hold rows with a key, so that case is outside
    it: the result is [None]. *)
Definition POST_api_mentalist_init (body : option MentalistInitBody.t) (w : World)
  : option (InitResponse * World) :=
  let failed := {| init_status := 500; answer := init_error "Failed to initialize mentalist" |} in
  match body with
  | None => Some (failed, w)
  | Some body =>
      let columns :=
        match MentalistInitBody.required (MentalistInitBody.name body),
              MentalistInitBody.required (MentalistInitBody.title body),
              MentalistInitBody.required (MentalistInitBody.tagline body),
              MentalistInitBody.required (MentalistInitBody.avatarUrl body),
              MentalistInitBody.required (MentalistInitBody.systemPrompt body) with
        | Some name, Some title, Some tagline, Some avatarUrl, Some systemPrompt =>
            Some (name, title, tagline, avatarUrl, systemPrompt)
        | _, _, _, _, _ => None
        end in
      match MentalistInitBody.id body with
      | MentalistInitBody.missing => Some (failed, w)
      | MentalistInitBody.null =>
          match Date_now w with
          | (Thrown _, w1) => Some (failed, w1)
          | (Returned now, w1) =>
              match columns with
              | Some _ => None
              | None => Some (failed, w1)
              end
          end
      | MentalistInitBody.text id =>
          match mentalist_row id (db w) with
          | Some _ => Some ({| init_status := 200; answer := already_exists id |}, w)
          | None =>
              match Date_now w with
              | (Thrown _, w1) => Some (failed, w1)
              | (Returned now, w1) =>
                  match columns with
                  | Some (name, title, tagline, avatarUrl, systemPrompt) =>
                      match run_checked
                              (INSERT_mentalists id name title tagline avatarUrl systemPrompt
                                 (MentalistInitBody.or_empty (MentalistInitBody.knowledgeBase body))
                                 (now / 1000)) w1 with
                      | (Returned _, w2) =>
                          Some ({| init_status := 200; answer := initialized id |}, w2)
                      | (Thrown _, w2) => Some (failed, w2)
                      end
                  | None => Some (failed, w1)
                  end
              end
          end
      end
  end.

(** ** The user id of the client, [src/utils/userIdentity.ts] *)

Module UserIdentity.

Import UserIdentityService.

(** How the browser lets the page use [localStorage]: fully; for reading
    and removing only ([setItem] throws); or not at all (every access
    throws). *)
Inductive Access := works | read_only | blocked.

(** [localStorage], as far as the key [mentalist_user_id] goes. *)
Record Storage := {
  access : Access;
  item : option string
}.

(** [generateUserIdFromFingerprint], on [JSON.stringify(fingerprint)] as a
    sequence of UTF-16 code units: the loop of [simpleHash]. *)
Definition generateUserIdFromFingerprint (data : list Z) : string :=
  ("user_" ++ toString36 (Z.abs (fold_left mix data 0)))%string.

(** [getUserId]; [data] is the fingerprint of the browser at the time of
    the call and [now] its clock. *)
Definition getUserId (data : list Z) (now : Z) (s : Storage) : string * Storage :=
  let fallback := ("user_temp_" ++ dec now)%string in
  match access s with
  | blocked => (fallback, s)
  | _ =>
      if truthy (field (item s)) then (field (item s), s)
      else
        let userId := generateUserIdFromFingerprint data in
        match access s with
        | works => (userId, {| access := access s; item := Some userId |})
        | _ => (fallback, s)
        end
  end.

(** [clearUserId]. *)
Definition clearUserId (s : Storage) : Storage :=
  match access s with
  | blocked => s
  | _ => {| access := access s; item := None |}
  end.

(** [hasExistingUserId]. *)
Definition hasExistingUserId (s : Storage) : bool :=
  match access s with
  | blocked => false
  | _ => match item s with Some _ => true | None => false end
  end.

End UserIdentity.

(** ** Further sample data *)

Module Sample5.

(** The session of [Sample3] after the user has sent one message. *)
Definition talked : World :=
  snd (saveMessage Sample3.sid "user" "wow" (snd Sample3.opened)).

(** A request that ends that session. *)
Definition request : SessionEndBody.t :=
  {| SessionEndBody.sessionId := Some Sample3.sid;
     SessionEndBody.mentalistId := Some "P"%string;
     SessionEndBody.userId := Some "user_1"%string |}.

(** An analysis service that cannot be reached. *)
Definition unreachable (mentalistId : string) (messages : list TimedMessage.t)
  : option AIAnalysisResponse.t := None.



End Sample5.

Module Sample7.

(** A request to initialise persona ["Q"]. *)
Definition request : MentalistInitBody.t :=
  {| MentalistInitBody.id := MentalistInitBody.text "Q";
     MentalistInitBody.name := MentalistInitBody.text "Quinn";
     MentalistInitBody.title := MentalistInitBody.text "The Quiet One";
     MentalistInitBody.tagline := MentalistInitBody.text "Think of a card";
     MentalistInitBody.avatarUrl := MentalistInitBody.text "/quinn.png";
     MentalistInitBody.systemPrompt := MentalistInitBody.text "You are Quinn.";
     MentalistInitBody.knowledgeBase := MentalistInitBody.missing |}.

End Sample7.

Module Sample6.

(** [trim] on strings of ASCII characters: tab, line feed, vertical tab,
    form feed, carriage return and space are taken off both ends. *)
Definition is_space (c : ascii) : bool :=
  let n := nat_of_ascii c in
  ((9 <=? n) && (n <=? 13) || (n =? 32))%nat.

Fixpoint trim_start (s : string) : string :=
  match s with
  | String c s' => if is_space c then trim_start s' else s
  | EmptyString => EmptyString
  end.

Definition reversed (s : string) : string :=
  string_of_list_ascii (rev (list_ascii_of_string s)).

Definition trim (s : string) : string :=
  reversed (trim_start (reversed (trim_start s))).

(** A stand-in for the reading of the JSON of an event: the data itself. *)
Definition delta_content (data : string) : string := data.

Definition message_of (e : D1Error) : string := "D1_ERROR".

Definition line (s : string) : string := (s ++ String LF EmptyString)%string.

(** A response of two events and the end mark, in three chunks that cut the
    first event in two, and in one chunk. *)
Definition in_pieces : list string :=
  [ "data: he"%string; line "llo"; (line "data: world" ++ line "data: [DONE]")%string ].

Definition in_one : list string :=
  [ (line "data: hello" ++ line "data: world" ++ line "data: [DONE]")%string ].

End Sample6.

(** * Properties of the rounding *)

Section Rounding.
Import Binary64.
Local Open Scope Q_scope.

Lemma inject_Z_pos (n : Z) : (0 < n)%Z -> 0 < inject_Z n.
Proof. intros H. unfold Qlt. simpl. lia. Qed.

Lemma pow2_pos (e : Z) : 0 < 2 ^ e.
Proof. apply Qpower_0_lt. reflexivity. Qed.

Lemma pow2_add (a b : Z) : 2 ^ (a + b) == 2 ^ a * 2 ^ b.
Proof. apply Qpower_plus. discriminate. Qed.

Lemma pow2_Z (e : Z) : (0 <= e)%Z -> inject_Z (2 ^ e) == 2 ^ e.
Proof. intros H. apply (Zpower_Qpower 2 e H). Qed.

Lemma Qlog2_spec (q : Q) : 0 < q -> 2 ^ Qlog2 q <= q /\ q < 2 ^ (Qlog2 q + 1).
Proof.
  intros Hq. unfold Qlog2.
  set (a := Z.log2 (Qnum q)). set (b := Z.log2 (Z.pos (Qden q))).
  assert (Hn : (0 < Qnum q)%Z) by (destruct q as [n d]; unfold Qlt in Hq; simpl in *; lia).
  assert (Ha : (2 ^ a <= Qnum q < 2 ^ (a + 1))%Z).
  { pose proof (Z.log2_spec _ Hn). fold a in H. rewrite <- Z.add_1_r in H. exact H. }
  assert (Hb : (2 ^ b <= Z.pos (Qden q) < 2 ^ (b + 1))%Z).
  { pose proof (Z.log2_spec (Z.pos (Qden q)) eq_refl). fold b in H.
    rewrite <- Z.add_1_r in H. exact H. }
  assert (Ha0 : (0 <= a)%Z) by apply Z.log2_nonneg.
  assert (Hb0 : (0 <= b)%Z) by apply Z.log2_nonneg.
  assert (Hqd : q == inject_Z (Qnum q) / inject_Z (Z.pos (Qden q))).
  { destruct q as [n d]. apply Qmake_Qdiv. }
  assert (Hd : 0 < inject_Z (Z.pos (Qden q))) by reflexivity.
  assert (Ha1 : 2 ^ a <= inject_Z (Qnum q))
    by (rewrite <- pow2_Z by exact Ha0; rewrite <- Zle_Qle; lia).
  assert (Ha2 : inject_Z (Qnum q) < 2 ^ (a + 1))
    by (rewrite <- pow2_Z by lia; rewrite <- Zlt_Qlt; lia).
  assert (Hb1 : 2 ^ b <= inject_Z (Z.pos (Qden q)))
    by (rewrite <- pow2_Z by exact Hb0; rewrite <- Zle_Qle; lia).
  assert (Hb2 : inject_Z (Z.pos (Qden q)) < 2 ^ (b + 1))
    by (rewrite <- pow2_Z by lia; rewrite <- Zlt_Qlt; lia).
  assert (Hup : q < 2 ^ (a - b + 1)).
  { rewrite Hqd. apply Qlt_shift_div_r; [exact Hd|].
    apply Qlt_le_trans with (2 ^ (a + 1)); [exact Ha2|].
    replace (a + 1)%Z with ((a - b + 1) + b)%Z by lia. rewrite pow2_add.
    apply Qmult_le_l; [apply pow2_pos | exact Hb1]. }
  assert (Hlo : 2 ^ (a - b - 1) < q).
  { rewrite Hqd. apply Qlt_shift_div_l; [exact Hd|].
    apply Qlt_le_trans with (2 ^ a); [|exact Ha1].
    replace a with ((a - b - 1) + (b + 1))%Z at 2 by lia. rewrite pow2_add.
    apply Qmult_lt_l; [apply pow2_pos | exact Hb2]. }
  destruct (Qle_bool (2 ^ (a - b)) q) eqn:E.
  - apply Qle_bool_iff in E. split; assumption.
  - assert (Hlt : q < 2 ^ (a - b)).
    { apply Qnot_le_lt. intros H. apply Qle_bool_iff in H. congruence. }
    replace (a - b - 1 + 1)%Z with (a - b)%Z by lia.
    split; [apply Qlt_le_weak; exact Hlo | exact Hlt].
Qed.

Lemma Qlog2_unique (q : Q) (l : Z) : 2 ^ l <= q -> q < 2 ^ (l + 1) -> Qlog2 q = l.
Proof.
  intros H1 H2.
  assert (Hq : 0 < q) by (apply Qlt_le_trans with (2 ^ l); [apply pow2_pos | exact H1]).
  destruct (Qlog2_spec q Hq) as (S1 & S2).
  assert (A : (l < Qlog2 q + 1)%Z).
  { apply (Qpower_lt_compat_l_inv 2); [|reflexivity]. eapply Qle_lt_trans; eassumption. }
  assert (B : (Qlog2 q < l + 1)%Z).
  { apply (Qpower_lt_compat_l_inv 2); [|reflexivity]. eapply Qle_lt_trans; eassumption. }
  lia.
Qed.

Lemma nearest_even_cases (x : Q) :
  nearest_even x = Qfloor x \/ nearest_even x = (Qfloor x + 1)%Z.
Proof.
  unfold nearest_even. destruct (Qcompare _ _); [destruct (Z.even _)|..]; auto.
Qed.

Lemma nearest_even_near (x : Q) :
  x - (1 # 2) <= inject_Z (nearest_even x) <= x + (1 # 2).
Proof.
  pose proof (Qfloor_le x) as Hf. pose proof (Qlt_floor x) as Hc.
  rewrite inject_Z_plus in Hc. change (inject_Z 1) with 1 in Hc.
  unfold nearest_even. destruct (Qcompare (x - inject_Z (Qfloor x)) (1 # 2)) eqn:E.
  - apply Qeq_alt in E. destruct (Z.even (Qfloor x)).
    + lra.
    + rewrite inject_Z_plus. change (inject_Z 1) with 1. lra.
  - apply Qlt_alt in E. lra.
  - apply Qgt_alt in E. rewrite inject_Z_plus. change (inject_Z 1) with 1. lra.
Qed.

Lemma nearest_even_ge (x : Q) (k : Z) : inject_Z k <= x -> (k <= nearest_even x)%Z.
Proof.
  intros H. apply Qfloor_resp_le in H. rewrite Qfloor_Z in H.
  destruct (nearest_even_cases x) as [-> | ->]; lia.
Qed.

Lemma nearest_even_le (x : Q) (k : Z) : x <= inject_Z k -> (nearest_even x <= k)%Z.
Proof.
  intros H. pose proof (Qfloor_resp_le _ _ H) as Hf. rewrite Qfloor_Z in Hf.
  destruct (Z.eq_dec (Qfloor x) k) as [E|E].
  - unfold nearest_even.
    assert (Hx : x - inject_Z (Qfloor x) < 1 # 2).
    { pose proof (Qfloor_le x). rewrite E in *. lra. }
    destruct (Qcompare (x - inject_Z (Qfloor x)) (1 # 2)) eqn:C.
    + apply Qeq_alt in C. lra.
    + lia.
    + apply Qgt_alt in C. lra.
  - destruct (nearest_even_cases x) as [-> | ->]; lia.
Qed.

Lemma Qabs_of_pos (q : Q) : 0 < q -> Qabs q = q.
Proof.
  destruct q as [n d]. unfold Qlt. simpl. intros H. unfold Qabs. f_equal. apply Z.abs_eq. lia.
Qed.

Lemma last_place_normal (q : Q) :
  2 ^ (- 1022) <= q -> last_place q = (Qlog2 q - 52)%Z.
Proof.
  intros H.
  assert (Hq : 0 < q) by (eapply Qlt_le_trans; [apply (pow2_pos (- 1022)) | exact H]).
  unfold last_place. rewrite (Qabs_of_pos q Hq).
  destruct (Qlog2_spec q Hq) as (_ & S2).
  assert (A : (- 1022 < Qlog2 q + 1)%Z).
  { apply (Qpower_lt_compat_l_inv 2); [|reflexivity]. eapply Qle_lt_trans; eassumption. }
  lia.
Qed.

Lemma round_pos (q : Q) :
  0 < q -> round q = inject_Z (nearest_even (q / 2 ^ last_place q)) * 2 ^ last_place q.
Proof.
  intros H. unfold round.
  destruct (Qeq_bool q 0) eqn:E; [|reflexivity].
  apply Qeq_bool_iff in E. rewrite E in H. discriminate H.
Qed.

(** A result in the normal range is within 2^-53 of its magnitude. *)
Lemma round_error (q : Q) :
  2 ^ (- 1022) <= q ->
  (1 - unit_roundoff) * q <= round q <= (1 + unit_roundoff) * q.
Proof.
  intros H.
  assert (Hq : 0 < q) by (eapply Qlt_le_trans; [apply (pow2_pos (- 1022)) | exact H]).
  rewrite (round_pos q Hq), (last_place_normal q H).
  destruct (Qlog2_spec q Hq) as (S1 & _).
  set (l := Qlog2 q) in *. set (e := (l - 52)%Z).
  pose proof (pow2_pos e) as He.
  pose proof (nearest_even_near (q / 2 ^ e)) as (N1 & N2).
  set (n := inject_Z (nearest_even (q / 2 ^ e))) in *.
  assert (Hx : q / 2 ^ e * 2 ^ e == q) by (field; lra).
  assert (Hl : 2 ^ l == 2 ^ e * 2 ^ 52).
  { unfold e. rewrite <- pow2_add. replace (l - 52 + 52)%Z with l by lia. reflexivity. }
  assert (Hu : unit_roundoff * 2 ^ 52 == 1 # 2) by reflexivity.
  assert (Hhalf : (1 # 2) * 2 ^ e <= unit_roundoff * q).
  { rewrite <- Hu. rewrite <- Qmult_assoc. rewrite (Qmult_comm (2 ^ 52)), <- Hl.
    apply Qmult_le_l; [reflexivity | exact S1]. }
  assert (M1 : (q / 2 ^ e - (1 # 2)) * 2 ^ e <= n * 2 ^ e)
    by (apply Qmult_le_compat_r; [exact N1 | lra]).
  assert (M2 : n * 2 ^ e <= (q / 2 ^ e + (1 # 2)) * 2 ^ e)
    by (apply Qmult_le_compat_r; [exact N2 | lra]).
  split.
  - eapply Qle_trans; [|exact M1]. 
    setoid_replace ((q / 2 ^ e - (1 # 2)) * 2 ^ e) with (q - (1 # 2) * 2 ^ e)
      by (rewrite <- Hx at 2; ring). lra.
  - eapply Qle_trans; [exact M2|].
    setoid_replace ((q / 2 ^ e + (1 # 2)) * 2 ^ e) with (q + (1 # 2) * 2 ^ e)
      by (rewrite <- Hx at 2; ring). lra.
Qed.

Lemma scaled_integer (k e : Z) :
  (e <= 0)%Z -> inject_Z k / 2 ^ e == inject_Z (k * 2 ^ (- e)).
Proof.
  intros He. rewrite inject_Z_mult, (pow2_Z (- e)) by lia.
  rewrite (Qpower_opp 2 e). field.
  pose proof (pow2_pos e). lra.
Qed.

(** Rounding never crosses an integer below 2^53: those are doubles. *)
Lemma round_between (lo hi : Z) (q : Q) :
  (0 <= lo)%Z -> (hi < 2 ^ 53)%Z ->
  inject_Z lo <= q <= inject_Z hi ->
  inject_Z lo <= round q <= inject_Z hi.
Proof.
  intros Hlo Hhi (H1 & H2).
  assert (H0 : 0 <= inject_Z lo) by (rewrite <- (Zle_Qle 0); exact Hlo).
  destruct (Qeq_bool q 0) eqn:E.
  - unfold round. rewrite E. apply Qeq_bool_iff in E. rewrite E in *. split; [lra | exact H2].
  - assert (Hq : 0 < q).
    { apply Qeq_bool_neq in E. destruct (Qlt_le_dec 0 q) as [|Hle]; [assumption|].
      exfalso. apply E. lra. }
    rewrite (round_pos q Hq).
    destruct (Qlog2_spec q Hq) as (S1 & _).
    assert (Hl : (Qlog2 q < 53)%Z).
    { apply (Qpower_lt_compat_l_inv 2); [|reflexivity].
      eapply Qle_lt_trans; [exact S1|]. eapply Qle_lt_trans; [exact H2|].
      rewrite <- (pow2_Z 53) by lia. rewrite <- Zlt_Qlt. exact Hhi. }
    assert (He : (last_place q <= 0)%Z).
    { unfold last_place. rewrite (Qabs_of_pos q Hq). lia. }
    set (e := last_place q) in *.
    pose proof (pow2_pos e) as Hp.
    assert (Hx1 : inject_Z (lo * 2 ^ (- e)) <= q / 2 ^ e).
    { rewrite <- scaled_integer by exact He. apply Qmult_le_compat_r; [exact H1|].
      apply Qlt_le_weak, Qinv_lt_0_compat, Hp. }
    assert (Hx2 : q / 2 ^ e <= inject_Z (hi * 2 ^ (- e))).
    { rewrite <- scaled_integer by exact He. apply Qmult_le_compat_r; [exact H2|].
      apply Qlt_le_weak, Qinv_lt_0_compat, Hp. }
    apply nearest_even_ge in Hx1. apply nearest_even_le in Hx2.
    rewrite Zle_Qle in Hx1, Hx2. rewrite <- !scaled_integer in Hx1, Hx2 by exact He.
    set (n := inject_Z (nearest_even (q / 2 ^ e))) in *.
    assert (A : inject_Z lo / 2 ^ e * 2 ^ e <= n * 2 ^ e)
      by (apply Qmult_le_compat_r; [exact Hx1 | lra]).
    assert (B : n * 2 ^ e <= inject_Z hi / 2 ^ e * 2 ^ e)
      by (apply Qmult_le_compat_r; [exact Hx2 | lra]).
    assert (Cl : inject_Z lo / 2 ^ e * 2 ^ e == inject_Z lo) by (field; lra).
    assert (Ch : inject_Z hi / 2 ^ e * 2 ^ e == inject_Z hi) by (field; lra).
    rewrite Cl in A. rewrite Ch in B. split; assumption.
Qed.

Lemma round_integer (k : Z) : (0 <= k < 2 ^ 53)%Z -> round (inject_Z k) == inject_Z k.
Proof.
  intros (H1 & H2).
  destruct (round_between k k (inject_Z k) H1 H2) as (A & B); [split; apply Qle_refl|].
  apply Qle_antisym; assumption.
Qed.

Lemma one_normal (q : Q) : 1 <= q -> 2 ^ (- 1022) <= q.
Proof. intros H. eapply Qle_trans; [|exact H]. apply Qle_bool_imp_le. reflexivity. Qed.

Lemma rounding_tolerance_succ (n : Z) : rounding_tolerance (n + 1) == rounding_tolerance n + 4 * unit_roundoff.
Proof.
  unfold rounding_tolerance, unit_roundoff. replace (n + 1 - 1)%Z with (n - 1 + 1)%Z by lia.
  rewrite inject_Z_plus. change (inject_Z 1) with 1. field.
Qed.

Lemma rounding_tolerance_range (n : Z) : (1 <= n <= 2 ^ 49)%Z -> 0 <= rounding_tolerance n <= 1 # 4.
Proof.
  intros (H1 & H2). unfold rounding_tolerance.
  assert (A : 0 <= inject_Z (n - 1)) by (rewrite <- (Zle_Qle 0); lia).
  assert (B : inject_Z (n - 1) <= inject_Z (2 ^ 49)) by (rewrite <- Zle_Qle; lia).
  change (inject_Z (2 ^ 49)) with (562949953421312 # 1) in B.
  split; lra.
Qed.

Lemma running_mean_step (n : Z) (m r S : Q) :
  (1 <= n)%Z -> (n + 1 <= 2 ^ 49)%Z ->
  1 <= m <= 5 -> 1 <= r <= 5 -> 0 <= S ->
  (1 - rounding_tolerance n) * S <= m * inject_Z n <= (1 + rounding_tolerance n) * S ->
  let m' := div (add (mul m (inject_Z n)) r) (inject_Z (n + 1)) in
  1 <= m' <= 5 /\
  (1 - rounding_tolerance (n + 1)) * (S + r) <= m' * inject_Z (n + 1) <= (1 + rounding_tolerance (n + 1)) * (S + r).
Proof.
  intros Hn Hmax Hm Hr HS Hinv m'.
  pose proof (rounding_tolerance_range n ltac:(lia)) as Ha.
  set (a := rounding_tolerance n) in *.
  set (u := unit_roundoff).
  assert (Hu : u == 1 # 9007199254740992) by reflexivity.
  assert (HN : 1 <= inject_Z n) by (rewrite <- (Zle_Qle 1); lia).
  set (N := inject_Z n) in *.
  assert (HN1 : inject_Z (n + 1) == N + 1) by (unfold N; rewrite inject_Z_plus; reflexivity).
  assert (H5 : inject_Z (5 * n) == 5 * N) by (unfold N; rewrite inject_Z_mult; reflexivity).
  assert (H55 : inject_Z (5 * (n + 1)) == 5 * (N + 1))
    by (rewrite inject_Z_mult, HN1; reflexivity).
  (* the product *)
  assert (Hmn : N <= m * N <= 5 * N) by (split; nra).
  set (p := mul m N).
  assert (Pr : N <= p <= 5 * N).
  { unfold p, mul. rewrite <- H5. unfold N. apply round_between; [lia | lia |].
    fold N. rewrite H5. exact Hmn. }
  assert (Pe : (1 - u) * (m * N) <= p <= (1 + u) * (m * N)).
  { apply round_error, one_normal. lra. }
  (* the sum *)
  set (q := add p r).
  assert (Qr : N + 1 <= q <= 5 * (N + 1)).
  { unfold q, add. rewrite <- H55, <- HN1. apply round_between; [lia | lia |].
    rewrite H55, HN1. lra. }
  assert (Qe : (1 - u) * (p + r) <= q <= (1 + u) * (p + r)).
  { apply round_error, one_normal. lra. }
  (* the quotient *)
  assert (Hpos : 0 < inject_Z (n + 1)) by (apply inject_Z_pos; lia).
  assert (Dr : 1 <= q / inject_Z (n + 1) <= 5).
  { split.
    - apply Qle_shift_div_l; [exact Hpos|]. rewrite HN1. lra.
    - apply Qle_shift_div_r; [exact Hpos|]. rewrite HN1. lra. }
  assert (Mr : 1 <= m' <= 5).
  { unfold m', div. fold p. fold q. apply (round_between 1 5); [lia | lia | exact Dr]. }
  assert (Me : (1 - u) * (q / inject_Z (n + 1)) <= m' <= (1 + u) * (q / inject_Z (n + 1))).
  { apply round_error, one_normal. apply Dr. }
  split; [exact Mr|].
  assert (Hq : q / inject_Z (n + 1) * inject_Z (n + 1) == q) by (field; lra).
  assert (Me' : (1 - u) * q <= m' * inject_Z (n + 1) <= (1 + u) * q).
  { destruct Me as (Me1 & Me2). split.
    - apply Qle_trans with ((1 - u) * (q / inject_Z (n + 1)) * inject_Z (n + 1)).
      + rewrite <- Qmult_assoc, Hq. apply Qle_refl.
      + apply Qmult_le_compat_r; [exact Me1 | lra].
    - apply Qle_trans with ((1 + u) * (q / inject_Z (n + 1)) * inject_Z (n + 1)).
      + apply Qmult_le_compat_r; [exact Me2 | lra].
      + rewrite <- Qmult_assoc, Hq. apply Qle_refl. }
  rewrite (rounding_tolerance_succ n). fold a. fold u.
  set (M := m' * inject_Z (n + 1)) in *.
  set (mn := m * N) in *.
  clearbody M mn p q m' a. clear - Ha HS Hr Hinv Pe Qe Me' Hmn HN.
  subst u. unfold unit_roundoff in *.
  assert (X1 : 0 <= a * S) by (apply Qmult_le_0_compat; lra).
  assert (X2 : a * S <= (1 # 4) * S) by (apply Qmult_le_compat_r; lra).
  assert (X3 : 0 <= a * r) by (apply Qmult_le_0_compat; lra).
  split; lra.
Qed.

Lemma round_zero (q : Q) : q == 0 -> round q = 0.
Proof. intros H. unfold round. apply Qeq_bool_iff in H. rewrite H. reflexivity. Qed.

(** A quotient of counts is a double between 0 and 1, within [2^(-53)] of
    the magnitude of the quotient. *)
Lemma div_counts_range (c n : Z) :
  (0 <= c <= n)%Z -> (1 <= n)%Z -> 0 <= div (inject_Z c) (inject_Z n) <= 1.
Proof.
  intros Hc Hn. unfold div.
  assert (Hpos : 0 < inject_Z n) by (apply inject_Z_pos; lia).
  apply (round_between 0 1); [lia | lia |]. split.
  - apply Qle_shift_div_l; [exact Hpos|]. rewrite Qmult_0_l. rewrite <- (Zle_Qle 0). lia.
  - apply Qle_shift_div_r; [exact Hpos|]. rewrite Qmult_1_l. rewrite <- Zle_Qle. lia.
Qed.

Lemma div_counts_error (c n : Z) :
  (0 <= c)%Z -> (1 <= n <= 2 ^ 49)%Z ->
  (1 - unit_roundoff) * (inject_Z c / inject_Z n)
    <= div (inject_Z c) (inject_Z n)
    <= (1 + unit_roundoff) * (inject_Z c / inject_Z n).
Proof.
  intros Hc (Hn & Hmax). unfold div.
  assert (Hpos : 0 < inject_Z n) by (apply inject_Z_pos; lia).
  destruct (Z.eq_dec c 0) as [-> | Hc0].
  - assert (H0 : inject_Z 0 / inject_Z n == 0) by (unfold Qdiv; ring).
    rewrite (round_zero _ H0), H0. split; apply Qle_bool_imp_le; reflexivity.
  - apply round_error.
    apply Qle_trans with (1 # 562949953421312); [apply Qle_bool_imp_le; reflexivity|].
    apply Qle_shift_div_l; [exact Hpos|].
    assert (A : inject_Z n <= inject_Z (2 ^ 49)) by (rewrite <- Zle_Qle; lia).
    change (inject_Z (2 ^ 49)) with (562949953421312 # 1) in A.
    assert (B : 1 <= inject_Z c) by (rewrite <- (Zle_Qle 1); lia).
    lra.
Qed.

End Rounding.

(** * Percentages and ratings *)

Section Percentages.
Import KnowledgeBuilder.
Local Open Scope Q_scope.

(** The percentage the code computes is a double between 0 and 100, within
    [2^(-44)] of the exact percentage. *)
Lemma percentage_range (s a : Z) :
  (0 <= s <= a)%Z -> (1 <= a)%Z -> 0 <= percentage s a <= 100.
Proof.
  intros Hs Ha. unfold percentage, Binary64.mul.
  pose proof (div_counts_range s a Hs Ha) as Hd.
  apply (round_between 0 100); [lia | lia |].
  change (inject_Z 0) with 0. change (inject_Z 100) with 100. lra.
Qed.

Lemma percentage_error (s a : Z) :
  (0 <= s <= a)%Z -> (1 <= a <= 2 ^ 49)%Z ->
  Qabs (percentage s a - inject_Z s / inject_Z a * 100) <= 1 # 17592186044416.
Proof.
  intros Hs (Ha & Hmax). unfold percentage, Binary64.mul.
  assert (Hpos : 0 < inject_Z a) by (apply inject_Z_pos; lia).
  pose proof (div_counts_range s a Hs Ha) as Hd.
  pose proof (div_counts_error s a ltac:(lia) (conj Ha Hmax)) as He.
  assert (Hx : 0 <= inject_Z s / inject_Z a <= 1).
  { split.
    - apply Qle_shift_div_l; [exact Hpos|]. rewrite Qmult_0_l. rewrite <- (Zle_Qle 0). lia.
    - apply Qle_shift_div_r; [exact Hpos|]. rewrite Qmult_1_l. rewrite <- Zle_Qle. lia. }
  set (x := inject_Z s / inject_Z a) in *.
  set (d := Binary64.div (inject_Z s) (inject_Z a)) in *.
  unfold Binary64.unit_roundoff in He.
  apply Qabs_Qle_condition.
  destruct (Z.eq_dec s 0) as [E | E].
  - assert (Hx0 : x == 0) by (unfold x; rewrite E; unfold Qdiv; ring).
    assert (Hd0 : d == 0) by (rewrite Hx0 in He; lra).
    assert (Hp0 : d * 100 == 0) by (rewrite Hd0; ring).
    rewrite (round_zero _ Hp0), Hx0. split; apply Qle_bool_imp_le; reflexivity.
  - assert (Hxlow : (1 # 562949953421312) <= x).
    { unfold x. apply Qle_shift_div_l; [exact Hpos|].
      assert (A : inject_Z a <= inject_Z (2 ^ 49)) by (rewrite <- Zle_Qle; lia).
      change (inject_Z (2 ^ 49)) with (562949953421312 # 1) in A.
      assert (B : 1 <= inject_Z s) by (rewrite <- (Zle_Qle 1); lia).
      lra. }
    assert (Hn : 2 ^ (- 1022) <= d * 100).
    { apply Qle_trans with (1 # 562949953421312); [apply Qle_bool_imp_le; reflexivity|]. lra. }
    pose proof (round_error _ Hn) as Hr. unfold Binary64.unit_roundoff in Hr.
    split; lra.
Qed.

(** [toFixed(1)] moves a number by one twentieth at most. *)
Lemma toFixed1_near (x : Q) : 0 <= x -> Qabs (toFixed1 x - x) <= 1 # 20.
Proof.
  intros Hx. unfold toFixed1.
  assert (E : Qle_bool 0 x = true) by (apply Qle_bool_iff; exact Hx).
  rewrite E.
  pose proof (Qfloor_le (x * 10 + (1 # 2))) as Hf.
  pose proof (Qlt_floor (x * 10 + (1 # 2))) as Hc.
  rewrite inject_Z_plus in Hc. change (inject_Z 1) with 1 in Hc.
  set (n := inject_Z (Qfloor (x * 10 + (1 # 2)))) in *.
  apply Qabs_Qle_condition.
  assert (D : n / 10 == n * (1 # 10)) by (unfold Qdiv; reflexivity).
  rewrite D. split; lra.
Qed.

(** The rate shown for [s] successes among [a] attempts is within 0.05 and
    [2^(-44)] of the exact percentage. *)
Lemma rate_near (s a : Z) :
  (0 <= s <= a)%Z -> (1 <= a <= 2 ^ 49)%Z ->
  Qabs (toFixed1 (percentage s a) - inject_Z s / inject_Z a * 100)
    <= (1 # 20) + (1 # 17592186044416).
Proof.
  intros Hs Ha.
  pose proof (percentage_range s a Hs (proj1 Ha)) as Hr.
  pose proof (toFixed1_near _ (proj1 Hr)) as H1.
  pose proof (percentage_error s a Hs Ha) as H2.
  apply Qabs_Qle_condition in H1. apply Qabs_Qle_condition in H2.
  apply Qabs_Qle_condition. split; lra.
Qed.

Lemma rating_of_range (e : MentalistExperience) : 1 <= rating_of e <= 5.
Proof.
  unfold rating_of. destruct (userReaction e); cbn; split; apply Qle_bool_imp_le; reflexivity.
Qed.

End Percentages.

(** * The rounding against the Standard Library's

    The quotients and percentages of all counts up to 60, and the average
    kept over the ratings 5, 5, 5, 5, 5, 3, 1, 2, are the values [SpecFloat]
    computes for them. *)

Example percentage_as_SpecFloat :
  forallb
    (fun a =>
       forallb
         (fun s =>
            let s := Z.of_nat s in
            let a := Z.of_nat a in
            Qeq_bool (Binary64.div (inject_Z s) (inject_Z a))
              (IEEE.value (IEEE.div (IEEE.of_Z s) (IEEE.of_Z a)))
            && Qeq_bool (KnowledgeBuilder.percentage s a)
                 (IEEE.value (IEEE.mul (IEEE.div (IEEE.of_Z s) (IEEE.of_Z a))
                                (IEEE.of_Z 100))))
         (seq 0 (S a)))
    (seq 1 60)
  = true.
Proof. vm_compute. reflexivity. Qed.

Example average_as_SpecFloat :
  let step (m : Q) (nr : Z * Z) :=
    Binary64.div (Binary64.add (Binary64.mul m (inject_Z (fst nr))) (inject_Z (snd nr)))
      (inject_Z (fst nr + 1)) in
  let step' (m : SpecFloat.spec_float) (nr : Z * Z) :=
    IEEE.div (IEEE.add (IEEE.mul m (IEEE.of_Z (fst nr))) (IEEE.of_Z (snd nr)))
      (IEEE.of_Z (fst nr + 1)) in
  let updates := [(1, 5); (2, 5); (3, 5); (4, 5); (5, 3); (6, 1); (7, 2)]%Z in
  Qred (fold_left step updates (5 # 1)) = 8725724278030337 # 2251799813685248 /\
  fold_left step' updates (IEEE.of_Z 5) = SpecFloat.S754_finite false 8725724278030337 (- 51).
Proof. vm_compute. split; reflexivity. Qed.

(** The same for every sequence of five ratings among 1, 2, 3, 4, 5: the
    average kept after each of them is the value [SpecFloat] computes. *)
Example averages_as_SpecFloat :
  let step (m : Q) (n r : Z) :=
    Binary64.div (Binary64.add (Binary64.mul m (inject_Z n)) (inject_Z r)) (inject_Z (n + 1)) in
  let step' (m : SpecFloat.spec_float) (n r : Z) :=
    IEEE.div (IEEE.add (IEEE.mul m (IEEE.of_Z n)) (IEEE.of_Z r)) (IEEE.of_Z (n + 1)) in
  let ratings := [1; 2; 3; 4; 5]%Z in
  let fix agree (depth : nat) (m : Q) (m' : SpecFloat.spec_float) (n : Z) : bool :=
    Qeq_bool m (IEEE.value m')
    && match depth with
       | O => true
       | S depth' =>
           forallb (fun r => agree depth' (step m n r) (step' m' n r) (n + 1)%Z) ratings
       end in
  forallb (fun r => agree 4%nat (inject_Z r) (IEEE.of_Z r) 1%Z) ratings = true.
Proof. vm_compute. reflexivity. Qed.
(** * Properties *)

#[local] Arguments String.append : simpl never.

(** ** Reading rows back after an UPDATE *)

Lemma find_map_preserving {A} (p : A -> bool) (f : A -> A) (l : list A) :
  (forall x, p (f x) = p x) -> find p (map f l) = option_map f (find p l).
Proof.
  intros Hp. induction l as [|x l IH]; simpl; [reflexivity|].
  rewrite Hp. destruct (p x); [reflexivity | exact IH].
Qed.

Lemma find_some_holds {A} (p : A -> bool) (l : list A) (x : A) :
  find p l = Some x -> p x = true.
Proof. intros H. apply find_some in H. tauto. Qed.

Lemma existsb_false_find_none {A} (p : A -> bool) (l : list A) :
  existsb p l = false -> find p l = None.
Proof.
  induction l as [|x l IH]; simpl; [reflexivity|].
  destruct (p x); simpl; [discriminate | exact IH].
Qed.

Lemma find_none_existsb_false {A} (p : A -> bool) (l : list A) :
  find p l = None -> existsb p l = false.
Proof.
  induction l as [|x l IH]; simpl; [reflexivity|].
  destruct (p x); simpl; [discriminate | exact IH].
Qed.

Lemma find_app_none {A} (p : A -> bool) (l : list A) (x : A) :
  find p l = None -> find p (l ++ [x]) = if p x then Some x else None.
Proof.
  induction l as [|y l IH]; simpl; [reflexivity|].
  destruct (p y); [discriminate | exact IH].
Qed.

Lemma find_app_some {A} (p : A -> bool) (l l' : list A) (x : A) :
  find p l = Some x -> find p (l ++ l') = Some x.
Proof.
  induction l as [|y l IH]; simpl; [discriminate|].
  destruct (p y); [trivial | exact IH].
Qed.

(** An UPDATE that leaves the key column alone does not change which row a
    lookup by key finds; it changes that row when its WHERE clause selects
    it. *)
Lemma find_UPDATE_WHERE {A} (key : A -> string) (set_ : A -> A)
  (Hk : forall r, key (set_ r) = key r) (k k' : string) (t : list A) :
  find (fun r => (key r =? k')%string) (UPDATE_WHERE (fun r => (key r =? k)%string) set_ t)
  = option_map (fun r => if (key r =? k)%string then set_ r else r)
      (find (fun r => (key r =? k')%string) t).
Proof.
  unfold UPDATE_WHERE. apply find_map_preserving.
  intros r. destruct (key r =? k)%string; [now rewrite Hk | reflexivity].
Qed.

Lemma ids_UPDATE_WHERE {A B} (key : A -> B) (set_ : A -> A)
  (Hk : forall r, key (set_ r) = key r) (where_ : A -> bool) (t : list A) :
  map key (UPDATE_WHERE where_ set_ t) = map key t.
Proof.
  unfold UPDATE_WHERE. rewrite map_map. apply map_ext.
  intros r. destruct (where_ r); [apply Hk | reflexivity].
Qed.

(** ** The sentiment table *)

(** C2.  On the sentiment domain [-1, 1] the reaction is the one of the first
    row of the table whose threshold the sentiment reaches: amazed from 0.7,
    else engaged from 0.3, else neutral from -0.3, else skeptical from -0.7,
    else confused; the four thresholds themselves belong to the higher
    bucket. *)
Theorem mapSentimentToReaction_table (s : Q) :
  (- (1) <= s /\ s <= 1)%Q ->
  ((7 # 10 <= s)%Q -> mapSentimentToReaction s = amazed) /\
  ((3 # 10 <= s)%Q /\ (s < 7 # 10)%Q -> mapSentimentToReaction s = engaged) /\
  ((- (3 # 10) <= s)%Q /\ (s < 3 # 10)%Q -> mapSentimentToReaction s = neutral) /\
  ((- (7 # 10) <= s)%Q /\ (s < - (3 # 10))%Q -> mapSentimentToReaction s = skeptical) /\
  ((s < - (7 # 10))%Q -> mapSentimentToReaction s = confused) /\
  mapSentimentToReaction (7 # 10) = amazed /\
  mapSentimentToReaction (3 # 10) = engaged /\
  mapSentimentToReaction (- (3 # 10)) = neutral /\
  mapSentimentToReaction (- (7 # 10)) = skeptical.
Proof.
  intros _. unfold mapSentimentToReaction.
  repeat split; try reflexivity; intros H;
    repeat match goal with
    | |- context [Qle_bool ?a ?b] =>
        let E := fresh "E" in
        destruct (Qle_bool a b) eqn:E;
        [ apply Qle_bool_iff in E
        | assert (~ (a <= b)%Q) by (rewrite <- Qle_bool_iff; congruence); clear E ]
    end; try reflexivity; exfalso; lra.
Qed.

(** C2 at work: a sentiment of 0.5 is engaged. *)
Lemma mapSentimentToReaction_table_witness :
  mapSentimentToReaction (1 # 2) = engaged.
Proof.
  assert (D : (- (1) <= 1 # 2 /\ 1 # 2 <= 1)%Q)
    by (split; apply Qle_bool_imp_le; reflexivity).
  destruct (mapSentimentToReaction_table (1 # 2) D) as (_ & H & _).
  apply H. split; [apply Qle_bool_imp_le; reflexivity | reflexivity].
Defined.

(** ** Persona counters *)

Lemma calculateExpGain_formula (e : MentalistExperience) :
  calculateExpGain e = expGain_formula (userReaction e) (lessonLearned e) (messageCount e).
Proof.
  unfold calculateExpGain, expGain_formula, reactionBonus.
  destruct (userReaction e), (truthy (lessonLearned e));
    destruct (Z.ltb_spec 10 (messageCount e)); cbv zeta; lia.
Qed.

Lemma find_existsb {A} (p : A -> bool) (l : list A) (x : A) :
  find p l = Some x -> existsb p l = true.
Proof.
  intros H. destruct (existsb p l) eqn:E; [reflexivity|].
  apply existsb_false_find_none in E. congruence.
Qed.

(** What [updateMentalistStats] leaves behind.  It never throws; it touches
    the [mentalists] table only; the row of the persona, when there is one,
    gains one performance and the experience points, and the trick is
    appended to its successful tricks exactly when the reaction is a
    success. *)
Lemma updateMentalistStats_effect (mid : string) (e : MentalistExperience) (w : World) :
  exists w',
    updateMentalistStats mid e w = (Returned tt, w') /\
    foreign_keys (db w') = foreign_keys (db w) /\
    t_experiences (db w') = t_experiences (db w) /\
    t_performance_metrics (db w') = t_performance_metrics (db w) /\
    t_chat_sessions (db w') = t_chat_sessions (db w) /\
    t_session_messages (db w') = t_session_messages (db w) /\
    clock w' = clock w /\ entropy w' = entropy w /\
    reads w' = S (reads w) /\ draws w' = draws w /\
    map mentalists.id (t_mentalists (db w')) = map mentalists.id (t_mentalists (db w)) /\
    (mentalist_row mid (db w) = None -> mentalist_row mid (db w') = None) /\
    (forall m, mentalist_row mid (db w) = Some m ->
       exists m',
         mentalist_row mid (db w') = Some m' /\
         mentalists.experience_level m' = mentalists.experience_level m + calculateExpGain e /\
         mentalists.total_performances m' = mentalists.total_performances m + 1 /\
         mentalists.learning_enabled m' = mentalists.learning_enabled m /\
         mentalists.last_performance m' = Some (clock w (reads w) / 1000) /\
         (isSuccess (userReaction e) = true ->
            mentalists.successful_tricks m' =
              Some (match mentalists.successful_tricks m with Some l => l | None => [] end
                    ++ [trickPerformed e])) /\
         (isSuccess (userReaction e) = false ->
            mentalists.successful_tricks m' = mentalists.successful_tricks m)).
Proof.
  unfold updateMentalistStats, bind, Date_now, run, query, ret, on_db. simpl.
  pose proof (fun now => find_UPDATE_WHERE mentalists.id (SET_stats (calculateExpGain e) now)
                (fun _ => eq_refl)) as H1.
  pose proof (fun tr => find_UPDATE_WHERE mentalists.id (SET_successful_tricks tr)
                (fun _ => eq_refl)) as H2.
  pose proof (fun now => ids_UPDATE_WHERE mentalists.id (SET_stats (calculateExpGain e) now)
                (fun _ => eq_refl)) as I1.
  pose proof (fun tr => ids_UPDATE_WHERE mentalists.id (SET_successful_tricks tr)
                (fun _ => eq_refl)) as I2.
  destruct (isSuccess (userReaction e)) eqn:Hs; simpl.
  - unfold SELECT_successful_tricks, UPDATE_mentalists_stats, with_mentalists. simpl.
    rewrite H1.
    destruct (find (fun m => (mentalists.id m =? mid)%string) (t_mentalists (db w)))
      as [m0|] eqn:Hf; simpl.
    + eexists; split; [reflexivity|]. simpl.
      repeat split; try reflexivity.
      * now rewrite I2, I1.
      * unfold mentalist_row. simpl. congruence.
      * intros m Hm. unfold mentalist_row in *. simpl.
        rewrite H2, H1, Hm. simpl.
        eexists; split; [reflexivity|].
        assert (m0 = m) by congruence. subst m0.
        apply find_some_holds in Hm.
        rewrite Hm. simpl. rewrite Hm. simpl.
        repeat split; try reflexivity; intros; congruence.
    + eexists; split; [reflexivity|]. simpl.
      repeat split; try reflexivity.
      * now rewrite I1.
      * intros _. unfold mentalist_row. simpl. rewrite H1, Hf. reflexivity.
      * intros m Hm. unfold mentalist_row in Hm. congruence.
  - unfold UPDATE_mentalists_stats, with_mentalists.
    eexists; split; [reflexivity|]. simpl.
    repeat split; try reflexivity.
    + now rewrite I1.
    + unfold mentalist_row. simpl. intros Hn. rewrite H1, Hn. reflexivity.
    + intros m Hm. unfold mentalist_row in *. simpl.
      rewrite H1, Hm. simpl.
      eexists; split; [reflexivity|].
      apply find_some_holds in Hm. rewrite Hm. simpl.
      repeat split; try reflexivity; intros; congruence.
Qed.

(** ** Trick metrics *)

Lemma updateTrickMetrics_frame (mid : string) (e : MentalistExperience) (w : World) :
  same_but_metrics w (snd (updateTrickMetrics mid e w)).
Proof.
  unfold updateTrickMetrics, bind, query, Date_now, run, run_checked, on_db, same_but_metrics.
  simpl.
  destruct (SELECT_performance_metrics mid (trickPerformed e) (db w)) as [r|]; simpl.
  - repeat split; reflexivity.
  - match goal with |- context [INSERT_performance_metrics ?r ?d] =>
      destruct (INSERT_performance_metrics r d) as [err|d'] eqn:E end; simpl.
    + repeat split; reflexivity.
    + unfold INSERT_performance_metrics in E. simpl in E.
      repeat match type of E with
             | (if ?b then _ else _) = _ => destruct b; try discriminate
             end.
      injection E as <-. simpl. repeat split; reflexivity.
Qed.

(** The online update of a row that exists. *)
Lemma updateTrickMetrics_existing (mid : string) (e : MentalistExperience) (w : World)
  (r : performance_metrics.row) :
  SELECT_performance_metrics mid (trickPerformed e) (db w) = Some r ->
  exists w' r',
    updateTrickMetrics mid e w = (Returned tt, w') /\
    SELECT_performance_metrics mid (trickPerformed e) (db w') = Some r' /\
    performance_metrics.total_attempts r' = performance_metrics.total_attempts r + 1 /\
    performance_metrics.success_count r' =
      performance_metrics.success_count r
      + (if isSuccess (userReaction e) then 1 else 0) /\
    performance_metrics.success_rate r' =
      Binary64.div (inject_Z (performance_metrics.success_count r'))
        (inject_Z (performance_metrics.total_attempts r')) /\
    performance_metrics.average_user_rating r' =
      Binary64.div
        (Binary64.add
           (Binary64.mul (performance_metrics.average_user_rating r)
              (inject_Z (performance_metrics.total_attempts r)))
           (rating_of e))
        (inject_Z (performance_metrics.total_attempts r + 1)).
Proof.
  intros Hsel.
  unfold updateTrickMetrics, bind, query, Date_now, run, on_db. simpl.
  rewrite Hsel. simpl.
  eexists; eexists; split; [reflexivity|].
  unfold SELECT_performance_metrics, UPDATE_performance_metrics, with_performance_metrics in *.
  simpl.
  unfold UPDATE_WHERE. rewrite find_map_preserving.
  - rewrite Hsel. simpl. rewrite String.eqb_refl.
    split; [reflexivity|]. simpl. repeat split; reflexivity.
  - intros x. destruct (performance_metrics.id x =? performance_metrics.id r)%string; reflexivity.
Qed.

(** The first attempt of a pair: a row is created. *)
Lemma updateTrickMetrics_fresh (mid : string) (e : MentalistExperience) (w : World) :
  SELECT_performance_metrics mid (trickPerformed e) (db w) = None ->
  metric_id_free mid (trickPerformed e) (db w) ->
  persona_admitted mid (db w) ->
  exists w' r',
    updateTrickMetrics mid e w = (Returned tt, w') /\
    SELECT_performance_metrics mid (trickPerformed e) (db w') = Some r' /\
    t_performance_metrics (db w') = t_performance_metrics (db w) ++ [r'] /\
    performance_metrics.total_attempts r' = 1 /\
    performance_metrics.success_count r' = (if isSuccess (userReaction e) then 1 else 0) /\
    performance_metrics.success_rate r' = (if isSuccess (userReaction e) then 1 else 0)%Q /\
    performance_metrics.average_user_rating r' = rating_of e.
Proof.
  intros Hsel Hfree Hfk.
  unfold updateTrickMetrics, bind, query, Date_now, run_checked, on_db. simpl.
  rewrite Hsel. simpl.
  unfold INSERT_performance_metrics. simpl.
  unfold metric_id_free in Hfree. rewrite Hfree.
  unfold SELECT_performance_metrics in *.
  rewrite (find_none_existsb_false _ _ Hsel).
  assert (Hfk' : foreign_keys (db w) && negb (has_mentalist mid (db w)) = false).
  { unfold persona_admitted in Hfk. destruct (foreign_keys (db w)); [|reflexivity].
    rewrite Hfk; reflexivity. }
  rewrite Hfk'. simpl.
  eexists; eexists; split; [reflexivity|]. simpl.
  split.
  - rewrite (find_app_none _ _ _ Hsel). unfold metric_of. simpl.
    rewrite !String.eqb_refl. reflexivity.
  - repeat split; reflexivity.
Qed.


(** ** captureExperience, statement by statement *)

(** The INSERT of the experience is refused: the call throws and the store
    is as before. *)
Lemma captureExperience_refused mid uid sid a msgs dur w err :
  let e := captured w mid uid sid a msgs dur in
  INSERT_experiences (experience_row e (timestamp e)) (db w) = inl err ->
  captureExperience mid uid sid a msgs dur w = (Thrown err, advance 2 1 w).
Proof.
  intros e H. unfold captureExperience, generateId, bind, Date_now, Math_random_base36,
    run_checked, ret. simpl.
  fold (next_experience_id w). fold (captured w mid uid sid a msgs dur). fold e.
  change (timestamp e) with (clock w (S (reads w))) in H. rewrite H. reflexivity.
Qed.

(** The INSERT is accepted: the two updates run on the store that holds the
    new row, and the call ends as [updateTrickMetrics] ends. *)
Lemma captureExperience_accepted mid uid sid a msgs dur w d1 :
  let e := captured w mid uid sid a msgs dur in
  INSERT_experiences (experience_row e (timestamp e)) (db w) = inr d1 ->
  exists w2,
    updateMentalistStats mid e (on_db (fun _ => d1) (advance 2 1 w)) = (Returned tt, w2) /\
    captureExperience mid uid sid a msgs dur w =
      (match fst (updateTrickMetrics mid e w2) with
       | Returned _ => Returned e
       | Thrown err => Thrown err
       end, snd (updateTrickMetrics mid e w2)).
Proof.
  intros e H.
  destruct (updateMentalistStats_effect mid e (on_db (fun _ => d1) (advance 2 1 w)))
    as (w2 & Hrun & _).
  exists w2. split; [exact Hrun|].
  unfold captureExperience, generateId, bind, Date_now, Math_random_base36,
    run_checked, ret. simpl.
  fold (next_experience_id w). fold (captured w mid uid sid a msgs dur). fold e.
  change (timestamp e) with (clock w (S (reads w))) in H. rewrite H.
  unfold on_db, advance in Hrun. simpl in Hrun. unfold on_db. simpl. rewrite Hrun.
  destruct (updateTrickMetrics mid e w2) as [[u|err'] w3]; reflexivity.
Qed.

Lemma INSERT_experiences_accepts (r : experiences.row) (d : D1Database) :
  existsb (fun x => (experiences.id x =? experiences.id r)%string) (t_experiences d) = false ->
  persona_admitted (experiences.mentalist_id r) d ->
  INSERT_experiences r d = inr (with_experiences (fun t => t ++ [r]) d).
Proof.
  intros Hpk Hfk. unfold INSERT_experiences. rewrite Hpk.
  unfold persona_admitted in Hfk. destruct (foreign_keys d); [|reflexivity].
  rewrite Hfk; reflexivity.
Qed.

Lemma mentalist_row_admitted mid d m :
  mentalist_row mid d = Some m -> persona_admitted mid d.
Proof. intros H _. exact (find_existsb _ _ _ H). Qed.

(** What a capture leaves behind when the experience is accepted: the
    experience row is stored and the persona counters are updated, whether
    the metric statement then succeeds or not. *)
Lemma captureExperience_effect mid uid sid a msgs dur w :
  experience_id_fresh w ->
  persona_admitted mid (db w) ->
  let e := captured w mid uid sid a msgs dur in
  exists c w' w2,
    captureExperience mid uid sid a msgs dur w = (c, w') /\
    updateMentalistStats mid e
      (on_db (with_experiences (fun t => t ++ [experience_row e (timestamp e)]))
         (advance 2 1 w)) = (Returned tt, w2) /\
    (c, w') = (match fst (updateTrickMetrics mid e w2) with
               | Returned _ => Returned e
               | Thrown err => Thrown err
               end, snd (updateTrickMetrics mid e w2)) /\
    same_but_metrics w2 w'.
Proof.
  intros Hfresh Hfk e.
  assert (Hins : INSERT_experiences (experience_row e (timestamp e)) (db w)
                 = inr (with_experiences (fun t => t ++ [experience_row e (timestamp e)]) (db w))).
  { apply INSERT_experiences_accepts; [exact Hfresh | exact Hfk]. }
  destruct (captureExperience_accepted mid uid sid a msgs dur w _ Hins) as (w2 & Hstats & Hcap).
  eexists; eexists; exists w2. split; [exact Hcap|].
  split; [exact Hstats|]. split; [reflexivity|].
  apply updateTrickMetrics_frame.
Qed.

(** C3.  A capture whose experience row is accepted raises the persona's
    [experience_level] by 10 + reactionBonus + (5 if a lesson was learned) +
    min(max(turnCount - 10, 0), 10), with reactionBonus 20 / 10 / 5 / 0 / 0
    for amazed / engaged / neutral / skeptical / confused, and its
    [total_performances] by exactly 1. *)
Theorem captureExperience_counters mid uid sid a msgs dur w m :
  mentalist_row mid (db w) = Some m ->
  experience_id_fresh w ->
  exists c w' m',
    captureExperience mid uid sid a msgs dur w = (c, w') /\
    mentalist_row mid (db w') = Some m' /\
    mentalists.experience_level m' =
      mentalists.experience_level m
      + (10 + reactionBonus (mapSentimentToReaction (ConversationAnalysis.userSentiment a))
         + (if truthy (or_default (ConversationAnalysis.lessonLearned a) "") then 5 else 0)
         + Z.min (Z.max (Z.of_nat (List.length msgs) - 10) 0) 10) /\
    mentalists.total_performances m' = mentalists.total_performances m + 1.
Proof.
  intros Hm Hfresh.
  destruct (captureExperience_effect mid uid sid a msgs dur w Hfresh
              (mentalist_row_admitted _ _ _ Hm)) as (c & w' & w2 & Hcap & Hstats & _ & Hframe).
  destruct (updateMentalistStats_effect mid (captured w mid uid sid a msgs dur)
              (on_db (with_experiences
                 (fun t => t ++ [experience_row (captured w mid uid sid a msgs dur)
                                   (timestamp (captured w mid uid sid a msgs dur))]))
                 (advance 2 1 w)))
    as (w2' & Hstats' & _ & _ & _ & _ & _ & _ & _ & _ & _ & _ & _ & Hrow).
  assert (w2' = w2) by congruence. subst w2'.
  destruct (Hrow m Hm) as (m' & Hm' & Hlevel & Htotal & _).
  exists c, w', m'. split; [exact Hcap|].
  destruct Hframe as (_ & Hment & _).
  split.
  - unfold mentalist_row in *. rewrite Hment. exact Hm'.
  - rewrite Hlevel, Htotal, calculateExpGain_formula. split; reflexivity.
Qed.

(** ** The running mean *)

Lemma successes_cons e es :
  successes (e :: es) = (if isSuccess (userReaction e) then 1 else 0) + successes es.
Proof.
  unfold successes, count. simpl.
  destruct (isSuccess (userReaction e)); simpl List.length; lia.
Qed.

(** Updates of a row that exists keep [success_rate] the double quotient
    of the two counts, keep [average_user_rating] between 1 and 5, and keep
    [average_user_rating * total_attempts] within the rounding tolerance of
    the sum of the ratings. *)
Lemma updateTrickMetrics_online (mid t : string) (es : list MentalistExperience) :
  Forall (fun x => trickPerformed x = t) es ->
  forall (w : World) (r : performance_metrics.row) (sum : Q),
    SELECT_performance_metrics mid t (db w) = Some r ->
    1 <= performance_metrics.total_attempts r ->
    performance_metrics.total_attempts r + Z.of_nat (List.length es) <= 2 ^ 49 ->
    (performance_metrics.success_rate r ==
       Binary64.div (inject_Z (performance_metrics.success_count r))
         (inject_Z (performance_metrics.total_attempts r)))%Q ->
    (1 <= performance_metrics.average_user_rating r <= 5)%Q ->
    (0 <= sum)%Q ->
    ((1 - rounding_tolerance (performance_metrics.total_attempts r)) * sum
     <= performance_metrics.average_user_rating r
        * inject_Z (performance_metrics.total_attempts r)
     <= (1 + rounding_tolerance (performance_metrics.total_attempts r)) * sum)%Q ->
    exists w' r',
      for_each (updateTrickMetrics mid) es w = (Returned tt, w') /\
      SELECT_performance_metrics mid t (db w') = Some r' /\
      performance_metrics.total_attempts r' =
        performance_metrics.total_attempts r + Z.of_nat (List.length es) /\
      performance_metrics.success_count r' =
        performance_metrics.success_count r + successes es /\
      (performance_metrics.success_rate r' ==
         Binary64.div (inject_Z (performance_metrics.success_count r'))
           (inject_Z (performance_metrics.total_attempts r')))%Q /\
      (1 <= performance_metrics.average_user_rating r' <= 5)%Q /\
      ((1 - rounding_tolerance (performance_metrics.total_attempts r'))
         * (sum + ratings_sum es)
       <= performance_metrics.average_user_rating r'
          * inject_Z (performance_metrics.total_attempts r')
       <= (1 + rounding_tolerance (performance_metrics.total_attempts r'))
          * (sum + ratings_sum es))%Q.
Proof.
  induction 1 as [|e es He Hes IH]; intros w r sum Hsel Hpos Hmax Hrate Hrange Hsum Hinv.
  - exists w, r. simpl. rewrite Z.add_0_r.
    split; [reflexivity|]. split; [exact Hsel|]. split; [reflexivity|].
    split; [unfold successes, count; simpl; lia|].
    split; [exact Hrate|]. split; [exact Hrange|].
    unfold ratings_sum. simpl. rewrite Qplus_0_r. exact Hinv.
  - subst t. simpl List.length in Hmax.
    destruct (updateTrickMetrics_existing mid e w r Hsel)
      as (w1 & r1 & Hrun & Hsel1 & Htot1 & Hcnt1 & Hrate1 & Havg1).
    destruct (running_mean_step (performance_metrics.total_attempts r)
                (performance_metrics.average_user_rating r) (rating_of e) sum
                Hpos ltac:(lia) Hrange (rating_of_range e) Hsum Hinv)
      as (Hrange1 & Hinv1).
    cbv zeta in Hrange1, Hinv1. rewrite <- Havg1 in Hrange1, Hinv1. rewrite <- Htot1 in Hinv1.
    pose proof (rating_of_range e) as Hr.
    destruct (IH w1 r1 (sum + rating_of e)%Q Hsel1)
      as (w' & r' & Hrun' & Hsel' & Htot' & Hcnt' & Hrate' & Hrange' & Hinv').
    + lia.
    + lia.
    + rewrite Hrate1. reflexivity.
    + exact Hrange1.
    + lra.
    + exact Hinv1.
    + exists w', r'. split.
      { simpl. unfold bind. rewrite Hrun. exact Hrun'. }
      split; [exact Hsel'|].
      split; [rewrite Htot', Htot1; simpl List.length; lia|].
      split; [rewrite Hcnt', Hcnt1, successes_cons; lia|].
      split; [exact Hrate'|]. split; [exact Hrange'|].
      unfold ratings_sum. simpl. fold (ratings_sum es).
      destruct Hinv' as (I1 & I2). split; lra.
Qed.

(** C1.  Starting from a store with no row for the pair, n >= 1 metric
    updates for the pair (the first creates the row, the others update it),
    n <= 2^49, leave a row with [total_attempts = n], [success_count] the
    number of successes, [success_rate] the double that [success_count /
    total_attempts] evaluates to (within [2^(-53)] of the magnitude of the
    quotient), and [average_user_rating] the arithmetic mean of the n
    ratings supplied within the floating tolerance [(n - 1) * 2^(-51)] of
    the magnitude of the mean.  The rate and the average are doubles, each
    operation of the update rounded to the nearest. *)
Theorem updateTrickMetrics_running_mean (mid t : string)
  (e : MentalistExperience) (es : list MentalistExperience) (w : World) :
  Forall (fun x => trickPerformed x = t) (e :: es) ->
  SELECT_performance_metrics mid t (db w) = None ->
  metric_id_free mid t (db w) ->
  persona_admitted mid (db w) ->
  Z.of_nat (List.length (e :: es)) <= 2 ^ 49 ->
  exists w' r,
    for_each (updateTrickMetrics mid) (e :: es) w = (Returned tt, w') /\
    SELECT_performance_metrics mid t (db w') = Some r /\
    performance_metrics.total_attempts r = Z.of_nat (List.length (e :: es)) /\
    performance_metrics.success_count r = successes (e :: es) /\
    (performance_metrics.success_rate r ==
       Binary64.div (inject_Z (performance_metrics.success_count r))
         (inject_Z (performance_metrics.total_attempts r)))%Q /\
    (Qabs (performance_metrics.success_rate r
           - inject_Z (performance_metrics.success_count r)
             / inject_Z (performance_metrics.total_attempts r))
     <= Binary64.unit_roundoff
        * (inject_Z (performance_metrics.success_count r)
           / inject_Z (performance_metrics.total_attempts r)))%Q /\
    (Qabs (performance_metrics.average_user_rating r
           - ratings_sum (e :: es) / inject_Z (Z.of_nat (List.length (e :: es))))
     <= rounding_tolerance (Z.of_nat (List.length (e :: es)))
        * (ratings_sum (e :: es) / inject_Z (Z.of_nat (List.length (e :: es)))))%Q.
Proof.
  intros Hall Hnone Hfree Hfk Hmax.
  inversion Hall as [|? ? He Hes]; subst.
  destruct (updateTrickMetrics_fresh mid e w Hnone Hfree Hfk)
    as (w1 & r1 & Hrun & Hsel1 & _ & Htot1 & Hcnt1 & Hrate1 & Havg1).
  pose proof (rating_of_range e) as Hr.
  simpl List.length in Hmax.
  destruct (updateTrickMetrics_online mid (trickPerformed e) es Hes w1 r1 (rating_of e) Hsel1)
    as (w' & r' & Hrun' & Hsel' & Htot' & Hcnt' & Hrate' & Hrange' & Hinv').
  - lia.
  - lia.
  - rewrite Hrate1, Hcnt1, Htot1.
    destruct (isSuccess (userReaction e)); apply Qeq_bool_iff; vm_compute; reflexivity.
  - rewrite Havg1. exact Hr.
  - lra.
  - rewrite Havg1, Htot1.
    change (rounding_tolerance 1) with (0 * (1 # 2251799813685248))%Q.
    change (inject_Z 1) with 1%Q. split; lra.
  - assert (Hn : performance_metrics.total_attempts r' = Z.of_nat (List.length (e :: es))).
    { rewrite Htot', Htot1. simpl List.length. lia. }
    assert (Hc : performance_metrics.success_count r' = successes (e :: es)).
    { rewrite Hcnt', Hcnt1, successes_cons. reflexivity. }
    assert (Hc0 : 0 <= successes (e :: es)).
    { unfold successes, count. lia. }
    assert (Hn1 : 1 <= performance_metrics.total_attempts r' <= 2 ^ 49).
    { rewrite Hn. simpl List.length. lia. }
    exists w', r'. split.
    { simpl. unfold bind. rewrite Hrun. exact Hrun'. }
    split; [exact Hsel'|]. split; [exact Hn|]. split; [exact Hc|].
    split; [exact Hrate'|].
    split.
    + rewrite Hrate'.
      pose proof (div_counts_error (performance_metrics.success_count r')
                    (performance_metrics.total_attempts r') ltac:(lia) Hn1) as (E1 & E2).
      apply Qabs_Qle_condition. split; lra.
    + rewrite <- Hn.
      assert (Hsum : (rating_of e + ratings_sum es == ratings_sum (e :: es))%Q) by reflexivity.
      rewrite Hsum in Hinv'.
      assert (Hpos : (0 < inject_Z (performance_metrics.total_attempts r'))%Q)
        by (apply inject_Z_pos; lia).
      set (N := inject_Z (performance_metrics.total_attempts r')) in *.
      set (T := rounding_tolerance (performance_metrics.total_attempts r')) in *.
      set (avg := performance_metrics.average_user_rating r') in *.
      assert (Hmean : (ratings_sum (e :: es) == ratings_sum (e :: es) / N * N)%Q)
        by (field; lra).
      set (mean := (ratings_sum (e :: es) / N)%Q) in *.
      destruct Hinv' as (I1 & I2).
      rewrite Hmean in I1, I2. rewrite Qmult_assoc in I1, I2.
      apply Qmult_lt_0_le_reg_r in I1; [|exact Hpos].
      apply Qmult_lt_0_le_reg_r in I2; [|exact Hpos].
      apply Qabs_Qle_condition. split; lra.
Qed.

(** ** No transaction around a capture *)


Lemma INSERT_experiences_inr (r : experiences.row) (d d1 : D1Database) :
  INSERT_experiences r d = inr d1 ->
  d1 = with_experiences (fun t => t ++ [r]) d /\ persona_admitted (experiences.mentalist_id r) d.
Proof.
  unfold INSERT_experiences, persona_admitted. intros H.
  destruct (existsb _ (t_experiences d)); [discriminate|].
  destruct (foreign_keys d) eqn:Hfk; simpl in H.
  - destruct (has_mentalist (experiences.mentalist_id r) d) eqn:Hm; simpl in H; [|discriminate].
    injection H as <-. split; [reflexivity | trivial].
  - injection H as <-. split; [reflexivity | discriminate].
Qed.


(** ** Successful tricks of a persona *)

(** C9, counterexample.  Two amazed sessions of persona ["P"] with the trick
    ["card_force"] leave the stored array [["card_force", "card_force"]]: the
    same technique is held twice. *)
Lemma successful_tricks_duplicates :
  option_map known_tricks (mentalist_row "P" (db Sample2.after_two))
    = Some ["card_force"; "card_force"]%string /\
  ~ (forall m, mentalist_row "P" (db Sample2.after_two) = Some m -> NoDup (known_tricks m)).
Proof.
  assert (H : option_map known_tricks (mentalist_row "P" (db Sample2.after_two))
              = Some ["card_force"; "card_force"]%string) by (vm_compute; reflexivity).
  split; [exact H|].
  intros Hnd.
  destruct (mentalist_row "P" (db Sample2.after_two)) as [m|] eqn:Hm; [|discriminate].
  specialize (Hnd m eq_refl). simpl in H. injection H as H. rewrite H in Hnd.
  inversion Hnd as [|? ? Hin _]. apply Hin. left. reflexivity.
Qed.

(** C9, as the code has it.  The successful tricks of a persona are a JSON
    array that only grows, by appending.  After a capture whose experience
    row is accepted: when the reaction is amazed or engaged the stored array
    is the previous one followed by the trick performed, so it holds the
    trick and every trick it held before, in their order and as many times
    as before (the trick itself once more); for any other reaction the
    stored value is unchanged. *)
Theorem captureExperience_successful_tricks mid uid sid a msgs dur w m :
  mentalist_row mid (db w) = Some m ->
  experience_id_fresh w ->
  let e := captured w mid uid sid a msgs dur in
  exists c w' m',
    captureExperience mid uid sid a msgs dur w = (c, w') /\
    mentalist_row mid (db w') = Some m' /\
    (userReaction e = amazed \/ userReaction e = engaged ->
       known_tricks m' = known_tricks m ++ [trickPerformed e] /\
       In (trickPerformed e) (known_tricks m') /\
       (forall t, In t (known_tricks m) -> In t (known_tricks m'))) /\
    (userReaction e <> amazed /\ userReaction e <> engaged ->
       mentalists.successful_tricks m' = mentalists.successful_tricks m).
Proof.
  intros Hm Hfresh e.
  destruct (captureExperience_effect mid uid sid a msgs dur w Hfresh
              (mentalist_row_admitted _ _ _ Hm)) as (c & w' & w2 & Hcap & Hstats & _ & Hframe).
  fold e in Hstats.
  destruct (updateMentalistStats_effect mid e
              (on_db (with_experiences (fun t => t ++ [experience_row e (timestamp e)]))
                 (advance 2 1 w)))
    as (w2' & Hstats' & _ & _ & _ & _ & _ & _ & _ & _ & _ & _ & _ & Hrow).
  assert (w2' = w2) by congruence. subst w2'.
  destruct (Hrow m Hm) as (m' & Hm' & _ & _ & _ & _ & Hyes & Hno).
  exists c, w', m'. split; [exact Hcap|].
  destruct Hframe as (_ & Hment & _).
  split; [unfold mentalist_row in *; rewrite Hment; exact Hm'|].
  split.
  - intros Hr.
    assert (Hs : isSuccess (userReaction e) = true) by (destruct Hr as [-> | ->]; reflexivity).
    specialize (Hyes Hs).
    assert (Hk : known_tricks m' = known_tricks m ++ [trickPerformed e]).
    { unfold known_tricks at 1. rewrite Hyes. reflexivity. }
    split; [exact Hk|]. rewrite Hk. split.
    + apply in_or_app. right. left. reflexivity.
    + intros t Ht. apply in_or_app. left. exact Ht.
  - intros (Hna & Hne). apply Hno.
    destruct (userReaction e); try reflexivity; congruence.
Qed.

(** ** The learning flag is not read *)

Section LearningFlag.

Lemma blind_ret {A} (a : A) : blind (ret a).
Proof. intros w1 w2 H. split; [reflexivity | exact H]. Qed.

Lemma blind_bind {A B} (m : Promise A) (k : A -> Promise B) :
  blind m -> (forall a, blind (k a)) -> blind (bind m k).
Proof.
  intros Hm Hk w1 w2 H. unfold bind.
  destruct (Hm w1 w2 H) as (Hfst & Hsnd).
  destruct (m w1) as [[a1|e1] w1'], (m w2) as [[a2|e2] w2']; cbn [fst snd] in *;
    try discriminate.
  - injection Hfst as ->. apply Hk. exact Hsnd.
  - injection Hfst as ->. split; [reflexivity | exact Hsnd].
Qed.

Lemma blind_Date_now : blind Date_now.
Proof.
  intros w1 w2 (Hdb & Hc & Hr & He & Hd). unfold Date_now, same_but_learning_flags. simpl.
  rewrite Hc, Hr. repeat split; congruence.
Qed.

Lemma blind_Math_random_base36 : blind Math_random_base36.
Proof.
  intros w1 w2 (Hdb & Hc & Hr & He & Hd).
  unfold Math_random_base36, same_but_learning_flags. simpl.
  rewrite He, Hd. repeat split; congruence.
Qed.

Lemma blind_query {A} (f : D1Database -> A) :
  (forall d, f (without_learning_flags d) = f d) -> blind (query f).
Proof.
  intros Hf w1 w2 (Hdb & Hrest). unfold query. simpl. split.
  - rewrite <- (Hf (db w1)), <- (Hf (db w2)), Hdb. reflexivity.
  - split; assumption.
Qed.

Lemma blind_run (f : D1Database -> D1Database) :
  (forall d, without_learning_flags (f (without_learning_flags d))
             = without_learning_flags (f d)) ->
  blind (run f).
Proof.
  intros Hf w1 w2 (Hdb & Hrest). unfold run, on_db, same_but_learning_flags. simpl.
  split; [reflexivity|]. split; [|exact Hrest].
  rewrite <- (Hf (db w1)), <- (Hf (db w2)), Hdb. reflexivity.
Qed.

Lemma blind_run_checked (f : D1Database -> D1Error + D1Database) :
  (forall d, match f d with
             | inl e => f (without_learning_flags d) = inl e
             | inr d' => exists d'', f (without_learning_flags d) = inr d'' /\
                                     without_learning_flags d'' = without_learning_flags d'
             end) ->
  blind (run_checked f).
Proof.
  intros Hf w1 w2 (Hdb & Hrest). unfold run_checked, on_db, same_but_learning_flags.
  pose proof (Hf (db w1)) as H1. pose proof (Hf (db w2)) as H2. rewrite Hdb in H1.
  destruct (f (db w1)) as [e1|d1], (f (db w2)) as [e2|d2]; simpl.
  - split; [congruence|]. split; assumption.
  - destruct H2 as (d'' & H2 & _). congruence.
  - destruct H1 as (d'' & H1 & _). congruence.
  - destruct H1 as (d1' & H1 & E1), H2 as (d2' & H2 & E2).
    split; [reflexivity|]. split; [|exact Hrest]. congruence.
Qed.

(** The statements of a capture against the blanked store. *)

Lemma SET_learning_enabled_id b m :
  mentalists.id (SET_learning_enabled b m) = mentalists.id m.
Proof. reflexivity. Qed.

Lemma has_mentalist_blanked mid d :
  has_mentalist mid (without_learning_flags d) = has_mentalist mid d.
Proof.
  unfold has_mentalist, without_learning_flags. simpl.
  induction (t_mentalists d) as [|x l IH]; simpl; [reflexivity|]. now rewrite IH.
Qed.

Lemma UPDATE_mentalists_blanked (set_ : mentalists.row -> mentalists.row) mid d :
  (forall m, mentalists.id (set_ m) = mentalists.id m) ->
  (forall m, SET_learning_enabled true (set_ (SET_learning_enabled true m))
             = SET_learning_enabled true (set_ m)) ->
  without_learning_flags
    (with_mentalists (UPDATE_WHERE (fun m => (mentalists.id m =? mid)%string) set_)
       (without_learning_flags d))
  = without_learning_flags
      (with_mentalists (UPDATE_WHERE (fun m => (mentalists.id m =? mid)%string) set_) d).
Proof.
  intros Hid Hset. unfold without_learning_flags, with_mentalists, UPDATE_WHERE. simpl.
  f_equal. rewrite !map_map. apply map_ext. intros m. simpl.
  destruct (mentalists.id m =? mid)%string; [apply Hset | reflexivity].
Qed.

Lemma blank_twice (l : list mentalists.row) :
  map (SET_learning_enabled true) (map (SET_learning_enabled true) l)
  = map (SET_learning_enabled true) l.
Proof. rewrite map_map. apply map_ext. reflexivity. Qed.

(** A statement on another table commutes with blanking. *)
Ltac other_table :=
  unfold without_learning_flags, with_mentalists, with_experiences,
    with_performance_metrics; simpl; rewrite blank_twice; reflexivity.

Lemma blind_updateMentalistStats mid e : blind (updateMentalistStats mid e).
Proof.
  unfold updateMentalistStats.
  apply blind_bind; [apply blind_Date_now|]. intros now.
  apply blind_bind.
  { apply blind_run. intros d. unfold UPDATE_mentalists_stats.
    apply UPDATE_mentalists_blanked; reflexivity. }
  intros _. destruct (isSuccess (userReaction e)); [|apply blind_ret].
  apply blind_bind.
  { apply blind_query. intros d. unfold SELECT_successful_tricks, without_learning_flags. simpl.
    rewrite find_map_preserving by reflexivity.
    destruct (find _ (t_mentalists d)); reflexivity. }
  intros [stored|]; [|apply blind_ret].
  apply blind_run. intros d. unfold UPDATE_mentalists_tricks.
  apply UPDATE_mentalists_blanked; reflexivity.
Qed.

Lemma blind_updateTrickMetrics mid e : blind (updateTrickMetrics mid e).
Proof.
  unfold updateTrickMetrics.
  apply blind_bind; [apply blind_query; reflexivity|].
  intros [existing|].
  - apply blind_bind; [apply blind_Date_now|]. intros now.
    apply blind_run. intros d. unfold UPDATE_performance_metrics. other_table.
  - apply blind_bind; [apply blind_Date_now|]. intros now.
    apply blind_run_checked. intros d.
    unfold INSERT_performance_metrics.
    change (t_performance_metrics (without_learning_flags d)) with (t_performance_metrics d).
    change (foreign_keys (without_learning_flags d)) with (foreign_keys d).
    rewrite has_mentalist_blanked.
    repeat match goal with
           | |- context [if ?b then _ else _] => destruct b; simpl; try reflexivity
           end;
    (eexists; split; [reflexivity | other_table]).
Qed.

Lemma blind_captureExperience mid uid sid a msgs dur :
  blind (captureExperience mid uid sid a msgs dur).
Proof.
  unfold captureExperience, generateId.
  apply blind_bind.
  { apply blind_bind; [apply blind_Date_now|]. intros now.
    apply blind_bind; [apply blind_Math_random_base36|]. intros rnd. apply blind_ret. }
  intros experienceId.
  apply blind_bind; [apply blind_Date_now|]. intros ts.
  apply blind_bind.
  { apply blind_run_checked. intros d. unfold INSERT_experiences.
    change (t_experiences (without_learning_flags d)) with (t_experiences d).
    change (foreign_keys (without_learning_flags d)) with (foreign_keys d).
    rewrite has_mentalist_blanked.
    repeat match goal with
           | |- context [if ?b then _ else _] => destruct b; simpl; try reflexivity
           end;
    (eexists; split; [reflexivity | other_table]). }
  intros _.
  apply blind_bind; [apply blind_updateMentalistStats|]. intros _.
  apply blind_bind; [apply blind_updateTrickMetrics|]. intros _.
  apply blind_ret.
Qed.

End LearningFlag.

Section FlagsKept.

Lemma keeps_ret {A} (a : A) : keeps_flags (ret a).
Proof. intros w. reflexivity. Qed.

Lemma keeps_bind {A B} (m : Promise A) (k : A -> Promise B) :
  keeps_flags m -> (forall a, keeps_flags (k a)) -> keeps_flags (bind m k).
Proof.
  intros Hm Hk w. unfold bind. specialize (Hm w).
  destruct (m w) as [[a|e] w']; cbn [snd] in *; [|exact Hm].
  now rewrite Hk.
Qed.

Lemma keeps_Date_now : keeps_flags Date_now.
Proof. intros w. reflexivity. Qed.

Lemma keeps_Math_random_base36 : keeps_flags Math_random_base36.
Proof. intros w. reflexivity. Qed.

Lemma keeps_query {A} (f : D1Database -> A) : keeps_flags (query f).
Proof. intros w. reflexivity. Qed.

Lemma keeps_run (f : D1Database -> D1Database) :
  (forall d, map mentalists.learning_enabled (t_mentalists (f d))
             = map mentalists.learning_enabled (t_mentalists d)) ->
  keeps_flags (run f).
Proof. intros Hf w. unfold run, on_db, learning_flags. simpl. apply Hf. Qed.

Lemma keeps_run_checked (f : D1Database -> D1Error + D1Database) :
  (forall d d', f d = inr d' ->
     map mentalists.learning_enabled (t_mentalists d')
     = map mentalists.learning_enabled (t_mentalists d)) ->
  keeps_flags (run_checked f).
Proof.
  intros Hf w. unfold run_checked, on_db, learning_flags.
  destruct (f (db w)) as [e|d'] eqn:E; simpl; [reflexivity|]. now apply Hf.
Qed.

Lemma keeps_updateMentalistStats mid e : keeps_flags (updateMentalistStats mid e).
Proof.
  unfold updateMentalistStats.
  apply keeps_bind; [apply keeps_Date_now|]. intros now.
  apply keeps_bind.
  { apply keeps_run. intros d. unfold UPDATE_mentalists_stats, with_mentalists. simpl.
    apply ids_UPDATE_WHERE. reflexivity. }
  intros _. destruct (isSuccess (userReaction e)); [|apply keeps_ret].
  apply keeps_bind; [apply keeps_query|].
  intros [stored|]; [|apply keeps_ret].
  apply keeps_run. intros d. unfold UPDATE_mentalists_tricks, with_mentalists. simpl.
  apply ids_UPDATE_WHERE. reflexivity.
Qed.

Lemma keeps_updateTrickMetrics mid e : keeps_flags (updateTrickMetrics mid e).
Proof.
  intros w. unfold learning_flags.
  pose proof (updateTrickMetrics_frame mid e w) as (_ & H & _). now rewrite H.
Qed.

Lemma keeps_captureExperience mid uid sid a msgs dur :
  keeps_flags (captureExperience mid uid sid a msgs dur).
Proof.
  unfold captureExperience, generateId.
  apply keeps_bind.
  { apply keeps_bind; [apply keeps_Date_now|]. intros now.
    apply keeps_bind; [apply keeps_Math_random_base36|]. intros rnd. apply keeps_ret. }
  intros experienceId.
  apply keeps_bind; [apply keeps_Date_now|]. intros ts.
  apply keeps_bind.
  { apply keeps_run_checked. intros d d' H.
    apply INSERT_experiences_inr in H. destruct H as (-> & _). reflexivity. }
  intros _.
  apply keeps_bind; [apply keeps_updateMentalistStats|]. intros _.
  apply keeps_bind; [apply keeps_updateTrickMetrics|]. intros _.
  apply keeps_ret.
Qed.

End FlagsKept.

Lemma same_but_learning_flags_writes (w1 w2 : World) :
  same_but_learning_flags w1 w2 ->
  t_experiences (db w1) = t_experiences (db w2) /\
  t_performance_metrics (db w1) = t_performance_metrics (db w2) /\
  learning_state w1 = learning_state w2.
Proof.
  intros (E & _).
  split; [exact (f_equal t_experiences E)|].
  split; [exact (f_equal t_performance_metrics E)|].
  apply (f_equal t_mentalists) in E. unfold without_learning_flags in E. simpl in E.
  unfold learning_state.
  apply (f_equal (map (fun m => (mentalists.id m, mentalists.experience_level m,
                                 mentalists.total_performances m,
                                 mentalists.successful_tricks m,
                                 mentalists.last_performance m)))) in E.
  rewrite !map_map in E. exact E.
Qed.

(** C10.  [captureExperience] never reads [learning_enabled].  Run in two
    worlds that differ at most in [learning_enabled] values, it ends the same
    way (same experience returned or same error thrown) and leaves two worlds
    that again differ at most in those values, each with its flags as they
    were: the same experience rows, the same metric rows, the same counters
    and successful tricks.  In particular a persona whose learning is
    disabled has its experience stored and its counters raised like any
    other. *)
Theorem captureExperience_ignores_learning_enabled mid uid sid a msgs dur w1 w2 :
  same_but_learning_flags w1 w2 ->
  let r1 := captureExperience mid uid sid a msgs dur w1 in
  let r2 := captureExperience mid uid sid a msgs dur w2 in
  fst r1 = fst r2 /\
  same_but_learning_flags (snd r1) (snd r2) /\
  t_experiences (db (snd r1)) = t_experiences (db (snd r2)) /\
  t_performance_metrics (db (snd r1)) = t_performance_metrics (db (snd r2)) /\
  learning_state (snd r1) = learning_state (snd r2) /\
  learning_flags (snd r1) = learning_flags w1 /\
  learning_flags (snd r2) = learning_flags w2 /\
  (forall m,
     mentalist_row mid (db w1) = Some m ->
     mentalists.learning_enabled m = false ->
     experience_id_fresh w1 ->
     let e := captured w1 mid uid sid a msgs dur in
     exists m',
       t_experiences (db (snd r1)) = t_experiences (db w1) ++ [experience_row e (timestamp e)] /\
       mentalist_row mid (db (snd r1)) = Some m' /\
       mentalists.learning_enabled m' = false /\
       mentalists.total_performances m' = mentalists.total_performances m + 1 /\
       mentalists.experience_level m' = mentalists.experience_level m + calculateExpGain e).
Proof.
  intros Hsim r1 r2.
  destruct (blind_captureExperience mid uid sid a msgs dur w1 w2 Hsim) as (Hfst & Hsnd).
  destruct (same_but_learning_flags_writes _ _ Hsnd) as (Hexp & Hpm & Hls).
  split; [exact Hfst|]. split; [exact Hsnd|].
  split; [exact Hexp|]. split; [exact Hpm|]. split; [exact Hls|].
  split; [apply keeps_captureExperience|]. split; [apply keeps_captureExperience|].
  intros m Hm Hoff Hfresh e.
  destruct (captureExperience_effect mid uid sid a msgs dur w1 Hfresh
              (mentalist_row_admitted _ _ _ Hm)) as (c & w' & w2' & Hcap & Hstats & _ & Hframe).
  fold e in Hstats.
  destruct (updateMentalistStats_effect mid e
              (on_db (with_experiences (fun t => t ++ [experience_row e (timestamp e)]))
                 (advance 2 1 w1)))
    as (w2'' & Hstats' & _ & Fexp & _ & _ & _ & _ & _ & _ & _ & _ & _ & Hrow).
  assert (w2'' = w2') by congruence. subst w2''.
  destruct (Hrow m Hm) as (m' & Hm' & Hlevel & Htotal & Hflag & _).
  destruct Hframe as (_ & Gment & Gexp & _).
  exists m'. unfold r1. rewrite Hcap. cbn [snd].
  split; [rewrite Gexp, Fexp; reflexivity|].
  split; [unfold mentalist_row in *; rewrite Gment; exact Hm'|].
  split; [congruence|]. split; assumption.
Qed.

(** ** Sessions *)

Lemma latest_session_in (rows : list chat_sessions.row) (best : chat_sessions.row) :
  In (latest_session best rows) (best :: rows).
Proof.
  revert best. induction rows as [|r rows IH]; intros best; simpl; [left; reflexivity|].
  destruct (IH (if chat_sessions.start_time best <? chat_sessions.start_time r then r else best))
    as [H | H].
  - destruct (chat_sessions.start_time best <? chat_sessions.start_time r);
      [right; left | left]; exact H.
  - right. right. exact H.
Qed.

(** The session [getOrCreateSession] resumes is a stored, active session of
    the pair. *)
Lemma SELECT_active_session_some u m d sid :
  SELECT_active_session u m d = Some sid ->
  exists s, In s (t_chat_sessions d) /\ chat_sessions.id s = sid /\ active_for u m s = true.
Proof.
  unfold SELECT_active_session.
  destruct (filter (active_for u m) (t_chat_sessions d)) as [|r rows] eqn:Hf; [discriminate|].
  intros H. injection H as H.
  assert (Hin : In (latest_session r rows) (filter (active_for u m) (t_chat_sessions d)))
    by (rewrite Hf; apply latest_session_in).
  apply filter_In in Hin. destruct Hin as (Hin & Hact).
  exists (latest_session r rows). repeat split; assumption.
Qed.

Lemma has_session_in sid d :
  has_session sid d = true <-> exists s, In s (t_chat_sessions d) /\ chat_sessions.id s = sid.
Proof.
  unfold has_session. rewrite existsb_exists. split; intros (s & Hin & H); exists s; split;
    try assumption; now apply String.eqb_eq.
Qed.

Lemma getOrCreateSession_resumes u m w sid :
  SELECT_active_session u m (db w) = Some sid ->
  getOrCreateSession u m w = (Returned sid, w).
Proof.
  intros H. unfold getOrCreateSession, bind, query. simpl. rewrite H. reflexivity.
Qed.

Lemma getOrCreateSession_creates u m w :
  SELECT_active_session u m (db w) = None ->
  can_open_session m w ->
  exists w',
    getOrCreateSession u m w = (Returned (next_session_id w), w') /\
    SELECT_active_session u m (db w') = Some (next_session_id w) /\
    has_session (next_session_id w) (db w') = true.
Proof.
  intros Hnone (Hfree & Hfk).
  unfold getOrCreateSession, bind, query, Date_now, Math_random_base36, run_checked, ret, on_db.
  simpl. rewrite Hnone. simpl. fold (next_session_id w).
  unfold INSERT_chat_sessions. rewrite Hfree.
  assert (Hfk' : foreign_keys (db w) && negb (has_mentalist m (db w)) = false).
  { unfold persona_admitted in Hfk. destruct (foreign_keys (db w)); [|reflexivity].
    rewrite Hfk; reflexivity. }
  rewrite Hfk'. eexists. split; [reflexivity|]. simpl.
  unfold SELECT_active_session in *. simpl. rewrite filter_app.
  destruct (filter (active_for u m) (t_chat_sessions (db w))); [|discriminate].
  split.
  - simpl. unfold active_for. simpl. rewrite !String.eqb_refl. reflexivity.
  - unfold has_session. simpl. rewrite existsb_app. simpl.
    rewrite String.eqb_refl. apply orb_true_iff. right. reflexivity.
Qed.

(** However [getOrCreateSession] returns, the id it returns is that of a
    stored session which the next call resumes. *)
Lemma getOrCreateSession_returned u m w sid w' :
  getOrCreateSession u m w = (Returned sid, w') ->
  SELECT_active_session u m (db w') = Some sid /\ has_session sid (db w') = true /\
  (SELECT_active_session u m (db w) = None -> has_session sid (db w) = false).
Proof.
  intros H.
  destruct (SELECT_active_session u m (db w)) as [s|] eqn:Hsel.
  - rewrite (getOrCreateSession_resumes u m w s Hsel) in H. injection H as -> ->.
    split; [exact Hsel|]. split; [|discriminate].
    destruct (SELECT_active_session_some _ _ _ _ Hsel) as (r & Hin & Hid & _).
    apply has_session_in. exists r. split; assumption.
  - unfold getOrCreateSession, bind, query, Date_now, Math_random_base36, run_checked, ret, on_db
      in H. simpl in H. rewrite Hsel in H. simpl in H. fold (next_session_id w) in H.
    unfold INSERT_chat_sessions in H.
    destruct (has_session (next_session_id w) (db w)) eqn:Hfree; [discriminate|].
    destruct (foreign_keys (db w) && negb (has_mentalist m (db w))) eqn:Hfk; [discriminate|].
    assert (Hopen : can_open_session m w).
    { split; [exact Hfree|]. intros Hon. rewrite Hon in Hfk. simpl in Hfk.
      now apply negb_false_iff in Hfk. }
    destruct (getOrCreateSession_creates u m w Hsel Hopen) as (w'' & _ & _ & _).
    simpl in H. injection H as <- <-.
    split.
    + unfold SELECT_active_session in *. simpl. rewrite filter_app.
      destruct (filter (active_for u m) (t_chat_sessions (db w))); [|discriminate].
      simpl. unfold active_for. simpl. rewrite !String.eqb_refl. reflexivity.
    + split; [|intros _; exact Hfree].
      unfold has_session. simpl. rewrite existsb_app. simpl.
      rewrite String.eqb_refl. apply orb_true_iff. right. reflexivity.
Qed.

(** The rows of a table after an UPDATE. *)
Lemma in_UPDATE_WHERE {A} (where_ : A -> bool) (set_ : A -> A) (t : list A) (x : A) :
  In x (UPDATE_WHERE where_ set_ t) ->
  (exists y, In y t /\ where_ y = true /\ x = set_ y) \/ (In x t /\ where_ x = false).
Proof.
  unfold UPDATE_WHERE. rewrite in_map_iff. intros (y & Hx & Hin).
  destruct (where_ y) eqn:Hw.
  - left. exists y. auto.
  - right. subst x. auto.
Qed.

Lemma endSession_run sid w :
  endSession sid w =
    (Returned tt,
     on_db (UPDATE_end_session (clock w (reads w) / 1000) sid) (advance 1 0 w)).
Proof. reflexivity. Qed.

(** After [endSession] no stored session with that id is active, and the id
    is stored if it was. *)
Lemma endSession_deactivates sid w :
  let w' := snd (endSession sid w) in
  (forall s, In s (t_chat_sessions (db w')) -> chat_sessions.id s = sid ->
             chat_sessions.is_active s = false) /\
  has_session sid (db w') = has_session sid (db w).
Proof.
  rewrite endSession_run. cbn [snd]. split.
  - intros s Hin Hid. simpl in Hin. apply in_UPDATE_WHERE in Hin.
    destruct Hin as [(y & _ & _ & ->) | (_ & Hw)]; [reflexivity|].
    apply String.eqb_neq in Hw. contradiction.
  - unfold has_session. simpl. unfold UPDATE_WHERE.
    induction (t_chat_sessions (db w)) as [|s l IH]; simpl; [reflexivity|].
    rewrite IH. f_equal.
    destruct (chat_sessions.id s =? sid)%string eqn:E; simpl; exact E.
Qed.

(** C5.  When the pair has an active session, or a new one can be stored,
    [getOrCreateSession] returns a session id, and called again at once it
    returns the same id and changes nothing.  Once [endSession] has been
    called on that session, a further [getOrCreateSession] for the pair
    cannot return that id: whenever it returns, with a session that is still
    active or with a new one, the id is a different one, and it does return
    as soon as a session is active or a new one can be stored. *)
Theorem getOrCreateSession_same_then_different u m w :
  (SELECT_active_session u m (db w) = None -> can_open_session m w) ->
  exists sid w1 w2,
    getOrCreateSession u m w = (Returned sid, w1) /\
    getOrCreateSession u m w1 = (Returned sid, w1) /\
    endSession sid w1 = (Returned tt, w2) /\
    (forall sid' w3, getOrCreateSession u m w2 = (Returned sid', w3) -> sid' <> sid) /\
    ((SELECT_active_session u m (db w2) = None -> can_open_session m w2) ->
     exists sid' w3, getOrCreateSession u m w2 = (Returned sid', w3) /\ sid' <> sid).
Proof.
  intros Hopen.
  assert (Hfirst : exists sid w1, getOrCreateSession u m w = (Returned sid, w1)).
  { destruct (SELECT_active_session u m (db w)) as [s|] eqn:Hsel.
    - exists s, w. now apply getOrCreateSession_resumes.
    - destruct (getOrCreateSession_creates u m w Hsel (Hopen eq_refl)) as (w' & H & _).
      eauto. }
  destruct Hfirst as (sid & w1 & Hfirst).
  destruct (getOrCreateSession_returned u m w sid w1 Hfirst) as (Hsel1 & Hstored & _).
  exists sid, w1, (snd (endSession sid w1)).
  split; [exact Hfirst|].
  split; [now apply getOrCreateSession_resumes|].
  split; [rewrite endSession_run; reflexivity|].
  destruct (endSession_deactivates sid w1) as (Hoff & Hkept).
  set (w2 := snd (endSession sid w1)) in *.
  assert (Hdiff : forall sid' w3,
            getOrCreateSession u m w2 = (Returned sid', w3) -> sid' <> sid).
  { intros sid' w3 Hthird ->.
    destruct (getOrCreateSession_returned u m w2 sid w3 Hthird) as (Hsel3 & _ & Hnew).
    destruct (SELECT_active_session u m (db w2)) as [s|] eqn:Hsel2.
    - rewrite (getOrCreateSession_resumes u m w2 s Hsel2) in Hthird.
      injection Hthird as -> <-.
      destruct (SELECT_active_session_some _ _ _ _ Hsel2) as (r & Hin & Hid & Hact).
      specialize (Hoff r Hin Hid). unfold active_for in Hact. rewrite Hoff in Hact.
      rewrite andb_false_r in Hact. discriminate.
    - specialize (Hnew eq_refl). congruence. }
  split; [exact Hdiff|].
  intros Hopen2.
  destruct (SELECT_active_session u m (db w2)) as [s|] eqn:Hsel2.
  - exists s, w2. pose proof (getOrCreateSession_resumes u m w2 s Hsel2) as H.
    split; [exact H | exact (Hdiff _ _ H)].
  - destruct (getOrCreateSession_creates u m w2 Hsel2 (Hopen2 eq_refl)) as (w3 & H & _).
    exists (next_session_id w2), w3. split; [exact H | exact (Hdiff _ _ H)].
Qed.

Lemma UPDATE_WHERE_twice {A} (where_ : A -> bool) (set_ : A -> A) (t : list A) :
  (forall r, where_ r = true -> where_ (set_ r) = true /\ set_ (set_ r) = set_ r) ->
  UPDATE_WHERE where_ set_ (UPDATE_WHERE where_ set_ t) = UPDATE_WHERE where_ set_ t.
Proof.
  intros H. unfold UPDATE_WHERE. rewrite map_map. apply map_ext. intros r.
  destruct (where_ r) eqn:E.
  - destruct (H r E) as (-> & ->). reflexivity.
  - rewrite E. reflexivity.
Qed.

(** C6, counterexample.  A session of persona ["P"] is opened and ended; the
    stored [end_time] is 1700000002.  [endSession] is called again a second
    later: the stored [end_time] is now 1700000003. *)
Lemma endSession_twice_moves_end_time :
  fst Sample3.opened = Returned Sample3.sid /\
  option_map chat_sessions.end_time (session_row Sample3.sid (db Sample3.ended_once))
    = Some (Some 1700000002) /\
  option_map chat_sessions.end_time (session_row Sample3.sid (db Sample3.ended_twice))
    = Some (Some 1700000003) /\
  session_row Sample3.sid (db Sample3.ended_twice)
    <> session_row Sample3.sid (db Sample3.ended_once).
Proof.
  assert (H1 : option_map chat_sessions.end_time
                 (session_row Sample3.sid (db Sample3.ended_once)) = Some (Some 1700000002))
    by (vm_compute; reflexivity).
  assert (H2 : option_map chat_sessions.end_time
                 (session_row Sample3.sid (db Sample3.ended_twice)) = Some (Some 1700000003))
    by (vm_compute; reflexivity).
  split; [vm_compute; reflexivity|]. split; [exact H1|]. split; [exact H2|].
  intros E. rewrite E in H2. rewrite H1 in H2. discriminate.
Qed.

(** C6, as the code has it.  [endSession] on a stored session never throws.
    Called on a session that was already ended it keeps the session inactive
    and overwrites [end_time] with the time of this later call; the other
    columns of the row keep their values.  The store is left unchanged when
    the two calls read the same second on the clock. *)
Theorem endSession_again sid w0 s :
  session_row sid (db w0) = Some s ->
  exists w1 w2 s1 s2,
    endSession sid w0 = (Returned tt, w1) /\
    endSession sid w1 = (Returned tt, w2) /\
    session_row sid (db w1) = Some s1 /\
    session_row sid (db w2) = Some s2 /\
    chat_sessions.is_active s1 = false /\
    chat_sessions.is_active s2 = false /\
    chat_sessions.end_time s1 = Some (clock w0 (reads w0) / 1000) /\
    chat_sessions.end_time s2 = Some (clock w0 (S (reads w0)) / 1000) /\
    chat_sessions.user_id s2 = chat_sessions.user_id s1 /\
    chat_sessions.mentalist_id s2 = chat_sessions.mentalist_id s1 /\
    chat_sessions.start_time s2 = chat_sessions.start_time s1 /\
    chat_sessions.message_count s2 = chat_sessions.message_count s1 /\
    (clock w0 (S (reads w0)) / 1000 = clock w0 (reads w0) / 1000 -> db w2 = db w1).
Proof.
  intros Hs.
  pose proof (fun now => find_UPDATE_WHERE chat_sessions.id (SET_ended now) (fun _ => eq_refl))
    as Hfind.
  pose proof (find_some_holds _ _ _ Hs) as Hid. simpl in Hid.
  eexists; eexists; eexists; eexists.
  split; [apply endSession_run|]. split; [apply endSession_run|].
  unfold session_row in *. simpl.
  rewrite !Hfind, Hs. simpl. rewrite Hid. simpl. rewrite Hid.
  split; [reflexivity|]. split; [reflexivity|].
  repeat (split; [reflexivity|]).
  intros Hsame. rewrite Hsame.
  unfold UPDATE_end_session, with_chat_sessions. simpl. f_equal.
  apply UPDATE_WHERE_twice. intros r E. split; [exact E | reflexivity].
Qed.

(** ** Messages *)

(** C7.  On a store that enforces its foreign keys, [saveMessage] for a
    session id that is not stored throws and writes nothing; the error is the
    constraint error of [session_messages.session_id] (when the generated
    message id is fresh; a taken id is refused as well).  For a stored
    session, with a fresh message id, it returns, appends exactly one row to
    [session_messages] (with that session, role and content) and raises the
    [message_count] of the session by exactly 1. *)
Theorem saveMessage_unknown_or_appended sid role content w :
  (foreign_keys (db w) = true ->
   session_row sid (db w) = None ->
   exists err w',
     saveMessage sid role content w = (Thrown err, w') /\
     db w' = db w /\
     (message_id_fresh w -> err = ForeignKeyConstraint "session_messages")) /\
  (forall s,
     session_row sid (db w) = Some s ->
     message_id_fresh w ->
     exists w' s' row,
       saveMessage sid role content w = (Returned tt, w') /\
       t_session_messages (db w') = t_session_messages (db w) ++ [row] /\
       session_messages.session_id row = sid /\
       session_messages.role row = role /\
       session_messages.content row = content /\
       session_row sid (db w') = Some s' /\
       chat_sessions.message_count s' = chat_sessions.message_count s + 1).
Proof.
  unfold message_id_fresh. split.
  - intros Hfk Hnone.
    unfold saveMessage, bind, Date_now, Math_random_base36, run_checked, run, on_db. simpl.
    fold (next_message_id w). unfold INSERT_session_messages. simpl.
    unfold session_row in Hnone. apply find_none_existsb_false in Hnone.
    unfold has_session. rewrite Hnone, Hfk. simpl.
    destruct (existsb _ (t_session_messages (db w))) eqn:Hid.
    + eexists; eexists. split; [reflexivity|]. split; [reflexivity | discriminate].
    + eexists; eexists. split; [reflexivity|]. split; reflexivity.
  - intros s Hs Hfresh.
    unfold saveMessage, bind, Date_now, Math_random_base36, run_checked, run, on_db. simpl.
    fold (next_message_id w). unfold INSERT_session_messages. simpl.
    rewrite Hfresh.
    pose proof (find_existsb _ _ _ Hs) as Hhas. unfold has_session. rewrite Hhas.
    rewrite andb_false_r. simpl.
    eexists; eexists; eexists. split; [reflexivity|]. simpl.
    split; [reflexivity|]. repeat (split; [reflexivity|]).
    unfold session_row in *. simpl.
    rewrite (find_UPDATE_WHERE chat_sessions.id SET_message_count (fun _ => eq_refl)), Hs.
    simpl. rewrite (find_some_holds _ _ _ Hs). split; reflexivity.
Qed.

(** ** Ranking of tricks *)

Section RankingFacts.
Import KnowledgeBuilder Ranking.

(** C8, counterexample.  In a window with one amazed attempt of
    ["coin_vanish"] followed by two amazed attempts of ["card_force"] both
    groups have a success rate of 100.0; the result lists ["coin_vanish"]
    (one attempt) before ["card_force"] (two attempts): the tie is not
    broken by attempt count. *)
Lemma analyzeSuccessfulTricks_tie_not_by_attempts :
  option_map (map (fun p => (name p, successRate p, timesPerformed p)))
    (analyzeSuccessfulTricks Sample4.window)
  = Some [ ("coin_vanish"%string, 1000 # 10, 1); ("card_force"%string, 1000 # 10, 2) ] /\
  ~ (forall l, analyzeSuccessfulTricks Sample4.window = Some l ->
               ranked_by_rate_then_attempts l).
Proof.
  split; [vm_compute; reflexivity|].
  intros H.
  destruct (analyzeSuccessfulTricks Sample4.window) as [l|] eqn:E; [|vm_compute in E; discriminate].
  specialize (H l eq_refl).
  vm_compute in E. injection E as <-.
  inversion H as [|a l' _ Hall]; subst.
  inversion Hall as [|b l'' Hab _]; subst.
  destruct Hab as [Hlt | (_ & Hle)].
  - vm_compute in Hlt. discriminate.
  - vm_compute in Hle. apply Hle. reflexivity.
Qed.

(** *** The loop *)

Lemma forEach_tally (window : list experiences.row) :
  Forall (fun x => inherited (experiences.trick_performed x) = false) window ->
  forall o, forEach tally window o = Some (fold_left step window o).
Proof.
  induction 1 as [|x xs Hx _ IH]; intros o; simpl; [reflexivity|].
  unfold tally at 1. rewrite Hx. apply IH.
Qed.

Lemma lookup_none_keys {V} (k : string) (o : list (string * V)) :
  lookup k o = None <-> ~ In k (map fst o).
Proof.
  induction o as [|[k' v] o IH]; simpl; [tauto|].
  destruct (String.eqb_spec k' k) as [->|Hne].
  - split; [discriminate | intros H; exfalso; apply H; left; reflexivity].
  - rewrite IH. split; [intros H [E|E]; [exact (Hne E) | exact (H E)] | tauto].
Qed.

Lemma assign_absent {V} (k : string) (f : V -> V) (o : list (string * V)) :
  ~ In k (map fst o) -> assign k f o = o.
Proof.
  induction o as [|[k' v] o IH]; simpl; [reflexivity|]. intros H.
  destruct (String.eqb_spec k' k) as [->|Hne]; [exfalso; apply H; left; reflexivity|].
  rewrite IH; [reflexivity | tauto].
Qed.

Lemma assign_app {V} (k : string) (f : V -> V) (o o' : list (string * V)) :
  ~ In k (map fst o) -> assign k f (o ++ o') = o ++ assign k f o'.
Proof.
  induction o as [|[k' v] o IH]; simpl; [reflexivity|]. intros H.
  destruct (String.eqb_spec k' k) as [->|Hne]; [exfalso; apply H; left; reflexivity|].
  rewrite IH; [reflexivity | tauto].
Qed.

(** Assigning to a key of an object whose keys are distinct rewrites the
    entry of that key alone. *)
Lemma assign_map {V} (k : string) (f : V -> V) (o : list (string * V)) :
  NoDup (map fst o) ->
  assign k f o = map (fun kv => if (fst kv =? k)%string then (fst kv, f (snd kv)) else kv) o.
Proof.
  induction o as [|[k' v] o IH]; simpl; [reflexivity|]. intros Hnd.
  inversion Hnd as [|? ? Hnin Hnd']; subst.
  destruct (String.eqb_spec k' k) as [->|Hne].
  - f_equal. rewrite <- (assign_absent k f o Hnin) at 1. now apply IH.
  - f_equal. now apply IH.
Qed.

Lemma NoDup_snoc {A} (l : list A) (x : A) :
  NoDup l -> ~ In x l -> NoDup (l ++ [x]).
Proof.
  induction 1 as [|y l Hy Hnd IH]; intros Hx; simpl.
  - constructor; [intros [] | constructor].
  - constructor.
    + rewrite in_app_iff. intros [H | [H | []]]; [contradiction|].
      subst. apply Hx. left. reflexivity.
    + apply IH. intros H. apply Hx. right. exact H.
Qed.

Lemma filter_swap {A} (q r : A -> bool) (l : list A) :
  filter q (filter r l) = filter r (filter q l).
Proof.
  induction l as [|m l IH]; simpl; [reflexivity|].
  destruct (r m) eqn:Hr, (q m) eqn:Hq; simpl; rewrite ?Hr, ?Hq, IH; reflexivity.
Qed.

Lemma filter_absorb {A} (q r : A -> bool) (l : list A) :
  (forall m, q m = true -> r m = true) -> filter q (filter r l) = filter q l.
Proof.
  intros H. induction l as [|m l IH]; simpl; [reflexivity|].
  destruct (q m) eqn:Hq.
  - rewrite (H m Hq). simpl. rewrite Hq, IH. reflexivity.
  - destruct (r m); simpl; rewrite ?Hq; exact IH.
Qed.

Lemma filter_distinct (q : string -> bool) (l : list string) :
  filter q (distinct l) = distinct (filter q l).
Proof.
  induction l as [|n l IH]; simpl; [reflexivity|].
  destruct (q n) eqn:Hq; simpl.
  - f_equal. rewrite <- IH. apply filter_swap.
  - rewrite <- IH. apply filter_absorb. intros m Hm.
    destruct (String.eqb_spec m n) as [->|Hne]; [congruence | reflexivity].
Qed.

Lemma absent_from_spec (keys : list string) (n : string) :
  absent_from keys n = true <-> ~ In n keys.
Proof.
  unfold absent_from. rewrite negb_true_iff. split.
  - intros H Hin. assert (existsb (String.eqb n) keys = true); [|congruence].
    apply existsb_exists. exists n. split; [exact Hin | apply String.eqb_refl].
  - intros H. destruct (existsb (String.eqb n) keys) eqn:E; [|reflexivity].
    apply existsb_exists in E. destruct E as (m & Hin & Hm).
    apply String.eqb_eq in Hm. subst m. contradiction.
Qed.

Lemma absent_from_snoc (keys : list string) (t : string) (l : list string) :
  filter (absent_from (keys ++ [t])) l
  = filter (fun m => negb (m =? t)%string) (filter (absent_from keys) l).
Proof.
  induction l as [|m l IH]; simpl; [reflexivity|].
  assert (E : absent_from (keys ++ [t]) m = absent_from keys m && negb (m =? t)%string).
  { unfold absent_from. rewrite existsb_app. simpl. rewrite orb_false_r. apply negb_orb. }
  rewrite E. destruct (absent_from keys m); simpl.
  - destruct (m =? t)%string; simpl; [exact IH | f_equal; exact IH].
  - exact IH.
Qed.

Lemma rows_of_cons (x : experiences.row) (xs : list experiences.row) (k : string) :
  rows_of (x :: xs) k =
    if (experiences.trick_performed x =? k)%string then x :: rows_of xs k else rows_of xs k.
Proof. reflexivity. Qed.

(** The object the loop builds from [o]: the entries of [o] with the rows
    of their tricks added, then one entry per new trick, in the order of
    first appearance. *)
Lemma fold_left_step (xs : list experiences.row) :
  forall o, NoDup (map fst o) ->
    fold_left step xs o =
      map (fun kv => (fst kv, stats_from (snd kv) (rows_of xs (fst kv)))) o
      ++ map (fun k => (k, stats_from no_stats (rows_of xs k)))
           (distinct (filter (absent_from (map fst o))
                        (map experiences.trick_performed xs))).
Proof.
  induction xs as [|x xs IH]; intros o Hnd.
  - simpl. rewrite app_nil_r. rewrite <- (map_id o) at 1. apply map_ext. intros [k v]. reflexivity.
  - cbn [fold_left]. unfold step at 2. set (t := experiences.trick_performed x).
    destruct (lookup t o) as [v0|] eqn:Hl.
    + assert (Hin : In t (map fst o)).
      { destruct (in_dec string_dec t (map fst o)) as [H|H]; [exact H|].
        apply lookup_none_keys in H. congruence. }
      rewrite (assign_map t (record x) o Hnd).
      rewrite IH.
      2:{ rewrite map_map.
          erewrite map_ext; [exact Hnd|]. intros [k v]. simpl.
          destruct (k =? t)%string; reflexivity. }
      rewrite !map_map. f_equal.
      * apply map_ext. intros [k v]. cbn [fst snd]. rewrite rows_of_cons. fold t.
        rewrite (String.eqb_sym t k).
        destruct (k =? t)%string; reflexivity.
      * assert (Hkeys : map fst (map (fun kv : string * TrickStats =>
                   if (fst kv =? t)%string then (fst kv, record x (snd kv)) else kv) o)
                 = map fst o).
        { rewrite map_map. apply map_ext. intros [k v]. simpl.
          destruct (k =? t)%string; reflexivity. }
        rewrite map_map in Hkeys. rewrite Hkeys.
        cbn [map filter]. fold t.
        assert (Hab : absent_from (map fst o) t = false).
        { destruct (absent_from (map fst o) t) eqn:E; [|reflexivity].
          apply absent_from_spec in E. contradiction. }
        rewrite Hab.
        apply map_ext_in. intros k Hk. rewrite rows_of_cons. fold t.
        destruct (String.eqb_spec t k) as [<-|Hne]; [|reflexivity].
        exfalso. rewrite <- filter_distinct in Hk. apply filter_In in Hk.
        destruct Hk as (_ & Hk). congruence.
    + assert (Hnin : ~ In t (map fst o)) by (apply lookup_none_keys; exact Hl).
      rewrite (assign_app t (record x) o _ Hnin). cbn [assign]. rewrite String.eqb_refl.
      rewrite IH.
      2:{ rewrite map_app. simpl. apply NoDup_snoc; assumption. }
      rewrite map_app. cbn [map fst snd]. rewrite <- app_assoc. f_equal.
      * apply map_ext_in. intros [k v] Hk. cbn [fst snd]. rewrite rows_of_cons. fold t.
        destruct (String.eqb_spec t k) as [<-|Hne]; [|reflexivity].
        exfalso. apply Hnin. apply in_map_iff. exists (t, v). split; [reflexivity | exact Hk].
      * cbn [app filter map]. fold t.
        assert (Hab : absent_from (map fst o) t = true) by (apply absent_from_spec; exact Hnin).
        rewrite Hab. cbn [distinct map]. f_equal.
        { rewrite rows_of_cons. fold t. rewrite String.eqb_refl. reflexivity. }
        rewrite filter_distinct.
        rewrite map_app. cbn [map fst]. rewrite absent_from_snoc.
        apply map_ext_in. intros k Hk. rewrite rows_of_cons. fold t.
        destruct (String.eqb_spec t k) as [<-|Hne]; [|reflexivity].
        exfalso. rewrite <- filter_distinct in Hk. apply filter_In in Hk.
        destruct Hk as (_ & Hk). rewrite String.eqb_refl in Hk. discriminate.
Qed.

(** *** What the loop has counted *)

Lemma stats_from_counts (rows : list experiences.row) :
  forall s,
    attempts (stats_from s rows) = attempts s + Z.of_nat (List.length rows) /\
    successes (stats_from s rows) =
      successes s + count (fun x => isSuccess (experiences.user_reaction x)) rows /\
    insights (stats_from s rows) =
      insights s ++ filter truthy (map experiences.lesson_learned rows).
Proof.
  unfold count.
  induction rows as [|x rows IH]; intros s; cbn [stats_from fold_left].
  - simpl. rewrite app_nil_r. repeat split; lia.
  - fold (stats_from (record x s) rows).
    destruct (IH (record x s)) as (Ha & Hs & Hi). rewrite Ha, Hs, Hi.
    cbn [record attempts successes insights map filter List.length].
    repeat split.
    + lia.
    + destruct (experiences.user_reaction x); cbn [isSuccess List.length]; lia.
    + destruct (truthy (experiences.lesson_learned x)); [|reflexivity].
      rewrite <- app_assoc. reflexivity.
Qed.

Lemma pattern_of_group (window : list experiences.row) (k : string) :
  pattern_of (k, stats_from no_stats (rows_of window k)) = group window k.
Proof.
  unfold pattern_of, group.
  destruct (stats_from_counts (rows_of window k) no_stats) as (Ha & Hs & Hi).
  rewrite Ha, Hs, Hi. reflexivity.
Qed.

(** *** Enumeration of an object *)

Lemma insert_by_index_map {V W} (h : string * V -> string * W) (x : string * V)
  (l : list (string * V)) :
  (forall kv, fst (h kv) = fst kv) ->
  insert_by_index (h x) (map h l) = map h (insert_by_index x l).
Proof.
  intros Hh. induction l as [|y l IH]; simpl; [reflexivity|].
  rewrite !Hh. destruct (index_or_zero (fst y) <? index_or_zero (fst x)); simpl;
    [now rewrite IH | reflexivity].
Qed.

(** The order of the entries depends on the keys alone. *)
Lemma Object_entries_map {V W} (h : string * V -> string * W) (o : list (string * V)) :
  (forall kv, fst (h kv) = fst kv) ->
  Object_entries (map h o) = map h (Object_entries o).
Proof.
  intros Hh. unfold Object_entries. rewrite map_app. f_equal.
  - unfold ascending. induction o as [|x o IH]; simpl; [reflexivity|].
    rewrite Hh. destruct (is_array_index (fst x)); simpl; [|exact IH].
    rewrite IH. now apply insert_by_index_map.
  - induction o as [|x o IH]; simpl; [reflexivity|].
    rewrite Hh. destruct (is_array_index (fst x)); simpl; [exact IH | now rewrite IH].
Qed.

Lemma insert_by_index_perm {V} (x : string * V) (l : list (string * V)) :
  Permutation (insert_by_index x l) (x :: l).
Proof.
  induction l as [|y l IH]; simpl; [reflexivity|].
  destruct (index_or_zero (fst y) <? index_or_zero (fst x)); [|reflexivity].
  rewrite IH. apply perm_swap.
Qed.

Lemma filter_partition_perm {A} (q : A -> bool) (l : list A) :
  Permutation (filter q l ++ filter (fun x => negb (q x)) l) l.
Proof.
  induction l as [|x l IH]; simpl; [reflexivity|].
  destruct (q x); simpl.
  - now constructor.
  - rewrite <- Permutation_middle. now constructor.
Qed.

Lemma Object_entries_perm {V} (o : list (string * V)) :
  Permutation (Object_entries o) o.
Proof.
  unfold Object_entries.
  rewrite <- (filter_partition_perm (fun kv => is_array_index (fst kv)) o) at 3.
  apply Permutation_app_tail.
  unfold ascending. induction (filter _ o) as [|x l IH]; simpl; [reflexivity|].
  rewrite insert_by_index_perm. now constructor.
Qed.

(** *** The sort *)

Lemma insert_sorted_perm {A} (compare : A -> A -> Q) (x : A) (l : list A) :
  Permutation (insert_sorted compare x l) (x :: l).
Proof.
  induction l as [|y l IH]; simpl; [reflexivity|].
  destruct (Qle_bool (compare x y) 0); [reflexivity|].
  rewrite IH. apply perm_swap.
Qed.

Lemma Array_sort_perm {A} (compare : A -> A -> Q) (l : list A) :
  Permutation (Array_sort compare l) l.
Proof.
  unfold Array_sort. induction l as [|x l IH]; simpl; [reflexivity|].
  rewrite insert_sorted_perm. now constructor.
Qed.

Lemma insert_sorted_by_rate (x : TrickPattern) (l : list TrickPattern) :
  StronglySorted not_below l -> StronglySorted not_below (insert_sorted by_rate x l).
Proof.
  induction 1 as [|y l Hl IH Hy]; simpl.
  - constructor; constructor.
  - unfold by_rate at 1.
    destruct (Qle_bool (successRate y - successRate x) 0) eqn:E.
    + apply Qle_bool_iff in E.
      assert (Hxy : not_below x y) by (unfold not_below; lra).
      constructor; [constructor; assumption|].
      constructor; [exact Hxy|].
      eapply Forall_impl; [|exact Hy]. unfold not_below in *. intros z Hz. lra.
    + assert (Hyx : not_below y x).
      { unfold not_below. destruct (Qlt_le_dec (successRate y) (successRate x)) as [H|H];
          [|exact H].
        assert (Qle_bool (successRate y - successRate x) 0 = true); [|congruence].
        apply Qle_bool_iff. lra. }
      constructor; [exact IH|].
      apply Forall_forall. intros z Hz.
      apply (Permutation_in _ (insert_sorted_perm by_rate x l)) in Hz.
      destruct Hz as [<-|Hz]; [exact Hyx|].
      rewrite Forall_forall in Hy. now apply Hy.
Qed.

Lemma Array_sort_by_rate (l : list TrickPattern) :
  StronglySorted not_below (Array_sort by_rate l).
Proof.
  unfold Array_sort. induction l as [|x l IH]; simpl; [constructor|].
  now apply insert_sorted_by_rate.
Qed.

(** The sort is stable: patterns of one rate keep their order. *)
Lemma insert_sorted_stable (r : Q) (x : TrickPattern) (l : list TrickPattern) :
  filter (has_rate r) (insert_sorted by_rate x l) = filter (has_rate r) (x :: l).
Proof.
  induction l as [|y l IH]; [reflexivity|].
  cbn [insert_sorted]. unfold by_rate at 1.
  destruct (Qle_bool (successRate y - successRate x) 0) eqn:E; [reflexivity|].
  cbn [filter] in *. rewrite IH.
  destruct (has_rate r x) eqn:Hx, (has_rate r y) eqn:Hy; try reflexivity.
  exfalso. unfold has_rate in *.
  apply Qeq_bool_iff in Hx. apply Qeq_bool_iff in Hy.
  assert (Qle_bool (successRate y - successRate x) 0 = true); [|congruence].
  apply Qle_bool_iff. lra.
Qed.

Lemma Array_sort_stable (r : Q) (l : list TrickPattern) :
  filter (has_rate r) (Array_sort by_rate l) = filter (has_rate r) l.
Proof.
  unfold Array_sort. induction l as [|x l IH]; [reflexivity|].
  cbn [fold_right]. rewrite insert_sorted_stable. cbn [filter]. now rewrite IH.
Qed.

(** *** The first five *)

Lemma in_firstn {A} (n : nat) (l : list A) (x : A) : In x (firstn n l) -> In x l.
Proof.
  revert n. induction l as [|y l IH]; intros [|n]; simpl; try tauto.
  intros [H|H]; [left; exact H | right; eapply IH; exact H].
Qed.

Lemma firstn_sorted {A} (R : A -> A -> Prop) (n : nat) (l : list A) :
  StronglySorted R l -> StronglySorted R (firstn n l).
Proof.
  intros H. revert n. induction H as [|x l Hl IH Hx]; intros [|n]; simpl; try constructor.
  - apply IH.
  - rewrite Forall_forall in *. intros y Hy. apply Hx. eapply in_firstn; eauto.
Qed.

Lemma firstn_NoDup {A} (n : nat) (l : list A) : NoDup l -> NoDup (firstn n l).
Proof.
  intros H. revert n. induction H as [|x l Hx Hl IH]; intros [|n]; simpl; try constructor.
  - intros Hin. apply Hx. eapply in_firstn; eauto.
  - apply IH.
Qed.

Lemma filter_firstn_prefix {A} (q : A -> bool) (n : nat) (l : list A) :
  exists rest, filter q l = filter q (firstn n l) ++ rest.
Proof.
  exists (filter q (skipn n l)).
  rewrite <- filter_app, firstn_skipn. reflexivity.
Qed.

(** What [firstn] leaves out of a sorted list stands after all it keeps. *)
Lemma firstn_top {A} (R : A -> A -> Prop) (n : nat) (l : list A) (g : A) :
  StronglySorted R l -> In g l -> ~ In g (firstn n l) ->
  List.length (firstn n l) = n /\ forall p, In p (firstn n l) -> R p g.
Proof.
  intros Hs. revert n. induction Hs as [|x l Hl IH Hx]; intros n Hin Hout; [contradiction|].
  destruct n as [|n]; simpl in *; [split; [reflexivity | contradiction]|].
  destruct Hin as [->|Hin]; [exfalso; apply Hout; left; reflexivity|].
  destruct (IH n Hin) as (Hlen & Htop); [tauto|].
  split; [now rewrite Hlen|].
  intros p [<-|Hp]; [|now apply Htop].
  rewrite Forall_forall in Hx. now apply Hx.
Qed.

Lemma distinct_in (l : list string) (k : string) : In k (distinct l) <-> In k l.
Proof.
  induction l as [|n l IH]; simpl; [tauto|].
  rewrite filter_In, IH.
  destruct (String.eqb_spec k n) as [->|Hne]; simpl; [tauto|].
  split; [tauto|]. intros [E|H]; [congruence | tauto].
Qed.

Lemma distinct_NoDup (l : list string) : NoDup (distinct l).
Proof.
  induction l as [|n l IH]; simpl; constructor.
  - rewrite filter_In, String.eqb_refl. simpl. intros (_ & H). discriminate.
  - now apply NoDup_filter.
Qed.

Lemma enumeration_perm (window : list experiences.row) :
  Permutation (enumeration window) (distinct (map experiences.trick_performed window)).
Proof.
  unfold enumeration. rewrite Object_entries_perm, map_map. simpl. now rewrite map_id.
Qed.

(** The patterns handed to the sort are the groups of the window, in the
    order of enumeration. *)
Lemma patterns_of_window (window : list experiences.row) :
  map pattern_of
    (Object_entries (fold_left step window []))
  = map (group window) (enumeration window).
Proof.
  rewrite fold_left_step by constructor. cbn [map app fst].
  assert (E : forall l, filter (absent_from []) l = l).
  { intros l. induction l as [|m l IHl]; simpl; [reflexivity | now rewrite IHl]. }
  rewrite E. unfold enumeration.
  set (ks := distinct (map experiences.trick_performed window)).
  replace (map (fun k => (k, stats_from no_stats (rows_of window k))) ks)
    with (map (fun kv : string * unit => (fst kv, stats_from no_stats (rows_of window (fst kv))))
            (map (fun k => (k, tt)) ks))
    by (rewrite map_map; reflexivity).
  rewrite Object_entries_map by reflexivity.
  rewrite !map_map. apply map_ext. intros [k []]. cbn [fst]. apply pattern_of_group.
Qed.

(** The rate of the group of a trick of the window is near the exact
    percentage of its successes. *)
Lemma group_rate_near (window : list experiences.row) (k : string) :
  In k (map experiences.trick_performed window) ->
  Z.of_nat (List.length window) <= 2 ^ 49 ->
  (Qabs (successRate (group window k) - exact_percentage window k)
   <= (1 # 20) + (1 # 17592186044416))%Q.
Proof.
  intros Hk Hmax. unfold group, exact_percentage. cbn [successRate].
  set (rows := rows_of window k).
  assert (Hlen : (List.length rows <= List.length window)%nat) by apply filter_length_le.
  assert (Hne : (1 <= List.length rows)%nat).
  { apply in_map_iff in Hk. destruct Hk as (x & Hx & Hin).
    assert (Hr : In x rows).
    { apply filter_In. split; [exact Hin|]. rewrite Hx. apply String.eqb_refl. }
    destruct rows; [contradiction | simpl; lia]. }
  apply rate_near.
  - unfold count. split; [lia|].
    pose proof (filter_length_le (fun x => isSuccess (experiences.user_reaction x)) rows). lia.
  - lia.
Qed.

(** C8, as the code has it.  For a window none of whose trick names is the
    name of a member of [Object.prototype], [analyzeSuccessfulTricks]
    returns at most five patterns; each is the group of a distinct trick of
    the window (attempts, successes counted as amazed or engaged, rate =
    successes / attempts as a percentage, computed in doubles and rounded to
    one decimal by [toFixed(1)], which is within 0.05 + 2^(-44) of the exact
    percentage for a window of up to 2^49 rows); they stand in descending
    order of that rounded rate; a group that is left out has a rate no
    greater than any pattern kept; and patterns of equal rate stand in the
    order in which the grouping object enumerates their tricks (first
    appearance in the window, array-index names first), not by attempt
    count. *)
Theorem analyzeSuccessfulTricks_ranking (window : list experiences.row) :
  Forall (fun x => inherited (experiences.trick_performed x) = false) window ->
  exists l,
    analyzeSuccessfulTricks window = Some l /\
    (List.length l <= 5)%nat /\
    NoDup (map name l) /\
    (forall p, In p l ->
       In (name p) (map experiences.trick_performed window) /\ p = group window (name p)) /\
    (Z.of_nat (List.length window) <= 2 ^ 49 ->
     forall p, In p l ->
       (Qabs (successRate p - exact_percentage window (name p))
        <= (1 # 20) + (1 # 17592186044416))%Q) /\
    StronglySorted not_below l /\
    (forall k, In k (map experiences.trick_performed window) -> ~ In k (map name l) ->
       List.length l = 5%nat /\ forall p, In p l -> not_below p (group window k)) /\
    (forall r, exists rest,
       filter (has_rate r) (map (group window) (enumeration window))
       = filter (has_rate r) l ++ rest).
Proof.
  intros Hwin. unfold analyzeSuccessfulTricks.
  rewrite (forEach_tally window Hwin), patterns_of_window.
  set (G := map (group window) (enumeration window)).
  set (L := Array_sort by_rate G).
  assert (HG : forall p, In p G ->
            In (name p) (map experiences.trick_performed window) /\ p = group window (name p)).
  { intros p Hp. apply in_map_iff in Hp. destruct Hp as (k & <- & Hk).
    split; [|reflexivity]. change (name (group window k)) with k.
    apply distinct_in. exact (Permutation_in _ (enumeration_perm window) Hk). }
  assert (HL : forall p, In p L -> In p G).
  { intros p Hp. exact (Permutation_in _ (Array_sort_perm by_rate G) Hp). }
  assert (Hnames : NoDup (map name L)).
  { apply (Permutation_NoDup (l := map name G)).
    - apply Permutation_map. symmetry. apply Array_sort_perm.
    - unfold G. rewrite map_map. simpl. rewrite map_id.
      apply (Permutation_NoDup (l := distinct (map experiences.trick_performed window))).
      + symmetry. apply enumeration_perm.
      + apply distinct_NoDup. }
  exists (firstn 5 L). split; [reflexivity|].
  split; [apply firstn_le_length|].
  split; [rewrite <- firstn_map; now apply firstn_NoDup|].
  split; [intros p Hp; apply HG, HL; eapply in_firstn; eauto|].
  split.
  { intros Hmax p Hp.
    destruct (HG p (HL p (in_firstn _ _ _ Hp))) as (Hk & Hgroup).
    rewrite Hgroup at 1. now apply group_rate_near. }
  split; [apply firstn_sorted, Array_sort_by_rate|].
  split.
  - intros k Hk Hout.
    assert (HkL : In (group window k) L).
    { apply (Permutation_in _ (Permutation_sym (Array_sort_perm by_rate G))).
      apply in_map. apply (Permutation_in _ (Permutation_sym (enumeration_perm window))).
      now apply distinct_in. }
    apply (firstn_top not_below 5 L (group window k) (Array_sort_by_rate G) HkL).
    intros Hin. apply Hout. change k with (name (group window k)). now apply in_map.
  - intros r. unfold L. rewrite <- (Array_sort_stable r G). apply filter_firstn_prefix.
Qed.

End RankingFacts.

(** ** The model on the scenarios of the specification *)

(** First session of persona ["P"]: six turns, sentiment 0.8, lesson
    ["smile more"], trick ["card_force"].  The reaction is amazed, the gain
    is 35, one session is counted and the metric of the pair is created
    with one attempt, one success, rate 1 and rating 5. *)
Example scenario_first_session :
  let w := Sample2.after_one in
  option_map experiences.user_reaction (hd_error (t_experiences (db w))) = Some amazed /\
  option_map mentalists.experience_level (mentalist_row "P" (db w)) = Some 35 /\
  option_map mentalists.total_performances (mentalist_row "P" (db w)) = Some 1 /\
  option_map (fun r => (performance_metrics.id r,
                        performance_metrics.total_attempts r,
                        performance_metrics.success_count r,
                        Qred (performance_metrics.success_rate r),
                        Qred (performance_metrics.average_user_rating r)))
    (SELECT_performance_metrics "P" "card_force" (db w))
  = Some ("P_card_force"%string, 1, 1, 1%Q, 5%Q).
Proof. vm_compute. repeat split; reflexivity. Qed.

(** A second session for the same pair with sentiment -0.5: the reaction is
    skeptical (rating 2); the metric has two attempts, one success, rate 1/2
    and rating 7/2. *)
Example scenario_second_session :
  let w :=
    snd (captureExperience "P" "user_1" "session_2"
           (Sample.analysis "card_force" (- (1 # 2)) "") Sample.six_turns 60
           Sample2.after_one) in
  option_map experiences.user_reaction (nth_error (t_experiences (db w)) 1) = Some skeptical /\
  option_map (fun r => (performance_metrics.total_attempts r,
                        performance_metrics.success_count r,
                        Qred (performance_metrics.success_rate r),
                        Qred (performance_metrics.average_user_rating r)))
    (SELECT_performance_metrics "P" "card_force" (db w))
  = Some (2, 1, 1 # 2, 7 # 2).
Proof. vm_compute. repeat split; reflexivity. Qed.

(** Rates and averages are doubles.  Two successes among three attempts
    give the rate 0.6666666666666666, that is 6004799503160661 / 2^53, not
    2/3.  The ratings 5, 5, 5, 5, 5, 3, 1, 2 give the average
    3.8750000000000004, that is 8725724278030337 / 2^51, one last place
    above their mean 31/8. *)
Example scenario_rounded_metrics :
  let metrics (reactions : list Reaction) :=
    option_map (fun r => (performance_metrics.total_attempts r,
                          performance_metrics.success_count r,
                          Qred (performance_metrics.success_rate r),
                          Qred (performance_metrics.average_user_rating r)))
      (SELECT_performance_metrics "P" "card_force"
         (db (snd (for_each (updateTrickMetrics "P")
                     (map (Sample.attempt "card_force") reactions)
                     (Sample.world ["P"%string]))))) in
  metrics [amazed; engaged; skeptical]
  = Some (3, 2, 6004799503160661 # 9007199254740992, 8256599316845909 # 2251799813685248) /\
  metrics [amazed; amazed; amazed; amazed; amazed; neutral; confused; skeptical]
  = Some (8, 5, 5 # 8, 8725724278030337 # 2251799813685248) /\
  (31 # 8 < 8725724278030337 # 2251799813685248)%Q.
Proof. vm_compute. repeat split; reflexivity. Qed.

(** The fallback of [mapReactionToRating] is never reached from a member of
    the union type. *)
Example mapReactionToRating_values :
  map (fun r => mapReactionToRating (reaction_text r))
    [amazed; engaged; neutral; skeptical; confused]
  = [5 # 1; 4 # 1; 3 # 1; 2 # 1; 1 # 1] /\
  mapReactionToRating "bored" = 3 # 1.
Proof. split; reflexivity. Qed.

(** [Object.entries] lists array indices first, in ascending order, then the
    other keys as they were created. *)
Example Object_entries_order :
  map fst (KnowledgeBuilder.Object_entries
             [("b", 1); ("10", 2); ("a", 3); ("2", 4); ("007", 5)]%string)
  = ["2"; "10"; "b"; "a"; "007"]%string.
Proof. reflexivity. Qed.

(** A trick named like a member of [Object.prototype] is not grouped: with
    neither context nor lesson its row is skipped, otherwise the loop
    throws. *)
Example analyzeSuccessfulTricks_inherited_name :
  let quiet :=
    {| experiences.id := "e1";
       experiences.mentalist_id := "P";
       experiences.user_id := "user_1";
       experiences.session_id := "session_1";
       experiences.timestamp := 1700000000;
       experiences.conversation_summary := "";
       experiences.trick_performed := "constructor";
       experiences.user_reaction := amazed;
       experiences.user_sentiment := 4 # 5;
       experiences.what_worked := "";
       experiences.what_didnt_work := "";
       experiences.lesson_learned := "";
       experiences.message_count := 6;
       experiences.duration_seconds := 60;
       experiences.context := "" |} in
  KnowledgeBuilder.analyzeSuccessfulTricks [quiet] = Some [] /\
  KnowledgeBuilder.analyzeSuccessfulTricks [Sample4.stored "e1" "constructor" amazed] = None.
Proof. split; reflexivity. Qed.

(** 41 successes among 80 attempts: the quotient 0.5125 is rounded to a
    double, the product with 100 is the double 51.24999999999999, that is
    7212796278210559 / 2^47, and [toFixed(1)] gives 51.2 where the exact
    percentage 51.25 would give 51.3. *)
Example percentage_41_of_80 :
  Qred (KnowledgeBuilder.percentage 41 80) = 7212796278210559 # 140737488355328 /\
  Qred (KnowledgeBuilder.toFixed1 (KnowledgeBuilder.percentage 41 80)) = 256 # 5 /\
  Qred (KnowledgeBuilder.toFixed1 ((41 # 80) * 100)) = 513 # 10.
Proof. vm_compute. repeat split; reflexivity. Qed.

(** [toFixed(1)] rounds to the nearest tenth, upwards on a tie. *)
Example toFixed1_values :
  map (fun x => Qred (KnowledgeBuilder.toFixed1 x)) [200 # 3; 1 # 20; 100 # 1; 0 # 1]
  = [667 # 10; 1 # 10; 100 # 1; 0 # 1].
Proof. reflexivity. Qed.

(** ** The statements at work on the sample stores *)

(** C1 at work: two amazed attempts (rating 5) then a neutral one (rating
    3) of ["card_force"] by persona ["P"] leave [total_attempts = 3],
    [success_count = 2], the rate the double nearest to 2/3 and the average
    within [2 * 2^(-51)] of the magnitude of the mean 13/3. *)
Lemma updateTrickMetrics_running_mean_witness :
  exists w' r,
    for_each (updateTrickMetrics "P")
      [Sample.attempt "card_force" amazed; Sample.attempt "card_force" amazed;
       Sample.attempt "card_force" neutral]
      (Sample.world ["P"%string]) = (Returned tt, w') /\
    SELECT_performance_metrics "P" "card_force" (db w') = Some r /\
    performance_metrics.total_attempts r = 3 /\
    performance_metrics.success_count r = 2 /\
    (performance_metrics.success_rate r == Binary64.div 2 3)%Q /\
    (Qabs (performance_metrics.success_rate r - (2 # 3)) <= Binary64.unit_roundoff * (2 # 3))%Q /\
    (Qabs (performance_metrics.average_user_rating r - (13 # 3))
     <= rounding_tolerance 3 * (13 # 3))%Q.
Proof.
  destruct (updateTrickMetrics_running_mean "P" "card_force"
              (Sample.attempt "card_force" amazed)
              [Sample.attempt "card_force" amazed; Sample.attempt "card_force" neutral]
              (Sample.world ["P"%string]))
    as (w' & r & Hrun & Hsel & Htot & Hcnt & Hrate & Hnear & Havg).
  - repeat constructor.
  - reflexivity.
  - reflexivity.
  - intros _. reflexivity.
  - vm_compute. discriminate.
  - exists w', r. split; [exact Hrun|]. split; [exact Hsel|].
    split; [exact Htot|]. split; [exact Hcnt|].
    rewrite Hcnt, Htot in Hrate, Hnear.
    split; [exact Hrate|]. split; [exact Hnear|]. exact Havg.
Defined.

(** C3 at work, the end-to-end scenario: persona ["P"] at level 0 with no
    session; six turns, sentiment 0.8, a lesson learned: the gain is
    10 + 20 + 5 + 0 = 35 and one performance is counted. *)
Lemma captureExperience_counters_witness :
  exists c w' m',
    captureExperience "P" "user_1" "session_1"
      (Sample.analysis "card_force" (4 # 5) "smile more") Sample.six_turns 60
      (Sample.world ["P"%string]) = (c, w') /\
    mentalist_row "P" (db w') = Some m' /\
    mentalists.experience_level m' = 35 /\
    mentalists.total_performances m' = 1.
Proof.
  apply (captureExperience_counters "P" "user_1" "session_1"
           (Sample.analysis "card_force" (4 # 5) "smile more") Sample.six_turns 60
           (Sample.world ["P"%string]) (Sample.persona "P")); reflexivity.
Defined.

(** C5 at work on the store that holds persona ["P"] and no session. *)
Lemma getOrCreateSession_same_then_different_witness :
  exists sid w1 w2,
    getOrCreateSession "user_1" "P" (Sample.world ["P"%string]) = (Returned sid, w1) /\
    getOrCreateSession "user_1" "P" w1 = (Returned sid, w1) /\
    endSession sid w1 = (Returned tt, w2) /\
    (forall sid' w3, getOrCreateSession "user_1" "P" w2 = (Returned sid', w3) -> sid' <> sid).
Proof.
  destruct (getOrCreateSession_same_then_different "user_1" "P" (Sample.world ["P"%string]))
    as (sid & w1 & w2 & H1 & H2 & H3 & H4 & _).
  - intros _. split; [reflexivity | intros _; reflexivity].
  - exists sid, w1, w2. repeat split; assumption.
Defined.

(** C6 at work on the session opened in [Sample3]. *)
Lemma endSession_again_witness :
  exists w1 w2 s1 s2,
    endSession Sample3.sid (snd Sample3.opened) = (Returned tt, w1) /\
    endSession Sample3.sid w1 = (Returned tt, w2) /\
    session_row Sample3.sid (db w1) = Some s1 /\
    session_row Sample3.sid (db w2) = Some s2 /\
    chat_sessions.is_active s2 = false /\
    chat_sessions.end_time s1 = Some 1700000002 /\
    chat_sessions.end_time s2 = Some 1700000003.
Proof.
  edestruct (endSession_again Sample3.sid (snd Sample3.opened))
    as (w1 & w2 & s1 & s2 & H1 & H2 & H3 & H4 & _ & H6 & H7 & H8 & _).
  - vm_compute. reflexivity.
  - exists w1, w2, s1, s2. repeat split; assumption.
Defined.

(** C7 at work: a message for a session id that is not stored, and one for
    the session opened in [Sample3]. *)
Lemma saveMessage_unknown_or_appended_witness :
  (exists w',
     saveMessage "session_0" "user" "hello" (Sample.world ["P"%string])
       = (Thrown (ForeignKeyConstraint "session_messages"), w') /\
     db w' = db (Sample.world ["P"%string])) /\
  (exists w' s',
     saveMessage Sample3.sid "user" "hello" (snd Sample3.opened) = (Returned tt, w') /\
     List.length (t_session_messages (db w')) = 1%nat /\
     session_row Sample3.sid (db w') = Some s' /\
     chat_sessions.message_count s' = 1).
Proof.
  split.
  - destruct (proj1 (saveMessage_unknown_or_appended "session_0" "user" "hello"
                       (Sample.world ["P"%string])) eq_refl eq_refl)
      as (err & w' & H1 & H2 & H3).
    exists w'. rewrite <- (H3 eq_refl). split; assumption.
  - edestruct (proj2 (saveMessage_unknown_or_appended Sample3.sid "user" "hello"
                        (snd Sample3.opened)))
      as (w' & s' & row & H1 & H2 & _ & _ & _ & H6 & H7).
    + vm_compute. reflexivity.
    + reflexivity.
    + exists w', s'. split; [exact H1|]. split; [rewrite H2; reflexivity|].
      split; [exact H6 | exact H7].
Defined.

(** C9 at work: the first amazed session of ["P"] with ["card_force"]. *)
Lemma captureExperience_successful_tricks_witness :
  exists c w' m',
    captureExperience "P" "user_1" "session_1"
      (Sample.analysis "card_force" (4 # 5) "smile more") Sample.six_turns 60
      (Sample.world ["P"%string]) = (c, w') /\
    mentalist_row "P" (db w') = Some m' /\
    known_tricks m' = ["card_force"%string].
Proof.
  destruct (captureExperience_successful_tricks "P" "user_1" "session_1"
              (Sample.analysis "card_force" (4 # 5) "smile more") Sample.six_turns 60
              (Sample.world ["P"%string]) (Sample.persona "P") eq_refl eq_refl)
    as (c & w' & m' & H1 & H2 & H3 & _).
  exists c, w', m'. split; [exact H1|]. split; [exact H2|].
  destruct H3 as (H3 & _); [left; reflexivity | exact H3].
Defined.

(** C10 at work: the same capture with learning enabled and disabled. *)
Lemma captureExperience_ignores_learning_enabled_witness :
  let w1 := Sample.world ["P"%string] in
  let w2 := on_db (with_mentalists (map (SET_learning_enabled false))) w1 in
  learning_flags w1 = [true] /\ learning_flags w2 = [false] /\
  fst (captureExperience "P" "user_1" "session_1"
         (Sample.analysis "card_force" (4 # 5) "smile more") Sample.six_turns 60 w1)
  = fst (captureExperience "P" "user_1" "session_1"
           (Sample.analysis "card_force" (4 # 5) "smile more") Sample.six_turns 60 w2).
Proof.
  intros w1 w2. split; [reflexivity|]. split; [reflexivity|].
  apply (captureExperience_ignores_learning_enabled "P" "user_1" "session_1"
           (Sample.analysis "card_force" (4 # 5) "smile more") Sample.six_turns 60 w1 w2).
  repeat split; reflexivity.
Defined.

Section RankingAtWork.
Import KnowledgeBuilder Ranking.

(** C8 at work on the window of [Sample4]. *)
Lemma analyzeSuccessfulTricks_ranking_witness :
  exists l,
    analyzeSuccessfulTricks Sample4.window = Some l /\
    (List.length l <= 5)%nat /\
    NoDup (map name l) /\
    StronglySorted not_below l.
Proof.
  destruct (analyzeSuccessfulTricks_ranking Sample4.window)
    as (l & H1 & H2 & H3 & _ & _ & H5 & _).
  - repeat constructor.
  - exists l. repeat split; assumption.
Defined.

End RankingAtWork.

(** * Further properties of the services *)

#[local] Arguments String.append : simpl nomatch.

(** ** User ids *)

Section UserIds.
Import UserIdentityService.







Lemma digit36_code (d : Z) :
  0 <= d < 36 ->
  Z.of_nat (nat_of_ascii (digit36 d)) = if d <? 10 then 48 + d else 87 + d.
Proof.
  intros H. unfold digit36. rewrite nat_ascii_embedding.
  - apply Z2Nat.id. destruct (d <? 10); lia.
  - destruct (d <? 10) eqn:E; [apply Z.ltb_lt in E | apply Z.ltb_ge in E]; lia.
Qed.

Lemma digit36_alnum (d : Z) : 0 <= d < 36 -> is_lower_alnum (digit36 d) = true.
Proof.
  intros H. unfold is_lower_alnum. rewrite (digit36_code d H).
  destruct (Z.ltb_spec d 10).
  - replace (48 <=? 48 + d) with true by (symmetry; apply Z.leb_le; lia).
    replace (48 + d <=? 57) with true by (symmetry; apply Z.leb_le; lia). reflexivity.
  - replace (97 <=? 87 + d) with true by (symmetry; apply Z.leb_le; lia).
    replace (87 + d <=? 122) with true by (symmetry; apply Z.leb_le; lia).
    apply orb_true_r.
Qed.

Lemma value36_digit36 (d : Z) : 0 <= d < 36 -> value36 (digit36 d) = d.
Proof.
  intros H. unfold value36. rewrite (digit36_code d H).
  destruct (Z.ltb_spec d 10).
  - replace (48 + d <? 58) with true by (symmetry; apply Z.ltb_lt; lia). lia.
  - replace (87 + d <? 58) with false by (symmetry; apply Z.ltb_ge; lia). lia.
Qed.

Lemma String_app_nil_r (s : string) : (s ++ "")%string = s.
Proof. induction s as [|c s IH]; simpl; [reflexivity | now rewrite IH]. Qed.

Lemma String_app_assoc (s t u : string) : ((s ++ t) ++ u)%string = (s ++ (t ++ u))%string.
Proof. induction s as [|c s IH]; simpl; [reflexivity | now rewrite IH]. Qed.

Lemma String_length_app (s t : string) :
  String.length (s ++ t) = (String.length s + String.length t)%nat.
Proof. induction s as [|c s IH]; simpl; [reflexivity | now rewrite IH]. Qed.

Lemma parse36_app (s t : string) : forall a, parse36 a (s ++ t) = parse36 (parse36 a s) t.
Proof. induction s as [|c s IH]; intros a; simpl; [reflexivity | apply IH]. Qed.

Lemma all_chars_app (p : ascii -> bool) (s t : string) :
  all_chars p (s ++ t) = all_chars p s && all_chars p t.
Proof.
  induction s as [|c s IH]; simpl; [reflexivity|]. rewrite IH. apply andb_assoc.
Qed.

(** The digits [toString36_digits] puts in front of [acc] are the base-36
    numeral of [n], given fuel for the binary length of [n]. *)
Lemma toString36_digits_numeral (fuel : nat) :
  forall n acc, 0 <= n < 2 ^ Z.of_nat (S fuel) ->
    exists ds,
      toString36_digits (S fuel) n acc = (ds ++ acc)%string /\
      ds <> ""%string /\
      all_chars is_lower_alnum ds = true /\
      forall a, parse36 a ds = a * 36 ^ Z.of_nat (String.length ds) + n.
Proof.
  induction fuel as [|fuel IH]; intros n acc H;
    cbn [toString36_digits];
    assert (Hd : 0 <= n mod 36 < 36) by (apply Z.mod_pos_bound; lia);
    destruct (Z.ltb_spec n 36) as [Hlt|Hge].
  1, 3: exists (String (digit36 (n mod 36)) ""); split; [reflexivity|];
        split; [discriminate|]; split;
        [ simpl; rewrite digit36_alnum by exact Hd; reflexivity
        | intros a; cbn [parse36 String.length]; rewrite value36_digit36 by exact Hd;
          rewrite Z.mod_small by lia; change (Z.of_nat 1) with 1;
          rewrite Z.pow_1_r; lia ].
  - simpl in H. lia.
  - destruct (IH (n / 36) (String (digit36 (n mod 36)) acc)) as (ds & E & Hne & Hall & Hval).
    { split; [apply Z.div_pos; lia|].
      apply Z.div_lt_upper_bound; [lia|].
      rewrite (Nat2Z.inj_succ (S fuel)), Z.pow_succ_r in H by lia. lia. }
    exists (ds ++ String (digit36 (n mod 36)) "")%string. split.
    { cbn [toString36_digits] in E. rewrite E. rewrite String_app_assoc. reflexivity. }
    split; [destruct ds; [contradiction | discriminate]|].
    split.
    { rewrite all_chars_app, Hall. simpl. rewrite digit36_alnum by exact Hd. reflexivity. }
    intros a. rewrite parse36_app, Hval. cbn [parse36].
    rewrite value36_digit36 by exact Hd.
    rewrite String_length_app. cbn [String.length].
    rewrite Nat2Z.inj_add. change (Z.of_nat 1) with 1.
    rewrite Z.pow_add_r by lia.
    pose proof (Z.div_mod n 36). lia.
Qed.

Lemma toString36_numeral (n : Z) :
  0 <= n ->
  toString36 n <> ""%string /\
  all_chars is_lower_alnum (toString36 n) = true /\
  parse36 0 (toString36 n) = n.
Proof.
  intros H. unfold toString36.
  destruct (toString36_digits_numeral (Z.to_nat (Z.log2 n)) n "") as (ds & E & Hne & Hall & Hval).
  - split; [exact H|]. rewrite Nat2Z.inj_succ, Z2Nat.id by apply Z.log2_nonneg.
    destruct (Z.eq_dec n 0) as [->|Hnz]; [split; reflexivity|].
    apply Z.log2_spec. lia.
  - rewrite E, String_app_nil_r.
    split; [exact Hne|]. split; [exact Hall|]. rewrite Hval. lia.
Qed.

Lemma after_prefix_app (p s : string) : after_prefix p (p ++ s) = Some s.
Proof.
  induction p as [|c p IH]; simpl; [destruct s; reflexivity|].
  rewrite Ascii.eqb_refl. exact IH.
Qed.

(** X2.  Every id [simpleHash] returns is ["user_"] followed by the base-36
    numeral of the absolute value of the hash, and [isValidUserId] accepts
    it. *)
Theorem simpleHash_valid (str : list Z) :
  exists numeral,
    simpleHash str = ("user_" ++ numeral)%string /\
    parse36 0 numeral = Z.abs (hash_of str) /\
    isValidUserId (simpleHash str) = true.
Proof.
  destruct (toString36_numeral (Z.abs (hash_of str)) (Z.abs_nonneg _)) as (Hne & Hall & Hval).
  exists (toString36 (Z.abs (hash_of str))). split; [reflexivity|]. split; [exact Hval|].
  unfold isValidUserId, simpleHash. rewrite after_prefix_app, Hall.
  destruct (toString36 (Z.abs (hash_of str))); [contradiction | reflexivity].
Qed.

(** X3.  No id [getAnonymousId] returns is accepted by [isValidUserId]: after
    ["user_"] it goes on with ["anon_"], and an underscore is not in
    [[a-z0-9]]. *)
Theorem getAnonymousId_not_valid (w : World) :
  exists anon w',
    getAnonymousId w = (Returned anon, w') /\
    db w' = db w /\
    isValidUserId anon = false.
Proof.
  unfold getAnonymousId, bind, Date_now, Math_random_base36, ret. simpl.
  eexists; eexists. split; [reflexivity|]. split; [reflexivity|].
  reflexivity.
Qed.

End UserIds.

(** ** Experience points *)

(** X4.  The gain of an experience lies between 10 and 45, and a longer
    conversation never earns less. *)
Theorem calculateExpGain_bounds (e e' : MentalistExperience) :
  10 <= calculateExpGain e <= 45 /\
  (userReaction e' = userReaction e ->
   truthy (lessonLearned e') = truthy (lessonLearned e) ->
   messageCount e <= messageCount e' ->
   calculateExpGain e <= calculateExpGain e').
Proof.
  rewrite !calculateExpGain_formula. unfold expGain_formula, reactionBonus.
  split.
  - destruct (userReaction e), (truthy (lessonLearned e)); lia.
  - intros -> -> Hle.
    destruct (userReaction e), (truthy (lessonLearned e)); lia.
Qed.

(** ** The fallback analysis *)

(** X5.  Whatever the transcript, the fallback analysis is stored as a success of
    the trick ["general_interaction"]: its reaction is amazed when a user
    message holds one of the positive words and engaged otherwise, also
    when it reports [mentalistSuccess = false]; a lesson is always present,
    so the gain is at least 25. *)
Theorem simpleAnalysis_always_success (messages : list ChatMessage.t)
  (eid mid uid sid : string) (ts dur : Z) :
  let a := simpleAnalysis messages in
  let e := build_experience eid ts mid uid sid a messages dur in
  (ConversationAnalysis.mentalistSuccess a = true -> userReaction e = amazed) /\
  (ConversationAnalysis.mentalistSuccess a = false -> userReaction e = engaged) /\
  isSuccess (userReaction e) = true /\
  trickPerformed e = "general_interaction"%string /\
  lessonLearned e = "Standard interaction"%string /\
  25 <= calculateExpGain e.
Proof.
  intros a e.
  assert (Hr : userReaction e
               = if ConversationAnalysis.mentalistSuccess a then amazed else engaged).
  { unfold e, a, simpleAnalysis, build_experience. cbn.
    destruct (existsb _ _); reflexivity. }
  assert (Hl : lessonLearned e = "Standard interaction"%string) by reflexivity.
  split; [intros H; rewrite Hr, H; reflexivity|].
  split; [intros H; rewrite Hr, H; reflexivity|].
  split; [rewrite Hr; destruct (ConversationAnalysis.mentalistSuccess a); reflexivity|].
  split; [reflexivity|]. split; [exact Hl|].
  rewrite calculateExpGain_formula, Hl, Hr. unfold expGain_formula.
  change (truthy "Standard interaction") with true. cbv iota.
  destruct (ConversationAnalysis.mentalistSuccess a); unfold reactionBonus; lia.
Qed.

(** ** Ranges of the metrics *)

(** The values an online update writes stay in range.  The counts are
    below 2^50: the product and the sum of the update are then integers
    between bounds that are doubles. *)
Lemma online_update_in_range (n c : Z) (avg rating : Q) (b : bool) :
  1 <= n < 2 ^ 50 -> 0 <= c <= n ->
  (1 <= avg <= 5)%Q -> (1 <= rating <= 5)%Q ->
  (0 <= Binary64.div (inject_Z (c + (if b then 1 else 0))) (inject_Z (n + 1)) <= 1)%Q /\
  (1 <= Binary64.div (Binary64.add (Binary64.mul avg (inject_Z n)) rating) (inject_Z (n + 1))
   <= 5)%Q.
Proof.
  intros Hn Hc Havg Hr.
  assert (Hpos : (0 < inject_Z (n + 1))%Q) by (apply inject_Z_pos; lia).
  assert (HN : (1 <= inject_Z n)%Q) by (unfold Qle; simpl; lia).
  assert (HS : (inject_Z (n + 1) == inject_Z n + 1)%Q) by (rewrite inject_Z_plus; reflexivity).
  assert (H5 : (inject_Z (5 * n) == 5 * inject_Z n)%Q) by (rewrite inject_Z_mult; reflexivity).
  assert (H55 : (inject_Z (5 * (n + 1)) == 5 * (inject_Z n + 1))%Q)
    by (rewrite inject_Z_mult, HS; reflexivity).
  split.
  - apply div_counts_range; destruct b; lia.
  - assert (P : (inject_Z n <= Binary64.mul avg (inject_Z n) <= inject_Z (5 * n))%Q).
    { apply round_between; [lia | lia |]. rewrite H5. split; nra. }
    rewrite H5 in P.
    assert (A : (inject_Z (n + 1) <= Binary64.add (Binary64.mul avg (inject_Z n)) rating
                 <= inject_Z (5 * (n + 1)))%Q).
    { apply round_between; [lia | lia |]. rewrite H55, HS. lra. }
    rewrite H55, HS in A.
    apply (round_between 1 5); [lia | lia |]. split.
    + apply Qle_shift_div_l; [exact Hpos|]. rewrite HS. change (inject_Z 1) with 1%Q. lra.
    + apply Qle_shift_div_r; [exact Hpos|]. rewrite HS. change (inject_Z 5) with 5%Q. lra.
Qed.

(** X6.  [updateTrickMetrics] keeps every metric row in range: at least one
    attempt, successes between 0 and the attempts, a success rate in [0, 1]
    and an average rating in [1, 5].  Rates and averages are doubles; the
    rows count fewer than 2^50 attempts, far below the 2^53 up to which a
    count is exact in a double. *)
Theorem updateTrickMetrics_in_range (mid : string) (e : MentalistExperience) (w : World) :
  Forall metric_in_range (t_performance_metrics (db w)) ->
  Forall (fun r => performance_metrics.total_attempts r < 2 ^ 50)
    (t_performance_metrics (db w)) ->
  Forall metric_in_range (t_performance_metrics (db (snd (updateTrickMetrics mid e w)))).
Proof.
  intros Hall Hmax.
  unfold updateTrickMetrics, bind, query, Date_now, run, run_checked, on_db. cbn [fst snd].
  destruct (SELECT_performance_metrics mid (trickPerformed e) (db w)) as [r|] eqn:Hsel;
    cbn [fst snd db].
  - unfold SELECT_performance_metrics in Hsel. apply find_some in Hsel. destruct Hsel as (Hin & _).
    rewrite Forall_forall in Hall, Hmax. pose proof (Hall r Hin) as (Hn & Hc & _ & Havg).
    destruct (online_update_in_range (performance_metrics.total_attempts r)
                (performance_metrics.success_count r)
                (performance_metrics.average_user_rating r) (rating_of e)
                (isSuccess (userReaction e)) (conj Hn (Hmax r Hin)) Hc Havg (rating_of_range e))
      as (Hrate' & Havg').
    unfold UPDATE_performance_metrics, with_performance_metrics. cbn [t_performance_metrics].
    apply Forall_forall. intros x Hx. apply in_UPDATE_WHERE in Hx.
    destruct Hx as [(y & _ & _ & ->) | (Hx & _)]; [|now apply Hall].
    unfold metric_in_range, SET_metrics. cbn.
    split; [lia|]. split; [destruct (isSuccess (userReaction e)); lia|].
    split; [exact Hrate' | exact Havg'].
  - match goal with |- context [INSERT_performance_metrics ?row ?d] =>
      destruct (INSERT_performance_metrics row d) as [err|d'] eqn:E end; cbn [fst snd db].
    + exact Hall.
    + unfold INSERT_performance_metrics in E.
      repeat match type of E with
             | (if ?b then _ else _) = _ => destruct b; try discriminate
             end.
      injection E as <-. unfold with_performance_metrics. cbn [t_performance_metrics].
      apply Forall_app. split; [exact Hall|]. constructor; [|constructor].
      unfold metric_in_range. cbn.
      split; [lia|]. split; [destruct (isSuccess (userReaction e)); lia|].
      split; [|apply rating_of_range].
      destruct (isSuccess (userReaction e)); split; apply Qle_bool_imp_le; reflexivity.
Qed.

(** ** Metrics of other pairs *)

Lemma same_id_same_row (l : list performance_metrics.row) (r r' : performance_metrics.row) :
  NoDup (map performance_metrics.id l) -> In r l -> In r' l ->
  performance_metrics.id r = performance_metrics.id r' -> r = r'.
Proof.
  induction l as [|x l IH]; intros Hnd Hr Hr' Hid; [contradiction|].
  simpl in Hnd. inversion Hnd as [|? ? Hx Hnd']; subst.
  destruct Hr as [->|Hr], Hr' as [->|Hr'].
  - reflexivity.
  - exfalso. apply Hx. rewrite Hid. now apply in_map.
  - exfalso. apply Hx. rewrite <- Hid. now apply in_map.
  - now apply IH.
Qed.

Lemma filter_map_untouched {A} (q : A -> bool) (f : A -> A) (l : list A) :
  (forall r, In r l -> (q (f r) = false /\ q r = false) \/ f r = r) ->
  filter q (map f l) = filter q l.
Proof.
  induction l as [|x l IH]; intros H; simpl; [reflexivity|].
  rewrite IH by (intros r Hr; apply H; now right).
  destruct (H x (or_introl eq_refl)) as [(H1 & H2) | H1].
  - now rewrite H1, H2.
  - now rewrite H1.
Qed.

(** X7.  In a store whose metric rows have distinct ids, [updateTrickMetrics]
    for a persona and a trick leaves the rows of every other pair as they
    are, in their order. *)
Theorem updateTrickMetrics_other_pairs (mid : string) (e : MentalistExperience) (w : World) :
  NoDup (map performance_metrics.id (t_performance_metrics (db w))) ->
  let others := fun r => negb (metric_of mid (trickPerformed e) r) in
  filter others (t_performance_metrics (db (snd (updateTrickMetrics mid e w))))
  = filter others (t_performance_metrics (db w)).
Proof.
  intros Hnd others.
  unfold updateTrickMetrics, bind, query, Date_now, run, run_checked, on_db. cbn [fst snd].
  destruct (SELECT_performance_metrics mid (trickPerformed e) (db w)) as [r|] eqn:Hsel;
    cbn [fst snd db].
  - unfold SELECT_performance_metrics in Hsel. apply find_some in Hsel.
    destruct Hsel as (Hin & Hpair).
    unfold UPDATE_performance_metrics, with_performance_metrics, UPDATE_WHERE.
    cbn [t_performance_metrics].
    apply filter_map_untouched. intros x Hx.
    destruct (String.eqb_spec (performance_metrics.id x) (performance_metrics.id r)) as [Hid|Hne];
      [|right; reflexivity].
    left. rewrite (same_id_same_row _ x r Hnd Hx Hin Hid).
    unfold others, metric_of, SET_metrics. cbn. unfold metric_of in Hpair. rewrite Hpair.
    split; reflexivity.
  - match goal with |- context [INSERT_performance_metrics ?row ?d] =>
      destruct (INSERT_performance_metrics row d) as [err|d'] eqn:E end; cbn [fst snd db].
    + reflexivity.
    + unfold INSERT_performance_metrics in E.
      repeat match type of E with
             | (if ?b then _ else _) = _ => destruct b; try discriminate
             end.
      injection E as <-. unfold with_performance_metrics. cbn [t_performance_metrics].
      rewrite filter_app. cbn [filter]. unfold others at 2, metric_of.
      cbn. rewrite !String.eqb_refl. cbn. apply app_nil_r.
Qed.

(** ** Outcomes of a session *)

(** X8.  [captureExperience] does not look for an outcome of the session: every
    accepted capture stores one more, whether the session had outcomes
    already or not. *)
Theorem captureExperience_one_more_outcome mid uid sid a msgs dur w :
  experience_id_fresh w ->
  persona_admitted mid (db w) ->
  let w' := snd (captureExperience mid uid sid a msgs dur w) in
  List.length (outcomes_of sid (db w')) = S (List.length (outcomes_of sid (db w))).
Proof.
  intros Hfresh Hfk w'.
  destruct (captureExperience_effect mid uid sid a msgs dur w Hfresh Hfk)
    as (c & w1 & w2 & Hcap & Hstats & _ & Hframe).
  destruct (updateMentalistStats_effect mid (captured w mid uid sid a msgs dur)
              (on_db (with_experiences
                 (fun t => t ++ [experience_row (captured w mid uid sid a msgs dur)
                                   (timestamp (captured w mid uid sid a msgs dur))]))
                 (advance 2 1 w)))
    as (w2' & Hstats' & _ & Fexp & _).
  assert (w2' = w2) by congruence. subst w2'.
  destruct Hframe as (_ & _ & Gexp & _).
  unfold w', outcomes_of. rewrite Hcap. cbn [snd]. rewrite Gexp, Fexp. cbn [t_experiences db on_db advance with_experiences].
  rewrite filter_app, length_app. cbn. rewrite String.eqb_refl. cbn. lia.
Qed.

(** ** EnhancedChat: sessions and their messages *)

Section Sessions.

(** What the three operations do to the store. *)
Lemma getOrCreateSession_db u m w :
  db (snd (getOrCreateSession u m w)) = db w \/
  (filter (active_for u m) (t_chat_sessions (db w)) = [] /\
   has_session (next_session_id w) (db w) = false /\
   db (snd (getOrCreateSession u m w))
   = with_chat_sessions (fun t => t ++ [new_session_row u m w]) (db w)).
Proof.
  unfold getOrCreateSession, bind, query, Date_now, Math_random_base36, run_checked, ret, on_db.
  cbn [fst snd]. unfold SELECT_active_session.
  destruct (filter (active_for u m) (t_chat_sessions (db w))) as [|r rows] eqn:Hf;
    [|left; reflexivity].
  cbn [fst snd db reads draws clock entropy]. fold (next_session_id w).
  unfold INSERT_chat_sessions. cbn [db].
  destruct (has_session (next_session_id w) (db w)) eqn:Hfree; [left; reflexivity|].
  destruct (foreign_keys (db w) && negb (has_mentalist m (db w))); [left; reflexivity|].
  right. repeat split.
Qed.

Lemma saveMessage_db sid role content w :
  db (snd (saveMessage sid role content w)) = db w \/
  (fst (saveMessage sid role content w) = Returned tt /\
   (foreign_keys (db w) = true -> has_session sid (db w) = true) /\
   db (snd (saveMessage sid role content w))
   = UPDATE_message_count sid
       (with_session_messages (fun t => t ++ [message_row sid role content w]) (db w))).
Proof.
  unfold saveMessage, bind, Date_now, Math_random_base36, run_checked, run, on_db.
  cbn [fst snd db reads draws clock entropy]. fold (next_message_id w).
  fold (message_row sid role content w).
  unfold INSERT_session_messages. cbn [db].
  destruct (existsb _ (t_session_messages (db w))); [left; reflexivity|].
  destruct (foreign_keys (db w) && negb (has_session _ (db w))) eqn:Hfk; [left; reflexivity|].
  right. cbn [fst snd db]. split; [reflexivity|]. split; [|reflexivity].
  intros Hon. rewrite Hon in Hfk. cbn in Hfk. now apply negb_false_iff in Hfk.
Qed.

Lemma endSession_db sid w :
  db (snd (endSession sid w)) = UPDATE_end_session (clock w (reads w) / 1000) sid (db w).
Proof. reflexivity. Qed.

Lemma filter_length_map_le {A} (q : A -> bool) (f : A -> A) (l : list A) :
  (forall r, q (f r) = true -> q r = true) ->
  (List.length (filter q (map f l)) <= List.length (filter q l))%nat.
Proof.
  intros H. induction l as [|x l IH]; simpl; [lia|].
  destruct (q (f x)) eqn:E.
  - rewrite (H x E). simpl. lia.
  - destruct (q x); simpl; lia.
Qed.



(** *** One active session per user and persona *)

(** X9.  Whatever their arguments and however they end, [getOrCreateSession],
    [saveMessage] and [endSession] keep a store in which no user has two
    active sessions with one persona in that state. *)
Theorem EnhancedChat_one_active_session (w : World) :
  one_active_session (db w) ->
  (forall userId mentalistId,
     one_active_session (db (snd (getOrCreateSession userId mentalistId w)))) /\
  (forall sessionId role content,
     one_active_session (db (snd (saveMessage sessionId role content w)))) /\
  (forall sessionId, one_active_session (db (snd (endSession sessionId w)))).
Proof.
  intros Hone. split; [|split].
  - intros u m. destruct (getOrCreateSession_db u m w) as [-> | (Hnone & _ & ->)];
      [exact Hone|].
    intros u' m'. cbn [t_chat_sessions with_chat_sessions]. rewrite filter_app, length_app.
    cbn [filter]. unfold active_for at 2. cbn [new_session_row chat_sessions.user_id
      chat_sessions.mentalist_id chat_sessions.is_active].
    destruct (String.eqb_spec u u') as [<-|Hu]; cbn [andb].
    + destruct (String.eqb_spec m m') as [<-|Hm]; cbn [andb List.length].
      * rewrite Hnone. cbn. lia.
      * specialize (Hone u m'). lia.
    + specialize (Hone u' m'). cbn. lia.
  - intros sid role content.
    destruct (saveMessage_db sid role content w) as [-> | (_ & _ & ->)]; [exact Hone|].
    intros u m. unfold UPDATE_message_count.
    cbn [t_chat_sessions with_chat_sessions with_session_messages]. unfold UPDATE_WHERE.
    etransitivity; [apply filter_length_map_le | apply Hone].
    intros r. destruct (chat_sessions.id r =? sid)%string; [|tauto].
    unfold active_for. destruct r; exact (fun H => H).
  - intros sid. rewrite endSession_db. intros u m. unfold UPDATE_end_session.
    cbn [t_chat_sessions with_chat_sessions]. unfold UPDATE_WHERE.
    etransitivity; [apply filter_length_map_le | apply Hone].
    intros r. destruct (chat_sessions.id r =? sid)%string; [|tauto].
    unfold active_for. cbn. rewrite andb_false_r. discriminate.
Qed.

(** *** The message counter *)


(** *** Reading the log back *)

Lemma saveMessage_returned sid role content w w' :
  saveMessage sid role content w = (Returned tt, w') ->
  db w' = UPDATE_message_count sid
            (with_session_messages (fun t => t ++ [message_row sid role content w]) (db w)).
Proof.
  unfold saveMessage, bind, Date_now, Math_random_base36, run_checked, run, on_db.
  cbn [fst snd db reads draws clock entropy]. fold (next_message_id w).
  fold (message_row sid role content w).
  unfold INSERT_session_messages. cbn [db].
  destruct (existsb _ (t_session_messages (db w))); [discriminate|].
  destruct (foreign_keys (db w) && negb (has_session _ (db w))); [discriminate|].
  cbn [fst snd db]. intros H. injection H as <-. reflexivity.
Qed.

Lemma insert_by_key_last {A} (key : A -> Z) (x n : A) (l : list A) :
  key x <= key n ->
  insert_by_key key x (l ++ [n]) = insert_by_key key x l ++ [n].
Proof.
  intros H. induction l as [|y l IH]; simpl.
  - apply Z.leb_le in H. now rewrite H.
  - destruct (key x <=? key y); [reflexivity|]. now rewrite IH.
Qed.

Lemma ORDER_BY_ASC_last {A} (key : A -> Z) (n : A) (l : list A) :
  (forall x, In x l -> key x <= key n) ->
  ORDER_BY_ASC key (l ++ [n]) = ORDER_BY_ASC key l ++ [n].
Proof.
  unfold ORDER_BY_ASC. induction l as [|x l IH]; intros H; simpl; [reflexivity|].
  rewrite IH by (intros y Hy; apply H; now right).
  apply insert_by_key_last. apply H. now left.
Qed.

(** X11.  A message saved with a timestamp later than those of the messages its
    session has comes back from [getSessionMessages] as the last message of
    that session, after the earlier ones in the order they had; the messages
    of every other session come back as before. *)
Theorem getSessionMessages_after_saveMessage sid role content w w' :
  saveMessage sid role content w = (Returned tt, w') ->
  (forall m, In m (messages_of sid (db w)) ->
             session_messages.timestamp m < clock w (S (reads w)) / 1000) ->
  exists earlier,
    getSessionMessages sid w = (Returned earlier, w) /\
    getSessionMessages sid w'
    = (Returned (earlier ++
         [ {| TimedMessage.role := role;
              TimedMessage.content := content;
              TimedMessage.timestamp := clock w (S (reads w)) / 1000 * 1000 |} ]), w') /\
    (forall other, other <> sid ->
       fst (getSessionMessages other w') = fst (getSessionMessages other w)).
Proof.
  intros Hsave Hlater. apply saveMessage_returned in Hsave.
  exists (map timed (SELECT_session_messages sid (db w))).
  split; [reflexivity|].
  unfold getSessionMessages, bind, query, ret. cbn [fst snd].
  unfold SELECT_session_messages, messages_of. rewrite Hsave.
  unfold UPDATE_message_count. cbn [t_session_messages with_chat_sessions with_session_messages].
  split.
  - rewrite filter_app. cbn [filter message_row session_messages.session_id].
    rewrite String.eqb_refl. fold (message_row sid role content w).
    rewrite ORDER_BY_ASC_last.
    + rewrite map_app. reflexivity.
    + intros x Hx. specialize (Hlater x Hx). cbn [message_row session_messages.timestamp]. lia.
  - intros other Hne. rewrite filter_app. cbn [filter message_row session_messages.session_id].
    apply String.eqb_neq in Hne. rewrite String.eqb_sym, Hne. now rewrite app_nil_r.
Qed.

(** *** Ending a session *)




(** X13.  [saveMessage] does not look at [is_active]: a message for a session
    that has been ended is stored and counted like any other, and the
    session stays ended, with the end time it was given. *)
Theorem saveMessage_after_endSession sid role content w s :
  session_row sid (db w) = Some s ->
  let w1 := snd (endSession sid w) in
  message_id_fresh w1 ->
  exists w2 s2,
    saveMessage sid role content w1 = (Returned tt, w2) /\
    t_session_messages (db w2) = t_session_messages (db w) ++ [message_row sid role content w1] /\
    session_row sid (db w2) = Some s2 /\
    chat_sessions.is_active s2 = false /\
    chat_sessions.end_time s2 = Some (clock w (reads w) / 1000) /\
    chat_sessions.message_count s2 = chat_sessions.message_count s + 1.
Proof.
  intros Hs w1 Hfresh.
  assert (Hs1 : session_row sid (db w1) = Some (SET_ended (clock w (reads w) / 1000) s)).
  { unfold w1. rewrite endSession_run. cbn [snd db on_db advance].
    unfold session_row, UPDATE_end_session in *. cbn [t_chat_sessions with_chat_sessions].
    rewrite (find_UPDATE_WHERE chat_sessions.id (SET_ended _) (fun _ => eq_refl)), Hs.
    cbn. now rewrite (find_some_holds _ _ _ Hs). }
  assert (Hmsgs : t_session_messages (db w1) = t_session_messages (db w)) by reflexivity.
  revert Hfresh Hs1 Hmsgs. generalize w1. clear w1. intros w1 Hfresh Hs1 Hmsgs.
  unfold message_id_fresh in Hfresh.
  unfold saveMessage, bind, Date_now, Math_random_base36, run_checked, run, on_db.
  cbn [fst snd db reads draws clock entropy]. fold (next_message_id w1).
  fold (message_row sid role content w1).
  unfold INSERT_session_messages. cbn [db message_row session_messages.id
    session_messages.session_id].
  rewrite Hfresh.
  pose proof (find_existsb _ _ _ Hs1) as Hhas. unfold has_session. rewrite Hhas.
  rewrite andb_false_r. cbn [fst snd db].
  eexists; eexists. split; [reflexivity|].
  unfold UPDATE_message_count.
  cbn [t_session_messages t_chat_sessions with_chat_sessions with_session_messages db].
  split; [now rewrite Hmsgs|].
  unfold session_row in *. cbn [t_chat_sessions with_chat_sessions with_session_messages].
  rewrite (find_UPDATE_WHERE chat_sessions.id SET_message_count (fun _ => eq_refl)), Hs1.
  cbn. rewrite (find_some_holds _ _ _ Hs). cbn. repeat split.
Qed.

End Sessions.

(** ** The route that ends a session *)

(** What [captureExperience] leaves in the store, however it ends: the chat
    log is untouched, and the experience row is stored unless the call threw
    at its INSERT. *)
Lemma captureExperience_log mid uid sid a msgs dur w :
  let e := captured w mid uid sid a msgs dur in
  let r := captureExperience mid uid sid a msgs dur w in
  t_chat_sessions (db (snd r)) = t_chat_sessions (db w) /\
  t_session_messages (db (snd r)) = t_session_messages (db w) /\
  (((exists err, fst r = Thrown err) /\ t_experiences (db (snd r)) = t_experiences (db w)) \/
   (t_experiences (db (snd r)) = t_experiences (db w) ++ [experience_row e (timestamp e)] /\
    (forall x, fst r = Returned x -> x = e))).
Proof.
  intros e r. subst r.
  destruct (INSERT_experiences (experience_row e (timestamp e)) (db w)) as [err|d1] eqn:Hins.
  - rewrite (captureExperience_refused mid uid sid a msgs dur w err Hins). cbn [fst snd advance db].
    split; [reflexivity|]. split; [reflexivity|]. left. split; [now exists err | reflexivity].
  - destruct (captureExperience_accepted mid uid sid a msgs dur w d1 Hins) as (w2 & Hstats & ->).
    fold e in Hstats |- *.
    apply INSERT_experiences_inr in Hins. destruct Hins as (-> & _).
    destruct (updateMentalistStats_effect mid e
                (on_db (fun _ => with_experiences
                          (fun t => t ++ [experience_row e (timestamp e)]) (db w))
                   (advance 2 1 w)))
      as (w2' & Hstats' & _ & Fexp & _ & Fses & Fmsg & _).
    assert (w2' = w2) by congruence. subst w2'.
    destruct (updateTrickMetrics_frame mid e w2) as (_ & _ & Gexp & Gses & Gmsg & _).
    cbn [fst snd]. rewrite Gses, Gmsg, Gexp, Fses, Fmsg, Fexp.
    cbn [db on_db advance t_chat_sessions t_session_messages t_experiences with_experiences].
    split; [reflexivity|]. split; [reflexivity|]. right. split; [reflexivity|].
    intros x Hx. destruct (fst (updateTrickMetrics mid e w2)); [|discriminate].
    now injection Hx as <-.
Qed.


Ltac answered_at_once H :=
  injection H as <- <-;
  cbn; split; [first [right; left; reflexivity | right; right; reflexivity]|];
  split; [intros _; reflexivity|];
  split; [intros _; split; reflexivity|]; intros H; discriminate H.

Section SessionEndFacts.

Variable remote_analysis : string -> list TimedMessage.t -> option AIAnalysisResponse.t.

(** The part of the handler after the two checks. *)
Lemma session_end_capture sid mid uid msgs dur a w0 w1 :
  db w1 = db w0 ->
  let tail :=
    (experience <- captureExperience mid uid sid a msgs dur ;;
     endSession sid ;;
     ret {| status := 200;
            payload := success (id experience) (userReaction experience)
                         (trickPerformed experience) (lessonLearned experience) |}) w1 in
  match fst tail with
  | Thrown _ =>
      t_chat_sessions (db (snd tail)) = t_chat_sessions (db w0) /\
      t_session_messages (db (snd tail)) = t_session_messages (db w0)
  | Returned r =>
      status r = 200 /\
      exists row,
        t_experiences (db (snd tail)) = t_experiences (db w0) ++ [row] /\
        experiences.session_id row = sid /\
        payload r = success (experiences.id row) (experiences.user_reaction row)
                      (experiences.trick_performed row) (experiences.lesson_learned row) /\
        (forall s, In s (t_chat_sessions (db (snd tail))) -> chat_sessions.id s = sid ->
                   chat_sessions.is_active s = false)
  end.
Proof.
  intros Hdb tail. subst tail. unfold bind.
  pose proof (captureExperience_log mid uid sid a msgs dur w1) as (Hses & Hmsg & Hexp).
  cbv zeta in Hses, Hmsg, Hexp.
  destruct (captureExperience mid uid sid a msgs dur w1) as [[e|err] w2]; cbn [fst snd] in *.
  - destruct Hexp as [((err & Habs) & _) | (Hexp & He)]; [discriminate|].
    specialize (He e eq_refl). rewrite endSession_run. cbn [fst snd ret].
    split; [reflexivity|].
    exists (experience_row (captured w1 mid uid sid a msgs dur)
              (timestamp (captured w1 mid uid sid a msgs dur))).
    cbn [db on_db advance]. split; [|split; [|split]].
    + unfold UPDATE_end_session. cbn [t_experiences with_chat_sessions].
      rewrite Hexp, Hdb. reflexivity.
    + reflexivity.
    + rewrite He. reflexivity.
    + pose proof (endSession_deactivates sid w2) as (Hoff & _).
      rewrite endSession_run in Hoff. exact Hoff.
  - rewrite Hses, Hmsg, Hdb. split; reflexivity.
Qed.

Lemma POST_api_session_end_cases apiKey body w r w' :
  POST_api_session_end remote_analysis apiKey body w = (r, w') ->
  (status r = 200 \/ status r = 400 \/ status r = 500) /\
  (status r = 400 -> w' = w) /\
  (status r <> 200 ->
     t_chat_sessions (db w') = t_chat_sessions (db w) /\
     t_session_messages (db w') = t_session_messages (db w)) /\
  (status r = 200 ->
     exists b row,
       body = Some b /\
       messages_of (field (SessionEndBody.sessionId b)) (db w) <> [] /\
       t_experiences (db w') = t_experiences (db w) ++ [row] /\
       experiences.session_id row = field (SessionEndBody.sessionId b) /\
       payload r = success (experiences.id row) (experiences.user_reaction row)
                     (experiences.trick_performed row) (experiences.lesson_learned row) /\
       (forall s, In s (t_chat_sessions (db w')) ->
                  chat_sessions.id s = field (SessionEndBody.sessionId b) ->
                  chat_sessions.is_active s = false)).
Proof.
  unfold POST_api_session_end. intros H.
  destruct (negb (truthy (field apiKey))); [answered_at_once H|].
  destruct body as [b|]; [|answered_at_once H].
  unfold session_end_try in H.
  set (sid := field (SessionEndBody.sessionId b)) in *.
  set (mid := field (SessionEndBody.mentalistId b)) in *.
  set (uid := field (SessionEndBody.userId b)) in *.
  destruct (negb (truthy sid) || negb (truthy mid) || negb (truthy uid));
    [answered_at_once H|].
  unfold getSessionMessages in H. unfold bind at 1 2 in H. unfold query at 1 in H.
  cbn [fst snd ret] in H.
  destruct (List.length (map timed (SELECT_session_messages sid (db w))) =? 0)%nat eqn:Hlen;
    [answered_at_once H|].
  assert (Hsome : messages_of sid (db w) <> []).
  { intros Hnil. unfold SELECT_session_messages in Hlen. rewrite Hnil in Hlen. discriminate. }
  set (msgs := map timed (SELECT_session_messages sid (db w))) in *.
  unfold bind at 1 in H. unfold query at 1 in H. cbn [fst snd] in H.
  assert (Hdur : exists dur w1,
             match SELECT_start_time sid (db w) with
             | Some start_time => now <- Date_now ;; ret (now / 1000 - start_time)
             | None => ret 0
             end w = (Returned dur, w1) /\ db w1 = db w).
  { destruct (SELECT_start_time sid (db w)); eexists; eexists; split; reflexivity. }
  destruct Hdur as (dur & w1 & Hdur & Hdb).
  unfold bind at 1 in H. rewrite Hdur in H.
  assert (Ha : exists a, analyzeConversation remote_analysis mid msgs w1 = (Returned a, w1)).
  { unfold analyzeConversation. destruct (remote_analysis mid msgs); eexists; reflexivity. }
  destruct Ha as (a & Ha).
  unfold bind at 1 in H. rewrite Ha in H.
  unfold captureExperience_unvalidated in H.
  destruct (Unvalidated.usable a) as [a'|].
  - pose proof (session_end_capture sid mid uid (map as_ChatMessage msgs) dur a' w w1 Hdb)
      as Htail.
    cbv zeta in Htail.
    match type of Htail with
    | match fst ?t with _ => _ end => destruct t as [[resp|err] w2]
    end; cbn [fst snd] in *; injection H as <- <-.
    + destruct Htail as (Hst & row & Hexp & Hsid & Hpay & Hoff).
      split; [left; exact Hst|]. split; [rewrite Hst; discriminate|].
      split; [intros Hne; contradiction|].
      intros _. exists b, row. repeat split; assumption.
    + destruct Htail as (Hses & Hmsg).
      split; [right; right; reflexivity|]. split; [discriminate|].
      split; [intros _; split; assumption|]. discriminate.
  - cbn in H. injection H as <- <-. cbn [status db].
    split; [right; right; reflexivity|]. split; [discriminate|].
    split; [intros _; rewrite Hdb; split; reflexivity|]. discriminate.
Qed.

(** X14.  The three kinds of answer of [POST /api/session/end].  The status is
    200, 400 or 500.  With 400 nothing was written.  With any status but 200
    the chat log is as before: the session was not ended.  With 200 the body
    named a session that had messages, exactly one experience row was
    appended, for that session, the answer carries its id, reaction, trick
    and lesson, and no session of that id is active any more. *)
Theorem POST_api_session_end_answers apiKey body w :
  let answer := POST_api_session_end remote_analysis apiKey body w in
  let r := fst answer in
  let w' := snd answer in
  (status r = 200 \/ status r = 400 \/ status r = 500) /\
  (status r = 400 -> w' = w) /\
  (status r <> 200 ->
     t_chat_sessions (db w') = t_chat_sessions (db w) /\
     t_session_messages (db w') = t_session_messages (db w)) /\
  (status r = 200 ->
     exists b row,
       body = Some b /\
       messages_of (field (SessionEndBody.sessionId b)) (db w) <> [] /\
       t_experiences (db w') = t_experiences (db w) ++ [row] /\
       experiences.session_id row = field (SessionEndBody.sessionId b) /\
       payload r = success (experiences.id row) (experiences.user_reaction row)
                     (experiences.trick_performed row) (experiences.lesson_learned row) /\
       (forall s, In s (t_chat_sessions (db w')) ->
                  chat_sessions.id s = field (SessionEndBody.sessionId b) ->
                  chat_sessions.is_active s = false)).
Proof.
  intros answer r w'. subst r w' answer.
  destruct (POST_api_session_end remote_analysis apiKey body w) as [r w'] eqn:E.
  cbn [fst snd]. exact (POST_api_session_end_cases apiKey body w r w' E).
Qed.






End SessionEndFacts.

(** ** UserMemoryService *)

(** The experience row of an accepted capture is stored, however the call
    ends. *)
Lemma captureExperience_stored mid uid sid a msgs dur w :
  experience_id_fresh w ->
  persona_admitted mid (db w) ->
  let e := captured w mid uid sid a msgs dur in
  t_experiences (db (snd (captureExperience mid uid sid a msgs dur w)))
  = t_experiences (db w) ++ [experience_row e (timestamp e)].
Proof.
  intros Hfresh Hfk e.
  destruct (captureExperience_effect mid uid sid a msgs dur w Hfresh Hfk)
    as (c & w' & w2 & Hcap & Hstats & _ & Hframe).
  fold e in Hstats.
  destruct (updateMentalistStats_effect mid e
              (on_db (with_experiences (fun t => t ++ [experience_row e (timestamp e)]))
                 (advance 2 1 w)))
    as (w2' & Hstats' & _ & Fexp & _).
  assert (w2' = w2) by congruence. subst w2'.
  destruct Hframe as (_ & _ & Gexp & _).
  rewrite Hcap. cbn [snd]. rewrite Gexp, Fexp. reflexivity.
Qed.

Section UserMemory.

Import UserMemoryService.

(** X16.  The phrase [sentimentToText] gives for a sentiment and the reaction
    [mapSentimentToReaction] stores for it go by the same thresholds: two
    sentiments get the same phrase exactly when they get the same
    reaction. *)
Theorem sentimentToText_by_reaction (s1 s2 : Q) :
  sentimentToText s1 = sentimentToText s2 <->
  mapSentimentToReaction s1 = mapSentimentToReaction s2.
Proof.
  unfold sentimentToText, mapSentimentToReaction.
  destruct (Qle_bool (7 # 10) s1), (Qle_bool (3 # 10) s1), (Qle_bool (- (3 # 10)) s1),
    (Qle_bool (- (7 # 10)) s1), (Qle_bool (7 # 10) s2), (Qle_bool (3 # 10) s2),
    (Qle_bool (- (3 # 10)) s2), (Qle_bool (- (7 # 10)) s2);
    split; intros H; first [reflexivity | discriminate H].
Qed.

(** X17.  Once the experience row of a capture is accepted, [isReturningUser]
    answers true for that user and persona, also when the capture then
    throws at its metric statement; for every other user or persona it
    answers as before. *)
Theorem isReturningUser_after_capture mid uid sid a msgs dur w :
  experience_id_fresh w ->
  persona_admitted mid (db w) ->
  let w' := snd (captureExperience mid uid sid a msgs dur w) in
  isReturningUser uid mid w' = (Returned true, w') /\
  (forall u m, u <> uid \/ m <> mid ->
     fst (isReturningUser u m w') = fst (isReturningUser u m w)).
Proof.
  intros Hfresh Hfk w'.
  pose proof (captureExperience_stored mid uid sid a msgs dur w Hfresh Hfk) as Hrows.
  cbv zeta in Hrows. fold w' in Hrows.
  set (row := experience_row (captured w mid uid sid a msgs dur)
                (timestamp (captured w mid uid sid a msgs dur))) in *.
  assert (Hpair : forall u m,
            of_pair u m row = (uid =? u)%string && (mid =? m)%string) by reflexivity.
  unfold isReturningUser, bind, query, ret, SELECT_COUNT_experiences, count. cbn [fst snd].
  rewrite Hrows. split.
  - f_equal. f_equal. rewrite filter_app, length_app. cbn [filter].
    rewrite Hpair, !String.eqb_refl. cbn [andb List.length]. apply Z.ltb_lt. lia.
  - intros u m Hne. f_equal. f_equal. f_equal. rewrite filter_app. cbn [filter].
    rewrite Hpair.
    assert (Hno : (uid =? u)%string && (mid =? m)%string = false).
    { destruct Hne as [Hu | Hm].
      - apply not_eq_sym, String.eqb_neq in Hu. now rewrite Hu.
      - apply not_eq_sym, String.eqb_neq in Hm. rewrite Hm. apply andb_false_r. }
    rewrite Hno. now rewrite app_nil_r.
Qed.

End UserMemory.

(** ** Event streams *)

Section Lines.

Variable sep : ascii.

Lemma split_on_nonempty (s : string) : split_on sep s <> [].
Proof.
  destruct s as [|c s]; simpl; [discriminate|].
  destruct (c =? sep)%char; [discriminate|]. destruct (split_on sep s); discriminate.
Qed.

Lemma last_app_nonempty {A} (l l' : list A) (d : A) :
  l' <> [] -> last (l ++ l') d = last l' d.
Proof.
  intros H. induction l as [|x l IH]; [reflexivity|].
  simpl. destruct (l ++ l') eqn:E; [|exact IH].
  apply app_eq_nil in E. destruct E as (_ & E). contradiction.
Qed.

(** Cutting a text that goes on: the last piece of the first part is joined
    with what follows. *)
Lemma split_on_app (s t : string) :
  split_on sep (s ++ t)
  = removelast (split_on sep s) ++ split_on sep (last (split_on sep s) EmptyString ++ t).
Proof.
  induction s as [|c s IH]; [reflexivity|].
  cbn [String.append split_on]. destruct (c =? sep)%char eqn:Ec.
  - rewrite IH. pose proof (split_on_nonempty s) as Hne.
    destruct (split_on sep s) as [|h tl]; [contradiction|]. reflexivity.
  - rewrite IH. pose proof (split_on_nonempty s) as Hne.
    destruct (split_on sep s) as [|h tl]; [contradiction|].
    destruct tl as [|h' tl].
    + cbn [removelast last app String.append split_on]. rewrite Ec. reflexivity.
    + reflexivity.
Qed.

Lemma split_on_alone (s : string) : has_char sep s = false <-> split_on sep s = [s].
Proof.
  induction s as [|c s IH]; simpl; [tauto|].
  destruct (c =? sep)%char; simpl.
  - split; [discriminate|]. intros H. injection H as H. discriminate H.
  - rewrite IH. pose proof (split_on_nonempty s) as Hne.
    destruct (split_on sep s) as [|h tl]; [contradiction|]. split.
    + intros H. injection H as -> ->. reflexivity.
    + intros H. injection H as -> ->. reflexivity.
Qed.

Lemma has_char_app (s t : string) : has_char sep (s ++ t) = has_char sep s || has_char sep t.
Proof.
  induction s as [|c s IH]; simpl; [reflexivity|]. now rewrite IH, orb_assoc.
Qed.

(** No piece of a cut text holds the separator. *)
Lemma split_on_pieces (s x : string) : In x (split_on sep s) -> has_char sep x = false.
Proof.
  revert x. induction s as [|c s IH]; intros x; simpl.
  - intros [<- | []]. reflexivity.
  - destruct (c =? sep)%char eqn:Ec.
    + intros [<- | H]; [reflexivity | now apply IH].
    + pose proof (split_on_nonempty s) as Hne.
      destruct (split_on sep s) as [|h tl]; [contradiction|].
      intros [<- | H].
      * simpl. rewrite Ec. apply IH. now left.
      * apply IH. now right.
Qed.

Lemma split_on_last (s : string) : has_char sep (last (split_on sep s) EmptyString) = false.
Proof.
  apply split_on_pieces with (s := s).
  pose proof (split_on_nonempty s) as Hne.
  destruct (split_on sep s) as [|h tl] using rev_ind; [contradiction|].
  rewrite last_last. apply in_or_app. right. now left.
Qed.

(** A piece and what follows its separator. *)
Lemma split_on_line (l rest : string) :
  has_char sep l = false ->
  split_on sep (l ++ String sep EmptyString ++ rest) = l :: split_on sep rest.
Proof.
  induction l as [|c l IH]; intros H.
  { cbn [String.append split_on]. now rewrite Ascii.eqb_refl. }
  cbn [has_char] in H. apply orb_false_iff in H. destruct H as (Hc & Hl).
  specialize (IH Hl). cbn [String.append split_on] in IH |- *.
  rewrite Hc, IH. reflexivity.
Qed.

End Lines.

Section Chunks.

Lemma text_of_app (cs cs' : list string) :
  text_of (cs ++ cs') = (text_of cs ++ text_of cs')%string.
Proof.
  unfold text_of. induction cs as [|c cs IH]; [reflexivity|].
  cbn [app fold_right]. now rewrite IH, String_app_assoc.
Qed.

(** The reading loops, chunk by chunk, are a loop over the complete lines
    of the whole text; the unfinished last line stays in the buffer. *)
Lemma read_loop {S} (step : S -> string -> S) (cs : list string) :
  forall (buffer : string) (s : S),
    has_char LF buffer = false ->
    fold_left
      (fun state chunk =>
         let lines := split_on LF (fst state ++ chunk) in
         (last lines EmptyString, fold_left step (removelast lines) (snd state)))
      cs (buffer, s)
    = (last (split_on LF (buffer ++ text_of cs)) EmptyString,
       fold_left step (removelast (split_on LF (buffer ++ text_of cs))) s).
Proof.
  induction cs as [|c cs IH]; intros buffer s Hb.
  - cbn [fold_left text_of fold_right]. rewrite String_app_nil_r.
    apply split_on_alone in Hb. rewrite Hb. reflexivity.
  - cbn [fold_left fst snd]. rewrite IH by apply split_on_last.
    change (text_of (c :: cs)) with (c ++ text_of cs)%string.
    rewrite <- (String_app_assoc buffer c (text_of cs)).
    rewrite (split_on_app LF (buffer ++ c) (text_of cs)).
    pose proof (split_on_nonempty LF
                  (last (split_on LF (buffer ++ c)) EmptyString ++ text_of cs)) as Hne.
    rewrite last_app_nonempty by exact Hne.
    rewrite removelast_app by exact Hne.
    rewrite fold_left_app. reflexivity.
Qed.

End Chunks.

Section EventStreamFacts.

Variable trim : string -> string.
Variable delta_content : string -> string.
Variable message_of : D1Error -> string.

(** What [relay_enhanced] has collected and written when the stream ends
    depends on the complete lines of the text only. *)
Lemma relay_enhanced_lines (cs : list string) :
  snd (fold_left (relay_read trim delta_content) cs
         (EmptyString, {| fullResponse := EmptyString; written := [] |}))
  = fold_left (relay_line trim delta_content) (removelast (split_on LF (text_of cs)))
      {| fullResponse := EmptyString; written := [] |}.
Proof.
  pose proof (read_loop (relay_line trim delta_content) cs EmptyString
                {| fullResponse := EmptyString; written := [] |} eq_refl) as H.
  unfold relay_read. cbv zeta in H. rewrite H. reflexivity.
Qed.

(** X18.  The relay of [/api/chat/enhanced] does not depend on how the text of
    the response arrives in chunks: two bodies of the same text that end the
    same way give the same writes to the client and the same store, saved
    reply included. *)
Theorem relay_enhanced_chunking (sessionId : string) (cs cs' : list string) (e : Ending)
  (w : World) :
  text_of cs = text_of cs' ->
  relay_enhanced trim delta_content message_of sessionId
    (Some {| chunks := cs; ending := e |}) w
  = relay_enhanced trim delta_content message_of sessionId
      (Some {| chunks := cs'; ending := e |}) w.
Proof.
  intros H. unfold relay_enhanced. cbn [chunks ending].
  rewrite !relay_enhanced_lines, H. reflexivity.
Qed.

(** X19.  A last line that is not closed by a line feed is lost: it is neither
    written to the client nor part of the saved reply, whatever it holds. *)
Theorem relay_enhanced_unfinished_line (sessionId : string) (cs : list string)
  (tail : string) (e : Ending) (w : World) :
  has_char LF tail = false ->
  relay_enhanced trim delta_content message_of sessionId
    (Some {| chunks := cs ++ [tail]; ending := e |}) w
  = relay_enhanced trim delta_content message_of sessionId
      (Some {| chunks := cs; ending := e |}) w.
Proof.
  intros H. unfold relay_enhanced. cbn [chunks ending].
  rewrite !relay_enhanced_lines.
  assert (Hlines : removelast (split_on LF (text_of (cs ++ [tail])))
                   = removelast (split_on LF (text_of cs))).
  { rewrite text_of_app. change (text_of [tail]) with (tail ++ EmptyString)%string.
    rewrite String_app_nil_r, split_on_app.
    assert (Hlast : has_char LF (last (split_on LF (text_of cs)) EmptyString ++ tail) = false)
      by (rewrite has_char_app, split_on_last, H; reflexivity).
    apply split_on_alone in Hlast. rewrite Hlast.
    rewrite removelast_app by discriminate. cbn [removelast]. apply app_nil_r. }
  rewrite Hlines. reflexivity.
Qed.

(** *** The reader of the client *)

Lemma read_lines_app (l1 l2 : list string) :
  read_lines trim delta_content (l1 ++ l2)
  = (let (c1, r1) := read_lines trim delta_content l1 in
     if r1 then (c1, true)
     else let (c2, r2) := read_lines trim delta_content l2 in (c1 ++ c2, r2)).
Proof.
  induction l1 as [|l l1 IH]; cbn [app read_lines].
  - destruct (read_lines trim delta_content l2); reflexivity.
  - destruct (passed_over (trim l)); [exact IH|].
    destruct (from_6 (trim l) =? "[DONE]")%string; [reflexivity|].
    rewrite IH. destruct (read_lines trim delta_content l1) as [c1 [|]]; [reflexivity|].
    destruct (read_lines trim delta_content l2) as [c2 r2]. now rewrite app_assoc.
Qed.

(** The calls of the reader are those of one pass over the complete lines
    of the whole text. *)
Lemma read_stream_lines (failure : string) (e : Ending) (cs : list string) :
  forall buffer,
    has_char LF buffer = false ->
    read_stream trim delta_content failure buffer cs e
    = (let (calls, returned) :=
         read_lines trim delta_content (removelast (split_on LF (buffer ++ text_of cs))) in
       if returned then calls
       else calls ++ match e with
                     | done => [onDone]
                     | rejected _ => [onError failure]
                     end).
Proof.
  induction cs as [|c cs IH]; intros buffer Hb.
  - cbn [read_stream text_of fold_right]. rewrite String_app_nil_r.
    apply split_on_alone in Hb. rewrite Hb. reflexivity.
  - cbn [read_stream]. change (text_of (c :: cs)) with (c ++ text_of cs)%string.
    rewrite <- (String_app_assoc buffer c (text_of cs)).
    rewrite (split_on_app LF (buffer ++ c) (text_of cs)).
    pose proof (split_on_nonempty LF
                  (last (split_on LF (buffer ++ c)) EmptyString ++ text_of cs)) as Hne.
    rewrite removelast_app by exact Hne. rewrite read_lines_app.
    destruct (read_lines trim delta_content (removelast (split_on LF (buffer ++ c))))
      as [c1 [|]]; [reflexivity|].
    rewrite IH by apply split_on_last.
    destruct (read_lines trim delta_content _) as [c2 [|]]; [reflexivity|].
    now rewrite app_assoc.
Qed.

(** X20.  What the reader of [streamChat] and [streamChatBackend] shows does not
    depend on how the network cuts the text into chunks: the same text,
    ending the same way, gives the same calls of [onChunk], [onDone] and
    [onError], in the same order. *)
Theorem read_stream_chunking (failure : string) (cs cs' : list string) (e : Ending) :
  text_of cs = text_of cs' ->
  read_stream trim delta_content failure EmptyString cs e
  = read_stream trim delta_content failure EmptyString cs' e.
Proof.
  intros H. rewrite !read_stream_lines by reflexivity. now rewrite H.
Qed.

(** *** The relay of [/api/chat] seen from the client *)

Lemma forward_lines (lines : list string) (out : list string) :
  fold_left (forward_line trim) lines out
  = out ++ map (fun l => (l ++ blank_line)%string)
             (filter (fun l => negb (passed_over (trim l))) lines).
Proof.
  revert out. induction lines as [|l lines IH]; intros out; cbn [fold_left filter map].
  - now rewrite app_nil_r.
  - rewrite IH. unfold forward_line. destruct (passed_over (trim l)); cbn [negb map].
    + reflexivity.
    + now rewrite <- app_assoc.
Qed.

Lemma split_on_events (events : list string) :
  (forall l, In l events -> has_char LF l = false) ->
  removelast (split_on LF (text_of (map (fun l => (l ++ blank_line)%string) events)))
  = flat_map (fun l => [l; EmptyString]) events.
Proof.
  induction events as [|l events IH]; intros H; [reflexivity|].
  cbn [map flat_map app].
  change (text_of ((l ++ blank_line)%string :: ?rest))
    with ((l ++ blank_line) ++ text_of rest)%string.
  rewrite String_app_assoc.
  change (blank_line ++ ?t)%string with (String LF EmptyString ++ (EmptyString ++ String LF EmptyString ++ t))%string.
  rewrite split_on_line by (apply H; now left).
  rewrite split_on_line by reflexivity.
  pose proof (split_on_nonempty LF
                (text_of (map (fun l => (l ++ blank_line)%string) events))) as Hne.
  rewrite <- IH by (intros x Hx; apply H; now right).
  destruct (split_on LF (text_of (map (fun l => (l ++ blank_line)%string) events)));
    [contradiction | reflexivity].
Qed.

Lemma read_lines_blank_lines (events : list string) :
  trim EmptyString = EmptyString ->
  read_lines trim delta_content (flat_map (fun l => [l; EmptyString]) events)
  = read_lines trim delta_content events.
Proof.
  intros Hblank. induction events as [|l events IH]; [reflexivity|].
  cbn [flat_map app read_lines]. rewrite Hblank.
  change (passed_over EmptyString) with true. cbv iota. now rewrite IH.
Qed.

Lemma read_lines_filter (lines : list string) :
  read_lines trim delta_content (filter (fun l => negb (passed_over (trim l))) lines)
  = read_lines trim delta_content lines.
Proof.
  induction lines as [|l lines IH]; [reflexivity|].
  cbn [filter read_lines]. destruct (passed_over (trim l)) eqn:E; cbn [negb]; [exact IH|].
  cbn [read_lines]. rewrite E, IH. reflexivity.
Qed.

Lemma in_removelast {A} (l : list A) (x : A) : In x (removelast l) -> In x l.
Proof.
  induction l as [|y l IH]; [contradiction|].
  cbn [removelast]. destruct l as [|z l]; [contradiction|].
  intros [<- | H]; [now left | right; now apply IH].
Qed.

(** X21.  The relay of [/api/chat] is transparent to the reader of the client.
    When [trim] leaves the empty string and [data: [DONE]] as they are, and
    the response of the service ends normally, the reader makes the same
    calls on the output of the relay, however the network cuts it, as on the
    response of the service itself. *)
Theorem relay_plain_transparent (failure : string) (upstream network : list string) :
  trim EmptyString = EmptyString ->
  trim "data: [DONE]" = "data: [DONE]"%string ->
  text_of network = text_of (relay_plain trim (Some {| chunks := upstream; ending := done |})) ->
  read_stream trim delta_content failure EmptyString network done
  = read_stream trim delta_content failure EmptyString upstream done.
Proof.
  intros Hblank Hdone Htext.
  rewrite !read_stream_lines by reflexivity. rewrite Htext. clear Htext.
  cbn [String.append].
  set (lines := removelast (split_on LF (text_of upstream))).
  assert (Hout : relay_plain trim (Some {| chunks := upstream; ending := done |})
                 = map (fun l => (l ++ blank_line)%string)
                     (filter (fun l => negb (passed_over (trim l))) lines
                      ++ ["data: [DONE]"%string])).
  { unfold relay_plain. cbn [chunks ending].
    pose proof (read_loop (forward_line trim) upstream EmptyString [] eq_refl) as H.
    unfold forward_read. cbv zeta in H. rewrite H. cbn [snd String.append].
    fold lines. rewrite forward_lines, map_app. reflexivity. }
  rewrite Hout, split_on_events.
  - rewrite (read_lines_blank_lines _ Hblank), read_lines_app, read_lines_filter.
    destruct (read_lines trim delta_content lines) as [calls [|]]; [reflexivity|].
    cbn [read_lines]. rewrite Hdone. reflexivity.
  - intros l Hl. apply in_app_or in Hl. destruct Hl as [Hl | [<- | []]]; [|reflexivity].
    apply filter_In in Hl. destruct Hl as (Hl & _). unfold lines in Hl.
    apply in_removelast in Hl. now apply split_on_pieces in Hl.
Qed.

End EventStreamFacts.

(** ** The name of a technique *)

Section Words.

Variable sep : ascii.

Lemma occurrences_app (s t : string) :
  occurrences sep (s ++ t) = (occurrences sep s + occurrences sep t)%nat.
Proof. induction s as [|c s IH]; simpl; [reflexivity|]. rewrite IH. lia. Qed.

Lemma occurrences_none (s : string) : has_char sep s = false -> occurrences sep s = 0%nat.
Proof.
  induction s as [|c s IH]; simpl; [reflexivity|].
  intros H. apply orb_false_iff in H. destruct H as (-> & H). now rewrite IH.
Qed.

(** Joining the pieces gives the string back. *)
Lemma concat_cons (sp x y : string) (l : list string) :
  String.concat sp (x :: y :: l) = (x ++ sp ++ String.concat sp (y :: l))%string.
Proof. reflexivity. Qed.

Lemma join_split_on (s : string) : join (String sep EmptyString) (split_on sep s) = s.
Proof.
  unfold join. induction s as [|c s IH]; [reflexivity|].
  cbn [split_on]. pose proof (split_on_nonempty sep s) as Hne.
  destruct (split_on sep s) as [|h tl]; [contradiction|].
  destruct (c =? sep)%char eqn:Ec.
  - apply Ascii.eqb_eq in Ec. subst c.
    rewrite concat_cons, IH. reflexivity.
  - destruct tl as [|h' tl].
    + cbn [String.concat] in IH |- *. now rewrite IH.
    + rewrite concat_cons in IH |- *. cbn [String.append] in IH |- *. now rewrite IH.
Qed.

Lemma prefix_app (a b c : string) : prefix (a ++ b) (a ++ c) = prefix b c.
Proof.
  induction a as [|x a IH]; [reflexivity|].
  cbn [String.append prefix]. destruct (ascii_dec x x); [exact IH | contradiction].
Qed.

Lemma prefix_nil_r (a b : string) : prefix a (a ++ b) = true.
Proof.
  rewrite <- (String_app_nil_r a) at 1. rewrite prefix_app. destruct b; reflexivity.
Qed.

Lemma prefix_refl (a : string) : prefix a a = true.
Proof. rewrite <- (String_app_nil_r a) at 2. apply prefix_nil_r. Qed.

(** Joining the first pieces gives a prefix of the join of all. *)
Lemma join_firstn_prefix (n : nat) (l : list string) :
  prefix (join (String sep EmptyString) (firstn n l)) (join (String sep EmptyString) l) = true.
Proof.
  unfold join. revert n. induction l as [|x l IH]; intros n.
  - destruct n; reflexivity.
  - destruct n as [|n]; [destruct (String.concat _ (x :: l)); reflexivity|].
    cbn [firstn]. destruct l as [|y l].
    + destruct n; cbn [firstn String.concat]; apply prefix_refl.
    + specialize (IH n). destruct n as [|n].
      * cbn [firstn]. rewrite concat_cons. apply prefix_nil_r.
      * cbn [firstn] in *. rewrite !concat_cons, !prefix_app. exact IH.
Qed.

Lemma join_occurrences (l : list string) :
  (forall x, In x l -> has_char sep x = false) ->
  occurrences sep (join (String sep EmptyString) l) = (List.length l - 1)%nat.
Proof.
  unfold join. induction l as [|x l IH]; intros H; [reflexivity|].
  destruct l as [|y l].
  - cbn [String.concat]. apply occurrences_none, H. now left.
  - rewrite concat_cons.
    rewrite !occurrences_app, IH by (intros z Hz; apply H; now right).
    rewrite occurrences_none by (apply H; now left).
    cbn [occurrences List.length]. rewrite Ascii.eqb_refl. lia.
Qed.

End Words.

(** X22.  [extractTechniqueName] returns the beginning of the lesson: a prefix of
    it that holds at most two spaces, and the whole lesson when the lesson
    holds at most two. *)
Theorem extractTechniqueName_prefix (lesson : string) :
  prefix (extractTechniqueName lesson) lesson = true /\
  (occurrences " " (extractTechniqueName lesson) <= 2)%nat /\
  ((occurrences " " lesson <= 2)%nat -> extractTechniqueName lesson = lesson).
Proof.
  unfold extractTechniqueName.
  pose proof (join_split_on " "%char lesson) as Hjoin.
  pose proof (join_firstn_prefix " "%char 3 (split_on " "%char lesson)) as Hpre.
  rewrite Hjoin in Hpre.
  assert (Hpieces : forall x, In x (split_on " "%char lesson) -> has_char " "%char x = false)
    by (intros x; apply split_on_pieces).
  split; [exact Hpre|]. split.
  - rewrite join_occurrences.
    + rewrite length_firstn. lia.
    + intros x Hx. apply Hpieces. eapply in_firstn; eassumption.
  - intros Hfew. rewrite <- Hjoin in Hfew. rewrite join_occurrences in Hfew by exact Hpieces.
    rewrite firstn_all2 by lia. exact Hjoin.
Qed.

(** ** The route that initialises a persona *)

Lemma POST_api_mentalist_init_cases body w r w' :
  POST_api_mentalist_init body w = Some (r, w') ->
  (answer r = init_error "Failed to initialize mentalist" /\ init_status r = 500 /\
   db w' = db w) \/
  (exists b id, body = Some b /\ MentalistInitBody.id b = MentalistInitBody.text id /\
     answer r = already_exists id /\ init_status r = 200 /\ w' = w /\
     mentalist_row id (db w) <> None) \/
  (exists b id m, body = Some b /\ MentalistInitBody.id b = MentalistInitBody.text id /\
     answer r = initialized id /\ init_status r = 200 /\
     mentalist_row id (db w) = None /\
     db w' = with_mentalists (fun t => t ++ [m]) (db w) /\
     mentalists.id m = id /\
     mentalists.experience_level m = 0 /\
     mentalists.total_performances m = 0 /\
     mentalists.successful_tricks m = Some [] /\
     mentalists.learning_enabled m = true).
Proof.
  unfold POST_api_mentalist_init. intros H.
  destruct body as [b|]; [|injection H as <- <-; left; repeat split].
  destruct (MentalistInitBody.id b) as [| |id] eqn:Hid.
  - injection H as <- <-. left. repeat split.
  - unfold Date_now in H.
    destruct (MentalistInitBody.required (MentalistInitBody.name b));
      [|injection H as <- <-; left; repeat split].
    destruct (MentalistInitBody.required (MentalistInitBody.title b));
      [|injection H as <- <-; left; repeat split].
    destruct (MentalistInitBody.required (MentalistInitBody.tagline b));
      [|injection H as <- <-; left; repeat split].
    destruct (MentalistInitBody.required (MentalistInitBody.avatarUrl b));
      [|injection H as <- <-; left; repeat split].
    destruct (MentalistInitBody.required (MentalistInitBody.systemPrompt b));
      [discriminate H | injection H as <- <-; left; repeat split].
  - destruct (mentalist_row id (db w)) as [m|] eqn:Hrow.
    { injection H as <- <-. right. left. exists b, id. repeat split; try assumption.
      congruence. }
    unfold Date_now in H.
    destruct (MentalistInitBody.required (MentalistInitBody.name b)) as [name|];
      [|injection H as <- <-; left; repeat split].
    destruct (MentalistInitBody.required (MentalistInitBody.title b)) as [title|];
      [|injection H as <- <-; left; repeat split].
    destruct (MentalistInitBody.required (MentalistInitBody.tagline b)) as [tagline|];
      [|injection H as <- <-; left; repeat split].
    destruct (MentalistInitBody.required (MentalistInitBody.avatarUrl b)) as [avatarUrl|];
      [|injection H as <- <-; left; repeat split].
    destruct (MentalistInitBody.required (MentalistInitBody.systemPrompt b)) as [systemPrompt|];
      [|injection H as <- <-; left; repeat split].
    unfold run_checked, INSERT_mentalists in H. cbn [db] in H.
    unfold mentalist_row in Hrow. pose proof (find_none_existsb_false _ _ Hrow) as Hfree.
    unfold has_mentalist in H. rewrite Hfree in H. injection H as <- <-.
    right. right. eexists b, id, _. repeat split; try assumption; reflexivity.
Qed.

Lemma POST_api_mentalist_init_again b id w :
  MentalistInitBody.id b = MentalistInitBody.text id ->
  mentalist_row id (db w) <> None ->
  POST_api_mentalist_init (Some b) w
  = Some ({| init_status := 200; answer := already_exists id |}, w).
Proof.
  intros Hid Hrow. unfold POST_api_mentalist_init. rewrite Hid.
  destruct (mentalist_row id (db w)); [reflexivity | contradiction].
Qed.

(** The requests the development leaves out: a [null] id with the five
    required properties given as strings. *)
Lemma POST_api_mentalist_init_outside body w :
  POST_api_mentalist_init body w = None <->
  exists b,
    body = Some b /\ MentalistInitBody.id b = MentalistInitBody.null /\
    MentalistInitBody.required (MentalistInitBody.name b) <> None /\
    MentalistInitBody.required (MentalistInitBody.title b) <> None /\
    MentalistInitBody.required (MentalistInitBody.tagline b) <> None /\
    MentalistInitBody.required (MentalistInitBody.avatarUrl b) <> None /\
    MentalistInitBody.required (MentalistInitBody.systemPrompt b) <> None.
Proof.
  unfold POST_api_mentalist_init, Date_now, run_checked. split.
  - intros H. destruct body as [b|]; [|discriminate]. exists b. split; [reflexivity|].
    destruct (MentalistInitBody.id b) as [| |id]; [discriminate | |].
    + destruct (MentalistInitBody.required (MentalistInitBody.name b)); [|discriminate].
      destruct (MentalistInitBody.required (MentalistInitBody.title b)); [|discriminate].
      destruct (MentalistInitBody.required (MentalistInitBody.tagline b)); [|discriminate].
      destruct (MentalistInitBody.required (MentalistInitBody.avatarUrl b)); [|discriminate].
      destruct (MentalistInitBody.required (MentalistInitBody.systemPrompt b)); [|discriminate].
      repeat split; discriminate.
    + exfalso. destruct (mentalist_row id (db w)); [discriminate|].
      destruct (MentalistInitBody.required (MentalistInitBody.name b)); [|discriminate].
      destruct (MentalistInitBody.required (MentalistInitBody.title b)); [|discriminate].
      destruct (MentalistInitBody.required (MentalistInitBody.tagline b)); [|discriminate].
      destruct (MentalistInitBody.required (MentalistInitBody.avatarUrl b)); [|discriminate].
      destruct (MentalistInitBody.required (MentalistInitBody.systemPrompt b)); [|discriminate].
      cbn [db] in H. destruct (INSERT_mentalists _ _ _ _ _ _ _ _ (db w)); discriminate.
  - intros (b & -> & Hid & H1 & H2 & H3 & H4 & H5). rewrite Hid.
    destruct (MentalistInitBody.required (MentalistInitBody.name b)); [|contradiction].
    destruct (MentalistInitBody.required (MentalistInitBody.title b)); [|contradiction].
    destruct (MentalistInitBody.required (MentalistInitBody.tagline b)); [|contradiction].
    destruct (MentalistInitBody.required (MentalistInitBody.avatarUrl b)); [|contradiction].
    destruct (MentalistInitBody.required (MentalistInitBody.systemPrompt b)); [|contradiction].
    reflexivity.
Qed.

(** X23.  [POST /api/mentalist/init] never overwrites a persona.  For a
    request that writes no row with a NULL key (its id is a string or
    missing, or it lacks a required property), the personas stored before
    stay as they are, in their order, and the other tables are untouched; at
    most one row is added.  When the answer is that the persona was
    initialised, it was not stored before and its new row starts at level 0
    with no performance, no successful trick and learning enabled; when the
    answer is that it exists already, nothing was written.  After either
    answer, any further request for that id, whatever its other properties,
    is answered with "exists already" and writes nothing: what the persona
    has learned survives. *)
Theorem POST_api_mentalist_init_keeps_personas body w r w' :
  POST_api_mentalist_init body w = Some (r, w') ->
  (exists added,
     t_mentalists (db w') = t_mentalists (db w) ++ added /\ (List.length added <= 1)%nat) /\
  t_experiences (db w') = t_experiences (db w) /\
  t_performance_metrics (db w') = t_performance_metrics (db w) /\
  t_chat_sessions (db w') = t_chat_sessions (db w) /\
  t_session_messages (db w') = t_session_messages (db w) /\
  (forall id, answer r = initialized id ->
     mentalist_row id (db w) = None /\
     exists m,
       mentalist_row id (db w') = Some m /\
       mentalists.experience_level m = 0 /\
       mentalists.total_performances m = 0 /\
       mentalists.successful_tricks m = Some [] /\
       mentalists.learning_enabled m = true) /\
  (forall id, answer r = already_exists id -> w' = w) /\
  (forall id again,
     answer r = initialized id \/ answer r = already_exists id ->
     MentalistInitBody.id again = MentalistInitBody.text id ->
     POST_api_mentalist_init (Some again) w'
     = Some ({| init_status := 200; answer := already_exists id |}, w')).
Proof.
  intros E.
  destruct (POST_api_mentalist_init_cases body w r w' E)
    as [(Hans & _ & Hdb) | [(b & id & -> & Hid & Hans & _ & -> & Hrow)
                           | (b & id & m & -> & Hid & Hans & _ & Hrow & Hdb & Hm & H0 & H1 & H2 & H3)]].
  - rewrite Hdb. split; [exists []; rewrite app_nil_r; split; [reflexivity | cbn; lia]|].
    repeat (split; [reflexivity|]).
    split; [intros id H; congruence|]. split; [intros id H; congruence|].
    intros id again [H | H]; congruence.
  - split; [exists []; rewrite app_nil_r; split; [reflexivity | cbn; lia]|].
    repeat (split; [reflexivity|]).
    split; [intros id' H; congruence|]. split; [reflexivity|].
    intros id' again [H | H] Hagain; [congruence|].
    assert (id' = id) by congruence. subst id'.
    now apply POST_api_mentalist_init_again.
  - assert (Hnew : mentalist_row id (db w') = Some m).
    { rewrite Hdb. unfold mentalist_row in *. cbn [t_mentalists with_mentalists].
      rewrite (find_app_none _ _ _ Hrow). now rewrite Hm, String.eqb_refl. }
    rewrite Hdb. cbn [t_mentalists t_experiences t_performance_metrics t_chat_sessions
                      t_session_messages with_mentalists].
    split; [exists [m]; split; [reflexivity | cbn; lia]|].
    repeat (split; [reflexivity|]).
    split.
    { intros id' H. assert (id' = id) by congruence. subst id'.
      split; [exact Hrow|]. exists m. rewrite <- Hdb. repeat split; assumption. }
    split; [intros id' H; congruence|].
    intros id' again [H | H] Hagain; [|congruence].
    assert (id' = id) by congruence. subst id'.
    apply POST_api_mentalist_init_again; [exact Hagain | congruence].
Qed.

(** ** The user id of the client *)

Section ClientIds.

Import UserIdentityService UserIdentity.

Lemma generateUserIdFromFingerprint_valid (data : list Z) :
  truthy (generateUserIdFromFingerprint data) = true /\
  isValidUserId (generateUserIdFromFingerprint data) = true.
Proof.
  split; [reflexivity|].
  destruct (toString36_numeral (Z.abs (fold_left mix data 0)) (Z.abs_nonneg _))
    as (Hne & Hall & _).
  unfold isValidUserId, generateUserIdFromFingerprint. rewrite after_prefix_app, Hall.
  destruct (toString36 (Z.abs (fold_left mix data 0))); [contradiction | reflexivity].
Qed.

Lemma to_int_digits (z : Z) :
  Z.to_int z <> Decimal.Pos Decimal.Nil /\ Z.to_int z <> Decimal.Neg Decimal.Nil.
Proof.
  destruct z as [|p|p]; cbn; split; try discriminate; intros H; injection H as H;
    exact (DecimalPos.Unsigned.to_uint_nonnil p H).
Qed.

Lemma dec_injective (a b : Z) : dec a = dec b -> a = b.
Proof.
  unfold dec. intros H.
  apply (f_equal NilZero.int_of_string) in H.
  destruct (to_int_digits a) as (Ha1 & Ha2). destruct (to_int_digits b) as (Hb1 & Hb2).
  rewrite !NilZero.isi in H by assumption.
  injection H as H. now apply DecimalZ.to_int_inj.
Qed.

(** X24.  With a working [localStorage] the id of the user is stable: whatever
    [getUserId] returns, every later call returns the same id and leaves the
    storage as it is, whatever the fingerprint of the browser has become.
    When no id was stored the id is the hash of the fingerprint, which the
    [isValidUserId] of the backend accepts; and after [clearUserId] the next
    id is the hash of the fingerprint of that time. *)
Theorem getUserId_stable (data : list Z) (now : Z) (s : Storage) :
  access s = works ->
  let userId := fst (getUserId data now s) in
  let s' := snd (getUserId data now s) in
  (forall data' now', getUserId data' now' s' = (userId, s')) /\
  hasExistingUserId s' = true /\
  (item s = None ->
     userId = generateUserIdFromFingerprint data /\ isValidUserId userId = true) /\
  (forall data' now',
     fst (getUserId data' now' (clearUserId s')) = generateUserIdFromFingerprint data').
Proof.
  intros Hacc userId s'. subst userId s'.
  destruct (generateUserIdFromFingerprint_valid data) as (Htruthy & Hvalid).
  assert (Hkept : forall t, access t = works -> truthy (field (item t)) = true ->
            forall d n, getUserId d n t = (field (item t), t)).
  { intros t Ht Hi d n. unfold getUserId. now rewrite Ht, Hi. }
  assert (Hmade : forall t, access t = works -> truthy (field (item t)) = false ->
            forall d n, getUserId d n t
                        = (generateUserIdFromFingerprint d,
                           {| access := works; item := Some (generateUserIdFromFingerprint d) |})).
  { intros t Ht Hi d n. unfold getUserId. now rewrite Ht, Hi. }
  assert (Hcleared : forall t, access t = works ->
            forall d n, fst (getUserId d n (clearUserId t)) = generateUserIdFromFingerprint d).
  { intros t Ht d n. unfold clearUserId. rewrite Ht. now rewrite Hmade. }
  destruct (truthy (field (item s))) eqn:Hitem.
  - rewrite (Hkept s Hacc Hitem). cbn [fst snd].
    split; [intros d n; now apply Hkept|].
    split.
    { unfold hasExistingUserId. rewrite Hacc. destruct (item s); [reflexivity | discriminate]. }
    split; [intros Hnone; rewrite Hnone in Hitem; discriminate|].
    intros d n. now apply Hcleared.
  - rewrite (Hmade s Hacc Hitem). cbn [fst snd].
    split; [intros d n; now rewrite Hkept|].
    split; [reflexivity|].
    split; [intros _; split; [reflexivity | exact Hvalid]|].
    intros d n. now apply Hcleared.
Qed.

(** X25.  When [localStorage] cannot be used, or holds no id and cannot be
    written, [getUserId] returns [user_temp_] followed by the time and stores
    nothing.  The [isValidUserId] of the backend rejects such an id, and
    calls at different times return different ids. *)
Theorem getUserId_fallback (data : list Z) (now : Z) (s : Storage) :
  access s = blocked \/ (access s = read_only /\ item s = None) ->
  getUserId data now s = (("user_temp_" ++ dec now)%string, s) /\
  isValidUserId (fst (getUserId data now s)) = false /\
  (forall data' now', now' <> now ->
     fst (getUserId data' now' s) <> fst (getUserId data now s)).
Proof.
  intros H.
  assert (Hrun : forall d n, getUserId d n s = (("user_temp_" ++ dec n)%string, s)).
  { intros d n. unfold getUserId.
    destruct H as [-> | (-> & ->)]; reflexivity. }
  rewrite !Hrun. cbn [fst]. split; [reflexivity|]. split; [reflexivity|].
  intros data' now' Hne. rewrite Hrun. cbn [fst]. intros E. apply Hne.
  apply dec_injective.
  change ("user_temp_" ++ dec now')%string with ("user_temp_" ++ dec now')%string in E.
  cbn [String.append] in E. now repeat injection E as E.
Qed.

End ClientIds.

(** ** The further properties at work on the sample data *)

(** A skeptical second attempt of ["card_force"] leaves the metrics of
    persona ["P"] in range. *)
Lemma updateTrickMetrics_in_range_witness :
  Forall metric_in_range
    (t_performance_metrics
       (db (snd (updateTrickMetrics "P" (Sample.attempt "card_force" skeptical)
                   Sample2.after_one)))).
Proof.
  apply updateTrickMetrics_in_range.
  - constructor; [|constructor].
    unfold metric_in_range, Qle. vm_compute. repeat split; discriminate.
  - constructor; [|constructor]. vm_compute. reflexivity.
Defined.

(** A first attempt of ["coin"] leaves the row of ["card_force"] alone. *)
Lemma updateTrickMetrics_other_pairs_witness :
  filter (fun r => negb (metric_of "P" "coin" r))
    (t_performance_metrics
       (db (snd (updateTrickMetrics "P" (Sample.attempt "coin" amazed) Sample2.after_one))))
  = filter (fun r => negb (metric_of "P" "coin" r))
      (t_performance_metrics (db Sample2.after_one)).
Proof.
  apply (updateTrickMetrics_other_pairs "P" (Sample.attempt "coin" amazed) Sample2.after_one).
  vm_compute. constructor; [intros [] | constructor].
Defined.

(** A second capture for ["session_1"] stores a second outcome for it. *)
Lemma captureExperience_one_more_outcome_witness :
  List.length (outcomes_of "session_1" (db Sample2.after_one)) = 1%nat /\
  List.length
    (outcomes_of "session_1"
       (db (snd (captureExperience "P" "user_1" "session_1"
                   (Sample.analysis "card_force" (4 # 5) "smile more") Sample.six_turns 60
                   Sample2.after_one)))) = 2%nat.
Proof.
  split; [reflexivity|].
  rewrite (captureExperience_one_more_outcome "P" "user_1" "session_1"
             (Sample.analysis "card_force" (4 # 5) "smile more") Sample.six_turns 60
             Sample2.after_one).
  - reflexivity.
  - vm_compute. reflexivity.
  - intros _. vm_compute. reflexivity.
Defined.

(** With one open session of ["user_1"], another user opens a session with
    the same persona: still no user has two active sessions with it. *)
Lemma EnhancedChat_one_active_session_witness :
  one_active_session (db (snd (getOrCreateSession "user_2" "P" (snd Sample3.opened)))).
Proof.
  destruct (EnhancedChat_one_active_session (snd Sample3.opened)) as (H & _ & _).
  - intros u m. vm_compute t_chat_sessions. cbn [filter].
    destruct (active_for u m _); cbn; lia.
  - apply H.
Defined.


(** The reply saved a second later is read back after the message of the
    user. *)
Lemma getSessionMessages_after_saveMessage_witness :
  exists earlier,
    getSessionMessages Sample3.sid Sample5.talked = (Returned earlier, Sample5.talked) /\
    fst (getSessionMessages Sample3.sid
           (snd (saveMessage Sample3.sid "assistant" "thank you" Sample5.talked)))
    = Returned (earlier ++
        [ {| TimedMessage.role := "assistant";
             TimedMessage.content := "thank you";
             TimedMessage.timestamp := 1700000005000 |} ]).
Proof.
  destruct (getSessionMessages_after_saveMessage Sample3.sid "assistant" "thank you"
              Sample5.talked
              (snd (saveMessage Sample3.sid "assistant" "thank you" Sample5.talked)))
    as (earlier & H1 & H2 & _).
  - rewrite (surjective_pairing
               (saveMessage Sample3.sid "assistant" "thank you" Sample5.talked)) at 1.
    f_equal; vm_compute; reflexivity.
  - intros m Hm. vm_compute in Hm. destruct Hm as [<- | []]. vm_compute. reflexivity.
  - exists earlier. split; [exact H1|]. rewrite H2. reflexivity.
Defined.

(** A message for the session of [Sample3] once it is ended. *)
Lemma saveMessage_after_endSession_witness :
  exists w2 s2,
    saveMessage Sample3.sid "user" "one more" Sample3.ended_once = (Returned tt, w2) /\
    session_row Sample3.sid (db w2) = Some s2 /\
    chat_sessions.is_active s2 = false /\
    chat_sessions.end_time s2 = Some 1700000002 /\
    chat_sessions.message_count s2 = 1.
Proof.
  edestruct (saveMessage_after_endSession Sample3.sid "user" "one more" (snd Sample3.opened))
    as (w2 & s2 & H1 & _ & H3 & H4 & H5 & H6).
  - vm_compute. reflexivity.
  - vm_compute. reflexivity.
  - exists w2, s2. split; [exact H1|]. split; [exact H3|]. split; [exact H4|].
    split; [exact H5 | exact H6].
Defined.


(** After the first session of ["user_1"] with ["P"] the user is a
    returning one. *)
Lemma isReturningUser_after_capture_witness :
  UserMemoryService.isReturningUser "user_1" "P" Sample2.after_one
  = (Returned true, Sample2.after_one).
Proof.
  apply (isReturningUser_after_capture "P" "user_1" "session_1"
           (Sample.analysis "card_force" (4 # 5) "smile more") Sample.six_turns 60
           (Sample.world ["P"%string])).
  - vm_compute. reflexivity.
  - intros _. vm_compute. reflexivity.
Defined.

(** The same response in three chunks and in one. *)
Lemma relay_enhanced_chunking_witness :
  relay_enhanced Sample6.trim Sample6.delta_content Sample6.message_of Sample3.sid
    (Some {| chunks := Sample6.in_pieces; ending := done |}) Sample5.talked
  = relay_enhanced Sample6.trim Sample6.delta_content Sample6.message_of Sample3.sid
      (Some {| chunks := Sample6.in_one; ending := done |}) Sample5.talked.
Proof.
  apply relay_enhanced_chunking. reflexivity.
Defined.

(** An event that is not closed by a line feed when the stream ends. *)
Lemma relay_enhanced_unfinished_line_witness :
  relay_enhanced Sample6.trim Sample6.delta_content Sample6.message_of Sample3.sid
    (Some {| chunks := Sample6.in_one ++ ["data: lost"%string]; ending := done |})
    Sample5.talked
  = relay_enhanced Sample6.trim Sample6.delta_content Sample6.message_of Sample3.sid
      (Some {| chunks := Sample6.in_one; ending := done |}) Sample5.talked.
Proof.
  apply relay_enhanced_unfinished_line. reflexivity.
Defined.

(** The reader shows ["hello"] then ["world"] and is done, in three chunks
    as in one. *)
Lemma read_stream_chunking_witness :
  read_stream Sample6.trim Sample6.delta_content "failed" EmptyString Sample6.in_pieces done
  = [onChunk "hello"; onChunk "world"; onDone] /\
  read_stream Sample6.trim Sample6.delta_content "failed" EmptyString Sample6.in_one done
  = [onChunk "hello"; onChunk "world"; onDone].
Proof.
  split; [|vm_compute; reflexivity].
  rewrite (read_stream_chunking Sample6.trim Sample6.delta_content "failed"
             Sample6.in_pieces Sample6.in_one done).
  - vm_compute. reflexivity.
  - reflexivity.
Defined.

(** Read through the relay, the response of the service gives the calls it
    gives when read directly. *)
Lemma relay_plain_transparent_witness :
  read_stream Sample6.trim Sample6.delta_content "failed" EmptyString
    (relay_plain Sample6.trim (Some {| chunks := Sample6.in_pieces; ending := done |})) done
  = read_stream Sample6.trim Sample6.delta_content "failed" EmptyString Sample6.in_pieces done.
Proof.
  apply relay_plain_transparent.
  - reflexivity.
  - vm_compute. reflexivity.
  - reflexivity.
Defined.

(** A browser with an empty, working storage. *)
Lemma getUserId_stable_witness :
  let s := {| UserIdentity.access := UserIdentity.works; UserIdentity.item := None |} in
  UserIdentity.getUserId [104; 105] 9
    (snd (UserIdentity.getUserId [104; 105] 5 s))
  = UserIdentity.getUserId [104; 105] 5 s.
Proof.
  cbv zeta.
  destruct (getUserId_stable [104; 105] 5
              {| UserIdentity.access := UserIdentity.works; UserIdentity.item := None |}
              eq_refl) as (H & _).
  rewrite H. reflexivity.
Defined.

(** A browser that blocks the storage, asked at two times. *)
Lemma getUserId_fallback_witness :
  fst (UserIdentity.getUserId [104; 105] 5
         {| UserIdentity.access := UserIdentity.blocked; UserIdentity.item := None |})
  = "user_temp_5"%string /\
  UserIdentityService.isValidUserId "user_temp_5" = false.
Proof.
  destruct (getUserId_fallback [104; 105] 5
              {| UserIdentity.access := UserIdentity.blocked; UserIdentity.item := None |}
              (or_introl eq_refl)) as (H1 & H2 & _).
  rewrite H1 in H2. split; [now rewrite H1 | exact H2].
Defined.

(** Persona ["Q"] is initialised in a store that holds ["P"]; any further
    request for ["Q"] is answered with "exists already". *)
Lemma POST_api_mentalist_init_keeps_personas_witness :
  exists w',
    POST_api_mentalist_init (Some Sample7.request) (Sample.world ["P"%string])
    = Some ({| init_status := 200; answer := initialized "Q" |}, w') /\
    forall again,
      MentalistInitBody.id again = MentalistInitBody.text "Q" ->
      POST_api_mentalist_init (Some again) w'
      = Some ({| init_status := 200; answer := already_exists "Q" |}, w').
Proof.
  eexists. split; [reflexivity|].
  intros again Hagain.
  apply (POST_api_mentalist_init_keeps_personas (Some Sample7.request)
           (Sample.world ["P"%string]) _ _ eq_refl); [left; reflexivity | exact Hagain].
Defined.
